(** * BareMetalNIC: descriptor-ring I/O engines

    A shallow embedding of the three userspace NIC drivers of the repository
    (the memory-mapped [CustomNICDriver], the [BroadcomNetXtreme] driver and
    the simulated [SolarflareEFVI] backend) together with the properties of
    their receive, transmit and reclaim paths.

    Conventions.
    - A C++ unsigned integer of width [w] is a [Z]; each arithmetic step that
      can leave the range is wrapped with [wrap w].
    - A pointer is a [Z] address, [0] being [nullptr].
    - Descriptor rings are lists indexed by the ring cursors; the register
      window and the DMA packet memory are finite maps keyed by register
      offset and by byte address.
    - A call that would touch memory it does not own, or a loop that does
      not come to an end, yields a [Fault] instead of a result.
    - The order in which a call stores to DMA memory, issues its fences and
      writes registers is kept as a list of events next to the state-passing
      functions (modules [Ordering], [BroadcomTrace], [CustomTrace]). *)

From Stdlib Require Import ZArith Lia List Bool String.
From stdpp Require Import base option list gmap.

Open Scope Z_scope.

(** ** Machine-level helpers shared by the three drivers *)

Module Machine.

Definition wrap (w x : Z) : Z := x mod 2 ^ w.
Definition wrap16 : Z -> Z := wrap 16.
Definition wrap32 : Z -> Z := wrap 32.
Definition wrap64 : Z -> Z := wrap 64.

Inductive fault : Type :=
| NullPointer    (* a load or store through nullptr *)
| OutOfBounds    (* an access outside the array or buffer it indexes *)
| OutOfFuel.     (* a loop that did not exit within its iteration budget *)

Inductive outcome (A : Type) : Type :=
| Ok (a : A)
| Fault (f : fault).
Arguments Ok {A} a.
Arguments Fault {A} f.

#[global] Instance outcome_ret : MRet outcome := fun A a => Ok a.

#[global] Instance outcome_bind : MBind outcome := fun A B k m =>
  match m with
  | Ok a => k a
  | Fault f => Fault f
  end.

(** [ring[i]] for a C array; the indices of the source are unsigned. *)
Definition at_index {A : Type} (ring : list A) (i : Z) : outcome A :=
  match ring !! Z.to_nat i with
  | Some d => Ok d
  | None => Fault OutOfBounds
  end.

(** Byte-addressed packet memory. *)
Abbreviation memory := (gmap Z Byte.byte).

Fixpoint store_bytes (m : memory) (dst : Z) (src : list Byte.byte) : memory :=
  match src with
  | [] => m
  | b :: rest => store_bytes (<[dst := b]> m) (dst + 1) rest
  end.

(** [std::memcpy(dst, src, n)]: [src] is the caller's array, of which the
    first [n] bytes are copied.  A copy of no bytes touches neither
    pointer.  The extent of the destination is not represented; the
    statements that depend on it bound [n] by the size of the destination. *)
Definition memcpy (m : memory) (dst : Z) (src : list Byte.byte) (n : Z)
  : outcome memory :=
  if n =? 0 then Ok m
  else if dst =? 0 then Fault NullPointer
  else if Z.of_nat (length src) <? n then Fault OutOfBounds
  else Ok (store_bytes m dst (take (Z.to_nat n) src)).

(** A memory-mapped register window: offset to 32-bit value. *)
Abbreviation regfile := (gmap Z Z).

(** [read_reg]/[read_reg32] and [write_reg]/[write_reg32] of the drivers:
    a volatile 32-bit load or store at [bar0_base_ + offset].  The fences
    that accompany some of the stores do not change any value; where they
    stand in program order is recorded separately, see [Ordering]. *)
Definition reg_read (r : regfile) (offset : Z) : Z := default 0 (r !! offset).
Definition reg_write (r : regfile) (offset value : Z) : regfile :=
  <[offset := wrap32 value]> r.

End Machine.

Import Machine.

(** ** BroadcomNetXtreme *)

Module Broadcom.

Definition REG_RX_RING_TAIL : Z := 0x2818.
Definition REG_TX_RING_TAIL : Z := 0x3818.

Definition DESC_STATUS_DD : Z := Z.shiftl 1 0.
Definition DESC_CMD_EOP : Z := Z.shiftl 1 24.
Definition DESC_CMD_IFCS : Z := Z.shiftl 1 25.

Definition RX_RING_SIZE : Z := 1024.
Definition TX_RING_SIZE : Z := 1024.
Definition MAX_PACKET_SIZE : Z := 9216.

Record RxDescriptor : Type := {
  rx_buffer_addr : Z;
  rx_length : Z;
  rx_checksum : Z;
  rx_status : Z;
  rx_errors : Z;
  rx_vlan_tag : Z;
  rx_rss_hash : Z;
  rx_timestamp_lo : Z
}.

Record TxDescriptor : Type := {
  tx_buffer_addr : Z;
  tx_cmd_type_len : Z;
  tx_status : Z;
  tx_checksum_offset : Z;
  tx_vlan_tag : Z;
  tx_timestamp_req : Z;
  tx_reserved : Z
}.

(** The driver object.  [bar0_] is the content of the mapped register
    window, [dma_] the bytes of the two packet-buffer regions whose base
    addresses are [rx_buffers_] and [tx_buffers_]. *)
Record BroadcomNetXtreme : Type := {
  bar0_ : regfile;
  dma_ : memory;
  rx_ring_ : list RxDescriptor;
  tx_ring_ : list TxDescriptor;
  rx_buffers_ : Z;
  tx_buffers_ : Z;
  rx_head_ : Z;
  tx_head_ : Z;
  tx_tail_ : Z;
  packets_received_ : Z;
  packets_sent_ : Z;
  initialized_ : bool
}.

Definition get_physical_addr (virt_addr : Z) : Z := virt_addr.

Definition set_tx_head (h : Z) (s : BroadcomNetXtreme) : BroadcomNetXtreme :=
  {| bar0_ := bar0_ s;
     dma_ := dma_ s; rx_ring_ := rx_ring_ s; tx_ring_ := tx_ring_ s;
     rx_buffers_ := rx_buffers_ s; tx_buffers_ := tx_buffers_ s;
     rx_head_ := rx_head_ s; tx_head_ := h; tx_tail_ := tx_tail_ s;
     packets_received_ := packets_received_ s;
     packets_sent_ := packets_sent_ s; initialized_ := initialized_ s |}.

Definition rx_clear_status (d : RxDescriptor) : RxDescriptor :=
  {| rx_buffer_addr := rx_buffer_addr d; rx_length := rx_length d;
     rx_checksum := rx_checksum d; rx_status := 0; rx_errors := rx_errors d;
     rx_vlan_tag := rx_vlan_tag d; rx_rss_hash := rx_rss_hash d;
     rx_timestamp_lo := rx_timestamp_lo d |}.

(** [receive_packet]: [Some (packet_out, len_out)] stands for [true] with
    the two out-parameters written, [None] for [false]. *)
Definition receive_packet (s : BroadcomNetXtreme)
  : outcome (option (Z * Z) * BroadcomNetXtreme) :=
  desc ← at_index (rx_ring_ s) (rx_head_ s);
  if Z.land (rx_status desc) DESC_STATUS_DD =? 0 then Ok (None, s)
  else
    let packet_out := rx_buffers_ s + wrap32 (rx_head_ s * MAX_PACKET_SIZE) in
    let len_out := rx_length desc in
    let ring := <[Z.to_nat (rx_head_ s) := rx_clear_status desc]> (rx_ring_ s) in
    let head := Z.land (wrap32 (rx_head_ s + 1)) (RX_RING_SIZE - 1) in
    let tail := Z.land (wrap32 (head - 1)) (RX_RING_SIZE - 1) in
    Ok (Some (packet_out, len_out),
        {| bar0_ := reg_write (bar0_ s) REG_RX_RING_TAIL tail;
           dma_ := dma_ s; rx_ring_ := ring; tx_ring_ := tx_ring_ s;
           rx_buffers_ := rx_buffers_ s; tx_buffers_ := tx_buffers_ s;
           rx_head_ := head; tx_head_ := tx_head_ s; tx_tail_ := tx_tail_ s;
           packets_received_ := wrap64 (packets_received_ s + 1);
           packets_sent_ := packets_sent_ s;
           initialized_ := initialized_ s |}).

(** The [while] loop of [reclaim_tx_descriptors], with an iteration budget. *)
Fixpoint reclaim_loop (fuel : nat) (s : BroadcomNetXtreme)
  : outcome BroadcomNetXtreme :=
  if tx_head_ s =? tx_tail_ s then Ok s
  else
    match fuel with
    | O => Fault OutOfFuel
    | S fuel' =>
        desc ← at_index (tx_ring_ s) (tx_head_ s);
        if Z.land (tx_status desc) DESC_STATUS_DD =? 0 then Ok s
        else reclaim_loop fuel'
               (set_tx_head (Z.land (wrap32 (tx_head_ s + 1)) (TX_RING_SIZE - 1)) s)
    end.

(** One pass visits every slot at most once, so [TX_RING_SIZE] iterations
    are the whole budget the loop can use (see [reclaim_loop_fuel_mono] and
    [reclaim_terminates]). *)
Definition reclaim_tx_descriptors (s : BroadcomNetXtreme)
  : outcome BroadcomNetXtreme :=
  reclaim_loop (Z.to_nat TX_RING_SIZE) s.

(** The part of [send_packet] after the ring-space check. *)
Definition send_packet_fill (next_tail : Z) (data : list Byte.byte) (length : Z)
    (s : BroadcomNetXtreme) : outcome (bool * BroadcomNetXtreme) :=
  let tx_buffer := tx_buffers_ s + wrap32 (tx_tail_ s * MAX_PACKET_SIZE) in
  mem ← memcpy (dma_ s) tx_buffer data length;
  desc ← at_index (tx_ring_ s) (tx_tail_ s);
  let desc' :=
    {| tx_buffer_addr := get_physical_addr tx_buffer;
       tx_cmd_type_len := wrap32 (Z.lor (Z.lor length DESC_CMD_EOP) DESC_CMD_IFCS);
       tx_status := 0;
       tx_checksum_offset := 0;
       tx_vlan_tag := 0;
       tx_timestamp_req := tx_timestamp_req desc;
       tx_reserved := tx_reserved desc |} in
  Ok (true,
      {| bar0_ := reg_write (bar0_ s) REG_TX_RING_TAIL next_tail;
         dma_ := mem; rx_ring_ := rx_ring_ s;
         tx_ring_ := <[Z.to_nat (tx_tail_ s) := desc']> (tx_ring_ s);
         rx_buffers_ := rx_buffers_ s; tx_buffers_ := tx_buffers_ s;
         rx_head_ := rx_head_ s; tx_head_ := tx_head_ s; tx_tail_ := next_tail;
         packets_received_ := packets_received_ s;
         packets_sent_ := wrap64 (packets_sent_ s + 1);
         initialized_ := initialized_ s |}).

(** [send_packet(data, length)]; [length] is a [uint16_t], and the
    statements about the call take it between 0 and 2^16 - 1. *)
Definition send_packet (data : list Byte.byte) (length : Z)
    (s : BroadcomNetXtreme) : outcome (bool * BroadcomNetXtreme) :=
  let next_tail := Z.land (wrap32 (tx_tail_ s + 1)) (TX_RING_SIZE - 1) in
  if next_tail =? tx_head_ s then
    s1 ← reclaim_tx_descriptors s;
    if next_tail =? tx_head_ s1 then Ok (false, s1)
    else send_packet_fill next_tail data length s1
  else send_packet_fill next_tail data length s.

Definition get_packets_received (s : BroadcomNetXtreme) : Z := packets_received_ s.
Definition get_packets_sent (s : BroadcomNetXtreme) : Z := packets_sent_ s.

End Broadcom.

(** ** CustomNICDriver *)

Module Custom.

Definition RX_RING_SIZE : Z := 512.
Definition TX_RING_SIZE : Z := 512.
Definition PACKET_BUFFER_SIZE : Z := 2048.

Module registers.
Definition RX_HEAD : Z := 0x2810.
Definition RX_TAIL : Z := 0x2818.
Definition TX_HEAD : Z := 0x6010.
Definition TX_TAIL : Z := 0x6018.
End registers.

(** The [status] union of the source is kept as its three members. *)
Record RXDescriptor : Type := {
  rx_buffer_addr : Z;
  header_addr : Z;
  pkt_len : Z;
  hdr_len : Z;
  status_flags : Z;
  rx_reserved : Z
}.

Record TXDescriptor : Type := {
  tx_buffer_addr : Z;
  cmd_type_len : Z;
  olinfo_status : Z;
  tx_reserved : Z
}.

Definition RX_DD_BIT : Z := Z.shiftl 1 0.
Definition TX_DD_BIT : Z := Z.shiftl 1 0.

(** [PacketStats] of common_types.hpp, as listed in PROJECT_SUMMARY.md. *)
Record PacketStats : Type := {
  packets_received : Z;
  packets_transmitted : Z;
  bytes_received : Z;
  bytes_transmitted : Z;
  rx_errors : Z;
  tx_errors : Z;
  rx_dropped : Z;
  tx_dropped : Z
}.

Definition PacketStats_new : PacketStats :=
  {| packets_received := 0; packets_transmitted := 0;
     bytes_received := 0; bytes_transmitted := 0;
     rx_errors := 0; tx_errors := 0; rx_dropped := 0; tx_dropped := 0 |}.

(** The driver object; [rx_buffers_] and [tx_buffers_] hold one buffer
    pointer per slot. *)
Record CustomNICDriver : Type := {
  bar0_ : regfile;
  dma_ : memory;
  rx_ring_ : list RXDescriptor;
  tx_ring_ : list TXDescriptor;
  rx_buffers_ : list Z;
  tx_buffers_ : list Z;
  rx_head_ : Z;
  tx_tail_ : Z;
  initialized_ : bool
}.

Definition read_reg32 (offset : Z) (s : CustomNICDriver) : Z :=
  reg_read (bar0_ s) offset.

Definition rx_clear_flags (d : RXDescriptor) : RXDescriptor :=
  {| rx_buffer_addr := rx_buffer_addr d; header_addr := header_addr d;
     pkt_len := pkt_len d; hdr_len := hdr_len d; status_flags := 0;
     rx_reserved := rx_reserved d |}.

(** [poll_rx]: [Some (packet_data, packet_len)] stands for [true] with the
    two out-parameters written, [None] for [false]. *)
Definition poll_rx (s : CustomNICDriver)
  : outcome (option (Z * Z) * CustomNICDriver) :=
  let hw_head := read_reg32 registers.RX_HEAD s in
  if hw_head =? rx_head_ s then Ok (None, s)
  else
    desc ← at_index (rx_ring_ s) (rx_head_ s);
    if Z.land (status_flags desc) RX_DD_BIT =? 0 then Ok (None, s)
    else
      packet_data ← at_index (rx_buffers_ s) (rx_head_ s);
      let packet_len := pkt_len desc in
      let ring := <[Z.to_nat (rx_head_ s) := rx_clear_flags desc]> (rx_ring_ s) in
      let head := Z.land (wrap32 (rx_head_ s + 1)) (RX_RING_SIZE - 1) in
      Ok (Some (packet_data, packet_len),
          {| bar0_ := reg_write (bar0_ s) registers.RX_TAIL head;
             dma_ := dma_ s; rx_ring_ := ring; tx_ring_ := tx_ring_ s;
             rx_buffers_ := rx_buffers_ s; tx_buffers_ := tx_buffers_ s;
             rx_head_ := head; tx_tail_ := tx_tail_ s;
             initialized_ := initialized_ s |}).

Section Pagemap.

(** /proc/self/pagemap as the process sees it: [None] when it cannot be
    opened, otherwise the 64-bit entry found at a file offset. *)
Variable pagemap : option (Z -> Z).

Definition virt_to_phys (virt_addr : Z) : Z :=
  match pagemap with
  | None => 0
  | Some entry_at =>
      let page_size := 4096 in
      let offset := wrap64 (virt_addr / page_size * 8) in
      let pfn_entry := entry_at offset in
      let pfn := Z.land pfn_entry (Z.shiftl 1 55 - 1) in
      wrap64 (wrap64 (pfn * page_size) + virt_addr mod page_size)
  end.

Definition submit_tx (packet_data : list Byte.byte) (packet_len : Z)
    (s : CustomNICDriver) : outcome (bool * CustomNICDriver) :=
  if PACKET_BUFFER_SIZE <? packet_len then Ok (false, s)
  else
    buf ← at_index (tx_buffers_ s) (tx_tail_ s);
    mem ← memcpy (dma_ s) buf packet_data packet_len;
    desc ← at_index (tx_ring_ s) (tx_tail_ s);
    let desc' :=
      {| tx_buffer_addr := virt_to_phys buf;
         cmd_type_len := wrap64 (Z.lor (Z.shiftl packet_len 16) (Z.shiftl 1 0));
         olinfo_status := 0;
         tx_reserved := tx_reserved desc |} in
    let new_tail := Z.land (wrap32 (tx_tail_ s + 1)) (TX_RING_SIZE - 1) in
    Ok (true,
        {| bar0_ := reg_write (bar0_ s) registers.TX_TAIL new_tail;
           dma_ := mem; rx_ring_ := rx_ring_ s;
           tx_ring_ := <[Z.to_nat (tx_tail_ s) := desc']> (tx_ring_ s);
           rx_buffers_ := rx_buffers_ s; tx_buffers_ := tx_buffers_ s;
           rx_head_ := rx_head_ s; tx_tail_ := new_tail;
           initialized_ := initialized_ s |}).

End Pagemap.

Definition poll_tx_completion (s : CustomNICDriver) : bool :=
  let hw_head := read_reg32 registers.TX_HEAD s in
  negb (hw_head =? tx_tail_ s).

Definition get_stats (s : CustomNICDriver) : PacketStats := PacketStats_new.

End Custom.

(** ** SolarflareEFVI (simulated ef_vi backend) *)

Module Solarflare.

Definition EFVI_RX_RING_SIZE : Z := 512.
Definition EFVI_TX_RING_SIZE : Z := 512.
Definition EFVI_PKT_BUF_SIZE : Z := 2048.
Definition EFVI_NUM_BUFS : Z := 1024.

Record efvi_handle : Type := {
  fd : Z;
  rx_ring : Z;
  tx_ring : Z;
  pkt_bufs : list Z;
  rx_posted : Z;
  tx_posted : Z
}.

Record efvi_packet : Type := {
  data : list Byte.byte;
  len : Z;
  timestamp_ns : Z
}.

(** The object; [mem_] is the memory the packet-buffer pointers refer to. *)
Record SolarflareEFVI : Type := {
  handle_ : efvi_handle;
  mem_ : memory;
  initialized_ : bool;
  rx_posted_ : Z;
  tx_posted_ : Z
}.

(** The constructor initialises the three scalar members and leaves
    [handle_] as it finds it. *)
Definition new (h : efvi_handle) (m : memory) : SolarflareEFVI :=
  {| handle_ := h; mem_ := m; initialized_ := false;
     rx_posted_ := 0; tx_posted_ := 0 |}.

Definition set_pkt_buf (i : nat) (p : Z) (s : SolarflareEFVI) : SolarflareEFVI :=
  let h := handle_ s in
  {| handle_ := {| fd := fd h; rx_ring := rx_ring h; tx_ring := tx_ring h;
                   pkt_bufs := <[i := p]> (pkt_bufs h);
                   rx_posted := rx_posted h; tx_posted := tx_posted h |};
     mem_ := mem_ s; initialized_ := initialized_ s;
     rx_posted_ := rx_posted_ s; tx_posted_ := tx_posted_ s |}.

Definition allocate_packet_buffers (s : SolarflareEFVI) : SolarflareEFVI :=
  foldl (fun s i => set_pkt_buf i 0 s) s (seq 0 (Z.to_nat EFVI_NUM_BUFS)).

Definition post_rx_buffer (buf_id : Z) (s : SolarflareEFVI) : SolarflareEFVI :=
  {| handle_ := handle_ s; mem_ := mem_ s; initialized_ := initialized_ s;
     rx_posted_ := wrap32 (rx_posted_ s + 1); tx_posted_ := tx_posted_ s |}.

Definition initialize (interface : string) (s : SolarflareEFVI)
  : bool * SolarflareEFVI :=
  let s1 := {| handle_ := handle_ s; mem_ := mem_ s; initialized_ := true;
               rx_posted_ := rx_posted_ s; tx_posted_ := tx_posted_ s |} in
  let s2 := allocate_packet_buffers s1 in
  let s3 := foldl (fun s i => post_rx_buffer (Z.of_nat i) s) s2
                  (seq 0 (Z.to_nat EFVI_RX_RING_SIZE)) in
  (true, s3).

(** [poll_rx(pkt)]; [now] is the value [get_timestamp()] returns during the
    call.  The result carries the caller's packet structure after the call. *)
Definition poll_rx (pkt : efvi_packet) (now : Z) (s : SolarflareEFVI)
  : bool * efvi_packet * SolarflareEFVI :=
  if negb (initialized_ s) then (false, pkt, s)
  else if 0 <? rx_posted_ s then
    let pkt' := {| data := data pkt; len := 64; timestamp_ns := now |} in
    let s1 := {| handle_ := handle_ s; mem_ := mem_ s;
                 initialized_ := initialized_ s;
                 rx_posted_ := wrap32 (rx_posted_ s - 1);
                 tx_posted_ := tx_posted_ s |} in
    (true, pkt', post_rx_buffer (rx_posted_ s1) s1)
  else (false, pkt, s).

Definition submit_tx (data : list Byte.byte) (len : Z) (s : SolarflareEFVI)
  : outcome (bool * SolarflareEFVI) :=
  if negb (initialized_ s) then Ok (false, s)
  else if EFVI_PKT_BUF_SIZE <? len then Ok (false, s)
  else if tx_posted_ s <? EFVI_TX_RING_SIZE then
    tx_buf ← at_index (pkt_bufs (handle_ s)) (tx_posted_ s);
    mem ← memcpy (mem_ s) tx_buf data len;
    Ok (true,
        {| handle_ := handle_ s; mem_ := mem; initialized_ := initialized_ s;
           rx_posted_ := rx_posted_ s;
           tx_posted_ := wrap32 (tx_posted_ s + 1) |})
  else Ok (false, s).

Definition poll_tx_completions (s : SolarflareEFVI) : SolarflareEFVI :=
  if 0 <? tx_posted_ s then
    {| handle_ := handle_ s; mem_ := mem_ s; initialized_ := initialized_ s;
       rx_posted_ := rx_posted_ s; tx_posted_ := wrap32 (tx_posted_ s - 1) |}
  else s.

End Solarflare.

(** ** Ring vocabulary used by the statements *)

Module Ring.

(** The DD bit of TX slot [i], as [reclaim_tx_descriptors] reads it. *)
Definition tx_done (ring : list Broadcom.TxDescriptor) (i : Z) : bool :=
  match ring !! Z.to_nat i with
  | Some d => Z.testbit (Broadcom.tx_status d) 0
  | None => false
  end.

(** What [allocate_rings] establishes for the TX side and every call keeps:
    a ring of [TX_RING_SIZE] descriptors, both cursors inside it, and an
    allocated buffer region. *)
Definition tx_wf (s : Broadcom.BroadcomNetXtreme) : Prop :=
  length (Broadcom.tx_ring_ s) = Z.to_nat Broadcom.TX_RING_SIZE
  /\ 0 <= Broadcom.tx_head_ s < Broadcom.TX_RING_SIZE
  /\ 0 <= Broadcom.tx_tail_ s < Broadcom.TX_RING_SIZE
  /\ 0 < Broadcom.tx_buffers_ s.

(** A caller's (data, length) pair that fits a Broadcom slot. *)
Definition valid_frame (f : list Byte.byte * Z) : Prop :=
  0 <= f.2 <= Broadcom.MAX_PACKET_SIZE /\ f.2 <= Z.of_nat (length f.1).

(** The TX side of an initialised [CustomNICDriver]. *)
Definition custom_tx_wf (s : Custom.CustomNICDriver) : Prop :=
  length (Custom.tx_ring_ s) = Z.to_nat Custom.TX_RING_SIZE
  /\ length (Custom.tx_buffers_ s) = Z.to_nat Custom.TX_RING_SIZE
  /\ Forall (fun p => p <> 0) (Custom.tx_buffers_ s)
  /\ 0 <= Custom.tx_tail_ s < Custom.TX_RING_SIZE.

Definition custom_valid_frame (f : list Byte.byte * Z) : Prop :=
  0 <= f.2 <= Custom.PACKET_BUFFER_SIZE /\ f.2 <= Z.of_nat (length f.1).

End Ring.

(** ** Sequences of calls *)

Module Runs.

(** Consecutive [BroadcomNetXtreme::send_packet] calls, one per frame, with
    no hardware activity in between; the flags are the values returned. *)
Fixpoint send_all (frames : list (list Byte.byte * Z))
    (s : Broadcom.BroadcomNetXtreme)
  : outcome (list bool * Broadcom.BroadcomNetXtreme) :=
  match frames with
  | [] => Ok ([], s)
  | (data, length) :: rest =>
      r ← Broadcom.send_packet data length s;
      r' ← send_all rest r.2;
      Ok (r.1 :: r'.1, r'.2)
  end.

(** Consecutive [CustomNICDriver::submit_tx] calls. *)
Fixpoint submit_all (pagemap : option (Z -> Z))
    (frames : list (list Byte.byte * Z)) (s : Custom.CustomNICDriver)
  : outcome (list bool * Custom.CustomNICDriver) :=
  match frames with
  | [] => Ok ([], s)
  | (data, length) :: rest =>
      r ← Custom.submit_tx pagemap data length s;
      r' ← submit_all pagemap rest r.2;
      Ok (r.1 :: r'.1, r'.2)
  end.

(** The calls a polling loop makes on a [BroadcomNetXtreme]. *)
Inductive broadcom_call : Type :=
| Receive
| Send (data : list Byte.byte) (length : Z)
| Reclaim
| GetPacketsReceived
| GetPacketsSent.

Definition broadcom_step (c : broadcom_call) (s : Broadcom.BroadcomNetXtreme)
  : outcome Broadcom.BroadcomNetXtreme :=
  match c with
  | Receive => r ← Broadcom.receive_packet s; Ok r.2
  | Send data length => r ← Broadcom.send_packet data length s; Ok r.2
  | Reclaim => Broadcom.reclaim_tx_descriptors s
  | GetPacketsReceived => let _ := Broadcom.get_packets_received s in Ok s
  | GetPacketsSent => let _ := Broadcom.get_packets_sent s in Ok s
  end.

Fixpoint broadcom_run (cs : list broadcom_call) (s : Broadcom.BroadcomNetXtreme)
  : outcome Broadcom.BroadcomNetXtreme :=
  match cs with
  | [] => Ok s
  | c :: rest => s' ← broadcom_step c s; broadcom_run rest s'
  end.

(** The calls a polling loop makes on a [SolarflareEFVI]; each [PollRx]
    carries the caller's packet structure and the clock value of the call. *)
Inductive efvi_call : Type :=
| PollRx (pkt : Solarflare.efvi_packet) (now : Z)
| SubmitTx (data : list Byte.byte) (len : Z)
| PollTxCompletions.

Definition efvi_step (c : efvi_call) (s : Solarflare.SolarflareEFVI)
  : outcome Solarflare.SolarflareEFVI :=
  match c with
  | PollRx pkt now => Ok (Solarflare.poll_rx pkt now s).2
  | SubmitTx data len => r ← Solarflare.submit_tx data len s; Ok r.2
  | PollTxCompletions => Ok (Solarflare.poll_tx_completions s)
  end.

Fixpoint efvi_run (cs : list efvi_call) (s : Solarflare.SolarflareEFVI)
  : outcome Solarflare.SolarflareEFVI :=
  match cs with
  | [] => Ok s
  | c :: rest => s' ← efvi_step c s; efvi_run rest s'
  end.

(** The public calls of a [SolarflareEFVI]: the three above and
    [initialize], which an application can make at any time and more than
    once. *)
Inductive efvi_public_call : Type :=
| Initialize (interface : string)
| Polling (c : efvi_call).

Definition efvi_public_step (c : efvi_public_call) (s : Solarflare.SolarflareEFVI)
  : outcome Solarflare.SolarflareEFVI :=
  match c with
  | Initialize interface => Ok (Solarflare.initialize interface s).2
  | Polling c => efvi_step c s
  end.

Fixpoint efvi_public_run (cs : list efvi_public_call)
    (s : Solarflare.SolarflareEFVI) : outcome Solarflare.SolarflareEFVI :=
  match cs with
  | [] => Ok s
  | c :: rest => s' ← efvi_public_step c s; efvi_public_run rest s'
  end.

(** How many of the calls are [initialize]. *)
Fixpoint initialize_calls (cs : list efvi_public_call) : Z :=
  match cs with
  | [] => 0
  | Initialize _ :: rest => 1 + initialize_calls rest
  | Polling _ :: rest => initialize_calls rest
  end.

End Runs.

(** ** Concrete driver states used to exercise the statements *)

Module Scenario.

Definition frame (n : Z) : list Byte.byte * Z :=
  (replicate (Z.to_nat n) Byte.x00, n).

Definition rx_desc (status length : Z) : Broadcom.RxDescriptor :=
  {| Broadcom.rx_buffer_addr := 0; Broadcom.rx_length := length;
     Broadcom.rx_checksum := 0; Broadcom.rx_status := status;
     Broadcom.rx_errors := 0; Broadcom.rx_vlan_tag := 0;
     Broadcom.rx_rss_hash := 0; Broadcom.rx_timestamp_lo := 0 |}.

Definition tx_desc (status : Z) : Broadcom.TxDescriptor :=
  {| Broadcom.tx_buffer_addr := 0; Broadcom.tx_cmd_type_len := 0;
     Broadcom.tx_status := status; Broadcom.tx_checksum_offset := 0;
     Broadcom.tx_vlan_tag := 0; Broadcom.tx_timestamp_req := 0;
     Broadcom.tx_reserved := 0 |}.

(** A Broadcom driver with zeroed rings whose RX slot 0 holds [d], with the
    given cursors and counters. *)
Definition broadcom (d : Broadcom.RxDescriptor) (txs : list Broadcom.TxDescriptor)
    (tx_head tx_tail received : Z) : Broadcom.BroadcomNetXtreme :=
  {| Broadcom.bar0_ := ∅; Broadcom.dma_ := ∅;
     Broadcom.rx_ring_ := d :: replicate 1023 (rx_desc 0 0);
     Broadcom.tx_ring_ := txs;
     Broadcom.rx_buffers_ := 0x10000000; Broadcom.tx_buffers_ := 0x20000000;
     Broadcom.rx_head_ := 0; Broadcom.tx_head_ := tx_head;
     Broadcom.tx_tail_ := tx_tail;
     Broadcom.packets_received_ := received; Broadcom.packets_sent_ := 0;
     Broadcom.initialized_ := true |}.

Definition broadcom_idle : Broadcom.BroadcomNetXtreme :=
  broadcom (rx_desc 0 0) (replicate 1024 (tx_desc 0)) 0 0 0.

(** A full TX ring (head 0, tail 1023) whose [k] oldest pending descriptors
    have been completed by hardware. *)
Definition broadcom_full (k : nat) : Broadcom.BroadcomNetXtreme :=
  broadcom (rx_desc 0 0)
           (replicate k (tx_desc 1) ++ replicate (1024 - k) (tx_desc 0))
           0 1023 0.

(** RX slot 0 completed by hardware with a frame of [length] bytes. *)
Definition broadcom_rx (length received : Z) : Broadcom.BroadcomNetXtreme :=
  broadcom (rx_desc 1 length) (replicate 1024 (tx_desc 0)) 0 0 received.

Definition custom_rx_desc (flags length : Z) : Custom.RXDescriptor :=
  {| Custom.rx_buffer_addr := 0; Custom.header_addr := 0;
     Custom.pkt_len := length; Custom.hdr_len := 0;
     Custom.status_flags := flags; Custom.rx_reserved := 0 |}.

Definition custom_tx_desc : Custom.TXDescriptor :=
  {| Custom.tx_buffer_addr := 0; Custom.cmd_type_len := 0;
     Custom.olinfo_status := 0; Custom.tx_reserved := 0 |}.

(** A custom driver with zeroed rings whose RX slot 0 holds [d] and whose
    RX_HEAD register reads [hw_head]. *)
Definition custom (d : Custom.RXDescriptor) (hw_head : Z) : Custom.CustomNICDriver :=
  {| Custom.bar0_ := {[ Custom.registers.RX_HEAD := hw_head ]};
     Custom.dma_ := ∅;
     Custom.rx_ring_ := d :: replicate 511 (custom_rx_desc 0 0);
     Custom.tx_ring_ := replicate 512 custom_tx_desc;
     Custom.rx_buffers_ :=
       (fun i => 0x10000000 + Z.of_nat i * 2048) <$> seq 0 512;
     Custom.tx_buffers_ :=
       (fun i => 0x20000000 + Z.of_nat i * 2048) <$> seq 0 512;
     Custom.rx_head_ := 0; Custom.tx_tail_ := 0;
     Custom.initialized_ := true |}.

Definition custom_rx (hw_head length : Z) : Custom.CustomNICDriver :=
  custom (custom_rx_desc 1 length) hw_head.

Definition stale_handle : Solarflare.efvi_handle :=
  {| Solarflare.fd := 0; Solarflare.rx_ring := 0; Solarflare.tx_ring := 0;
     Solarflare.pkt_bufs := replicate 1024 0xdeadbeef;
     Solarflare.rx_posted := 0; Solarflare.tx_posted := 0 |}.

Definition efvi_ready : Solarflare.SolarflareEFVI :=
  (Solarflare.initialize "eth0" (Solarflare.new stale_handle ∅)).2.

Definition empty_packet : Solarflare.efvi_packet :=
  {| Solarflare.data := []; Solarflare.len := 0; Solarflare.timestamp_ns := 0 |}.

End Scenario.

(** ** BroadcomNetXtreme: register-level services *)

Module BroadcomRegs.

Import Broadcom.

Definition REG_DEVICE_CONTROL : Z := 0x0068.
Definition REG_RX_CONTROL : Z := 0x0468.
Definition REG_TX_CONTROL : Z := 0x0368.
Definition REG_INTERRUPT_MASK : Z := 0x0204.

Definition REG_RX_RING_BASE_LO : Z := 0x2800.
Definition REG_RX_RING_BASE_HI : Z := 0x2804.
Definition REG_RX_RING_SIZE : Z := 0x2808.
Definition REG_RX_RING_HEAD : Z := 0x2810.

Definition REG_TX_RING_BASE_LO : Z := 0x3800.
Definition REG_TX_RING_BASE_HI : Z := 0x3804.
Definition REG_TX_RING_SIZE : Z := 0x3808.
Definition REG_TX_RING_HEAD : Z := 0x3810.

Definition REG_MAC_ADDR_LOW : Z := 0x0A40.
Definition REG_MAC_ADDR_HIGH : Z := 0x0A44.
Definition REG_LINK_STATUS : Z := 0x0404.
Definition REG_PTP_TIME_LO : Z := 0x4800.
Definition REG_PTP_TIME_HI : Z := 0x4804.
Definition REG_RSS_KEY_BASE : Z := 0x6800.
Definition REG_RSS_TABLE_BASE : Z := 0x6C00.

Definition CTRL_DEVICE_RESET : Z := Z.shiftl 1 26.
Definition CTRL_RX_ENABLE : Z := Z.shiftl 1 1.
Definition CTRL_TX_ENABLE : Z := Z.shiftl 1 0.
Definition CTRL_LOW_LATENCY_MODE : Z := Z.shiftl 1 15.

(** [read_reg] returns a [uint32_t]. *)
Definition read_reg (offset : Z) (s : BroadcomNetXtreme) : Z :=
  wrap32 (reg_read (bar0_ s) offset).

(** The driver with the register window replaced by [r]. *)
Definition set_bar0 (r : regfile) (s : BroadcomNetXtreme) : BroadcomNetXtreme :=
  {| bar0_ := r;
     dma_ := dma_ s; rx_ring_ := rx_ring_ s; tx_ring_ := tx_ring_ s;
     rx_buffers_ := rx_buffers_ s; tx_buffers_ := tx_buffers_ s;
     rx_head_ := rx_head_ s; tx_head_ := tx_head_ s; tx_tail_ := tx_tail_ s;
     packets_received_ := packets_received_ s;
     packets_sent_ := packets_sent_ s; initialized_ := initialized_ s |}.

Definition write_reg (offset value : Z) (s : BroadcomNetXtreme) : BroadcomNetXtreme :=
  set_bar0 (reg_write (bar0_ s) offset value) s.

Definition get_hardware_timestamp (s : BroadcomNetXtreme) : Z :=
  let lo := read_reg REG_PTP_TIME_LO s in
  let hi := read_reg REG_PTP_TIME_HI s in
  Z.lor (wrap64 (Z.shiftl hi 32)) lo.

(** [get_mac_address(mac_out)]: the six bytes stored in [mac_out]. *)
Definition get_mac_address (s : BroadcomNetXtreme) : list Z :=
  let low := read_reg REG_MAC_ADDR_LOW s in
  let high := read_reg REG_MAC_ADDR_HIGH s in
  [ Z.land (Z.shiftr low 0) 0xFF;
    Z.land (Z.shiftr low 8) 0xFF;
    Z.land (Z.shiftr low 16) 0xFF;
    Z.land (Z.shiftr low 24) 0xFF;
    Z.land (Z.shiftr high 0) 0xFF;
    Z.land (Z.shiftr high 8) 0xFF ].

Definition is_link_up (s : BroadcomNetXtreme) : bool :=
  let status := read_reg REG_LINK_STATUS s in
  negb (Z.land status 0x02 =? 0).

Definition get_link_speed (s : BroadcomNetXtreme) : Z :=
  let status := read_reg REG_LINK_STATUS s in
  let speed_bits := Z.land (Z.shiftr status 8) 0x0F in
  if speed_bits =? 0x01 then 10000
  else if speed_bits =? 0x02 then 25000
  else if speed_bits =? 0x03 then 40000
  else if speed_bits =? 0x04 then 50000
  else if speed_bits =? 0x05 then 100000
  else if speed_bits =? 0x06 then 200000
  else 0.

(** [configure_rss(num_queues)], [num_queues] being a [uint8_t].  The key
    array is filled and written first, then the 128-entry redirection
    table; [i % num_queues] has no value when [num_queues] is 0, and the
    call then has no result ([None]). *)
Definition rss_key (i : Z) : Z := wrap32 (0x6b + i * 0x1f3d).

Definition write_rss_key (s : BroadcomNetXtreme) : BroadcomNetXtreme :=
  foldl (fun s i => write_reg (REG_RSS_KEY_BASE + Z.of_nat i * 4)
                              (rss_key (Z.of_nat i)) s)
        s (seq 0 10).

Definition configure_rss (num_queues : Z) (s : BroadcomNetXtreme)
  : option BroadcomNetXtreme :=
  let s1 := write_rss_key s in
  if num_queues =? 0 then None
  else
    Some (foldl (fun s i =>
                   let queue := Z.land (Z.rem (Z.of_nat i) num_queues) 0xFF in
                   write_reg (REG_RSS_TABLE_BASE + Z.of_nat i * 4) queue s)
                s1 (seq 0 128)).

Definition enable_rx_tx (s : BroadcomNetXtreme) : BroadcomNetXtreme :=
  let rx_ctrl := read_reg REG_RX_CONTROL s in
  let s1 := write_reg REG_RX_CONTROL (Z.lor rx_ctrl CTRL_RX_ENABLE) s in
  let tx_ctrl := read_reg REG_TX_CONTROL s1 in
  write_reg REG_TX_CONTROL (Z.lor tx_ctrl CTRL_TX_ENABLE) s1.

End BroadcomRegs.

(** ** RX ring vocabulary and whole-driver well-formedness *)

Module RxRing.

Import Broadcom.

(** The DD bit of RX slot [i], as [receive_packet] reads it. *)
Definition rx_done (ring : list RxDescriptor) (i : Z) : bool :=
  match ring !! Z.to_nat i with
  | Some d => Z.testbit (rx_status d) 0
  | None => false
  end.

(** The buffer pointer and length a receive from slot [i] hands out. *)
Definition rx_slot (s : BroadcomNetXtreme) (i : Z) : option (Z * Z) :=
  match rx_ring_ s !! Z.to_nat i with
  | Some d => Some (rx_buffers_ s + i * MAX_PACKET_SIZE, rx_length d)
  | None => None
  end.

Definition rx_wf (s : BroadcomNetXtreme) : Prop :=
  length (rx_ring_ s) = Z.to_nat RX_RING_SIZE
  /\ 0 <= rx_head_ s < RX_RING_SIZE.

(** Rings allocated, all three cursors inside them. *)
Definition wf (s : BroadcomNetXtreme) : Prop := rx_wf s /\ Ring.tx_wf s.

(** [n] consecutive [receive_packet] calls with no hardware activity in
    between; the list holds what each call returned. *)
Fixpoint receive_all (n : nat) (s : BroadcomNetXtreme)
  : outcome (list (option (Z * Z)) * BroadcomNetXtreme) :=
  match n with
  | O => Ok ([], s)
  | S n' =>
      r ← receive_packet s;
      r' ← receive_all n' r.2;
      Ok (r.1 :: r'.1, r'.2)
  end.

(** A call whose (data, length) argument fits a TX slot, so that the copy
    stays inside the buffer region, and does not read past the caller's
    array. *)
Definition call_in_bounds (c : Runs.broadcom_call) : Prop :=
  match c with
  | Runs.Send data length =>
      0 <= length <= MAX_PACKET_SIZE /\ length <= Z.of_nat (List.length data)
  | _ => True
  end.

End RxRing.

(** ** Further concrete states *)

Module Samples.

(** A Broadcom driver whose first two RX slots were completed by hardware
    with frames of 60 and 61 bytes. *)
Definition broadcom_two_rx : Broadcom.BroadcomNetXtreme :=
  {| Broadcom.bar0_ := ∅; Broadcom.dma_ := ∅;
     Broadcom.rx_ring_ :=
       [Scenario.rx_desc 1 60; Scenario.rx_desc 1 61]
         ++ replicate 1022 (Scenario.rx_desc 0 0);
     Broadcom.tx_ring_ := replicate 1024 (Scenario.tx_desc 0);
     Broadcom.rx_buffers_ := 0x10000000; Broadcom.tx_buffers_ := 0x20000000;
     Broadcom.rx_head_ := 0; Broadcom.tx_head_ := 0; Broadcom.tx_tail_ := 0;
     Broadcom.packets_received_ := 0; Broadcom.packets_sent_ := 0;
     Broadcom.initialized_ := true |}.

Definition hello : list Byte.byte :=
  [Byte.x68; Byte.x65; Byte.x6c; Byte.x6c; Byte.x6f].

End Samples.

(** ** BroadcomNetXtreme: construction and bring-up *)

Module BroadcomInit.

Import Broadcom BroadcomRegs.

Definition MAP_FAILED : Z := 2 ^ 64 - 1.

(** What the operating system and the device hand to [initialize]. *)
Record environment : Type := {
  (** the register window [map_bar0] obtains; [None] when [open] or
      [mmap] fails *)
  bar0_window : option regfile;
  (** REG_DEVICE_CONTROL as the device shows it at the i-th poll of
      [reset_device] *)
  device_control : nat -> Z;
  (** the two [aligned_alloc] results for the descriptor rings *)
  rx_ring_mem : Z;
  tx_ring_mem : Z;
  (** for each buffer region, the huge-page [mmap] result and the
      [aligned_alloc] result used when that is [MAP_FAILED] *)
  rx_huge : Z;
  rx_fallback : Z;
  tx_huge : Z;
  tx_fallback : Z
}.

(** The constructor: null pointers, zero cursors and counters. *)
Definition new : BroadcomNetXtreme :=
  {| bar0_ := ∅; dma_ := ∅; rx_ring_ := []; tx_ring_ := [];
     rx_buffers_ := 0; tx_buffers_ := 0;
     rx_head_ := 0; tx_head_ := 0; tx_tail_ := 0;
     packets_received_ := 0; packets_sent_ := 0; initialized_ := false |}.

Definition map_bar0 (env : environment) (s : BroadcomNetXtreme)
  : bool * BroadcomNetXtreme :=
  match bar0_window env with
  | Some r => (true, set_bar0 r s)
  | None => (false, s)
  end.

(** The polling loop of [reset_device]: [left] polls remain, the next one
    is poll number [i]; each poll sees the device's current value. *)
Fixpoint reset_poll (device : nat -> Z) (i left : nat) (s : BroadcomNetXtreme)
  : bool * BroadcomNetXtreme :=
  match left with
  | O => (false, s)
  | S left' =>
      let s1 := set_bar0 (<[REG_DEVICE_CONTROL := device i]> (bar0_ s)) s in
      if Z.land (read_reg REG_DEVICE_CONTROL s1) CTRL_DEVICE_RESET =? 0
      then (true, s1)
      else reset_poll device (S i) left' s1
  end.

Definition reset_device (env : environment) (s : BroadcomNetXtreme)
  : bool * BroadcomNetXtreme :=
  reset_poll (device_control env) 0 1000
             (write_reg REG_DEVICE_CONTROL CTRL_DEVICE_RESET s).

Definition zero_rx : RxDescriptor :=
  {| rx_buffer_addr := 0; rx_length := 0; rx_checksum := 0; rx_status := 0;
     rx_errors := 0; rx_vlan_tag := 0; rx_rss_hash := 0; rx_timestamp_lo := 0 |}.

Definition zero_tx : TxDescriptor :=
  {| tx_buffer_addr := 0; tx_cmd_type_len := 0; tx_status := 0;
     tx_checksum_offset := 0; tx_vlan_tag := 0; tx_timestamp_req := 0;
     tx_reserved := 0 |}.

Definition set_rx_buffer_addr (a : Z) (d : RxDescriptor) : RxDescriptor :=
  {| rx_buffer_addr := a; rx_length := rx_length d;
     rx_checksum := rx_checksum d; rx_status := rx_status d;
     rx_errors := rx_errors d; rx_vlan_tag := rx_vlan_tag d;
     rx_rss_hash := rx_rss_hash d; rx_timestamp_lo := rx_timestamp_lo d |}.

Definition set_rings (rx : list RxDescriptor) (tx : list TxDescriptor)
    (rxb txb : Z) (s : BroadcomNetXtreme) : BroadcomNetXtreme :=
  {| bar0_ := bar0_ s; dma_ := dma_ s; rx_ring_ := rx; tx_ring_ := tx;
     rx_buffers_ := rxb; tx_buffers_ := txb;
     rx_head_ := rx_head_ s; tx_head_ := tx_head_ s; tx_tail_ := tx_tail_ s;
     packets_received_ := packets_received_ s;
     packets_sent_ := packets_sent_ s; initialized_ := initialized_ s |}.

(** The closing loop of [allocate_rings]. *)
Definition bind_rx_buffers (rxb : Z) (ring : list RxDescriptor)
  : list RxDescriptor :=
  foldl (fun ring i =>
           alter (set_rx_buffer_addr
                    (get_physical_addr
                       (rxb + wrap32 (Z.of_nat i * MAX_PACKET_SIZE))))
                 i ring)
        ring (seq 0 (Z.to_nat RX_RING_SIZE)).

(** [allocate_rings]; a ring that could not be allocated is the null
    pointer, here the empty list. *)
Definition allocate_rings (env : environment) (s : BroadcomNetXtreme)
  : bool * BroadcomNetXtreme :=
  if rx_ring_mem env =? 0
  then (false, set_rings [] (tx_ring_ s) (rx_buffers_ s) (tx_buffers_ s) s)
  else
    let rx := replicate (Z.to_nat RX_RING_SIZE) zero_rx in
    if tx_ring_mem env =? 0
    then (false, set_rings rx [] (rx_buffers_ s) (tx_buffers_ s) s)
    else
      let tx := replicate (Z.to_nat TX_RING_SIZE) zero_tx in
      let rxb := if rx_huge env =? MAP_FAILED then rx_fallback env
                 else rx_huge env in
      if rxb =? 0 then (false, set_rings rx tx rxb (tx_buffers_ s) s)
      else
        let txb := if tx_huge env =? MAP_FAILED then tx_fallback env
                   else tx_huge env in
        if txb =? 0 then (false, set_rings rx tx rxb txb s)
        else (true, set_rings (bind_rx_buffers rxb rx) tx rxb txb s).

(** The buffer regions [allocate_rings] ends up with. *)
Definition rx_region (env : environment) : Z :=
  if rx_huge env =? MAP_FAILED then rx_fallback env else rx_huge env.
Definition tx_region (env : environment) : Z :=
  if tx_huge env =? MAP_FAILED then tx_fallback env else tx_huge env.

(** The device leaves reset within the 1000 polls [reset_device] makes. *)
Definition reset_completes (env : environment) : Prop :=
  exists i : nat, (i < 1000)%nat /\ Z.testbit (device_control env i) 26 = false.

(** Cursors, counters and packet memory: what bring-up never touches. *)
Definition same_soft_state (s s' : BroadcomNetXtreme) : Prop :=
  rx_head_ s' = rx_head_ s /\ tx_head_ s' = tx_head_ s
  /\ tx_tail_ s' = tx_tail_ s
  /\ packets_received_ s' = packets_received_ s
  /\ packets_sent_ s' = packets_sent_ s
  /\ dma_ s' = dma_ s.

Definition set_initialized (b : bool) (s : BroadcomNetXtreme) : BroadcomNetXtreme :=
  {| bar0_ := bar0_ s; dma_ := dma_ s;
     rx_ring_ := rx_ring_ s; tx_ring_ := tx_ring_ s;
     rx_buffers_ := rx_buffers_ s; tx_buffers_ := tx_buffers_ s;
     rx_head_ := rx_head_ s; tx_head_ := tx_head_ s; tx_tail_ := tx_tail_ s;
     packets_received_ := packets_received_ s;
     packets_sent_ := packets_sent_ s; initialized_ := b |}.

(** The register programming of [initialize], after the three set-up
    steps have succeeded. *)
Definition program_registers (env : environment) (s : BroadcomNetXtreme)
  : BroadcomNetXtreme :=
  let rx_phys := get_physical_addr (rx_ring_mem env) in
  let tx_phys := get_physical_addr (tx_ring_mem env) in
  let s := write_reg REG_RX_RING_BASE_LO (Z.land rx_phys 0xFFFFFFFF) s in
  let s := write_reg REG_RX_RING_BASE_HI (Z.shiftr rx_phys 32) s in
  let s := write_reg REG_RX_RING_SIZE RX_RING_SIZE s in
  let s := write_reg REG_RX_RING_HEAD 0 s in
  let s := write_reg REG_RX_RING_TAIL (RX_RING_SIZE - 1) s in
  let s := write_reg REG_TX_RING_BASE_LO (Z.land tx_phys 0xFFFFFFFF) s in
  let s := write_reg REG_TX_RING_BASE_HI (Z.shiftr tx_phys 32) s in
  let s := write_reg REG_TX_RING_SIZE TX_RING_SIZE s in
  let s := write_reg REG_TX_RING_HEAD 0 s in
  let s := write_reg REG_TX_RING_TAIL 0 s in
  let s := write_reg REG_INTERRUPT_MASK 0xFFFFFFFF s in
  let ctrl := read_reg REG_DEVICE_CONTROL s in
  let s := write_reg REG_DEVICE_CONTROL (Z.lor ctrl CTRL_LOW_LATENCY_MODE) s in
  enable_rx_tx s.

Definition initialize (env : environment) (s : BroadcomNetXtreme)
  : bool * BroadcomNetXtreme :=
  let r1 := map_bar0 env s in
  if negb r1.1 then (false, r1.2)
  else
    let r2 := reset_device env r1.2 in
    if negb r2.1 then (false, r2.2)
    else
      let r3 := allocate_rings env r2.2 in
      if negb r3.1 then (false, r3.2)
      else (true, set_initialized true (program_registers env r3.2)).

(** The two tail registers agree with the software cursors: the RX tail
    names the slot before the head, the TX tail is the tail cursor. *)
Definition tails_in_step (s : BroadcomNetXtreme) : Prop :=
  read_reg REG_RX_RING_TAIL s = (rx_head_ s - 1) mod RX_RING_SIZE
  /\ read_reg REG_TX_RING_TAIL s = tx_tail_ s.

End BroadcomInit.

(** ** Concrete bring-up environments *)

Module InitSamples.

(** A bring-up in which the device leaves reset at the fourth poll, the
    huge-page mapping of the RX region fails and the fallback succeeds. *)
Definition bring_up : BroadcomInit.environment :=
  {| BroadcomInit.bar0_window := Some ∅;
     BroadcomInit.device_control :=
       fun i => if (i <? 3)%nat then Z.shiftl 1 26 else 0;
     BroadcomInit.rx_ring_mem := 0x7f0000001000;
     BroadcomInit.tx_ring_mem := 0x7f0000009000;
     BroadcomInit.rx_huge := BroadcomInit.MAP_FAILED;
     BroadcomInit.rx_fallback := 0x10000000;
     BroadcomInit.tx_huge := 0x20000000;
     BroadcomInit.tx_fallback := 0 |}.

(** The driver as [initialize] leaves it in that bring-up. *)
Definition armed : Broadcom.BroadcomNetXtreme :=
  (BroadcomInit.initialize bring_up BroadcomInit.new).2.

End InitSamples.

(** ** CustomNICDriver: bring-up *)

Module CustomInit.

Import Custom.

Definition RX_BASE_LO : Z := 0x2800.
Definition RX_BASE_HI : Z := 0x2804.
Definition RX_LEN : Z := 0x2808.
Definition TX_BASE_LO : Z := 0x6000.
Definition TX_BASE_HI : Z := 0x6004.
Definition TX_LEN : Z := 0x6008.

Definition MAP_FAILED : Z := 2 ^ 64 - 1.

(** Both descriptor structures are four 64-bit words. *)
Definition sizeof_RXDescriptor : Z := 32.
Definition sizeof_TXDescriptor : Z := 32.

(** [allocate_dma_memory] (the Linux branch): [maps] holds what the
    huge-page [mmap] and the regular-page [mmap] return; the second is only
    used when the first is [MAP_FAILED].  The result is the pointer handed
    to the caller, 0 for [nullptr]. *)
Definition allocate_dma_memory (maps : Z * Z) : Z :=
  let ptr := if maps.1 =? MAP_FAILED then maps.2 else maps.1 in
  if ptr =? MAP_FAILED then 0 else ptr.

(** What the operating system hands to [initialize]. *)
Record environment : Type := {
  (** the register window; [None] when [open] fails or [mmap] returns
      [MAP_FAILED] *)
  bar0_window : option regfile;
  (** the [mmap] results of each [allocate_dma_memory] call *)
  rx_ring_maps : Z * Z;
  tx_ring_maps : Z * Z;
  rx_buffer_maps : nat -> Z * Z;
  tx_buffer_maps : nat -> Z * Z;
  (** /proc/self/pagemap, see [virt_to_phys] *)
  pagemap : option (Z -> Z)
}.

(** The constructor; the two buffer-pointer arrays are not initialised and
    hold whatever [rxb] and [txb] the memory held.  [bar0_base_] is null
    until [initialize] maps the register window; the empty register file
    stands for it here, and the statements that read a register are made
    for a driver whose window is mapped. *)
Definition new (rxb txb : list Z) : CustomNICDriver :=
  {| bar0_ := ∅; dma_ := ∅; rx_ring_ := []; tx_ring_ := [];
     rx_buffers_ := rxb; tx_buffers_ := txb;
     rx_head_ := 0; tx_tail_ := 0; initialized_ := false |}.

Definition set_bar0 (r : regfile) (s : CustomNICDriver) : CustomNICDriver :=
  {| bar0_ := r; dma_ := dma_ s; rx_ring_ := rx_ring_ s; tx_ring_ := tx_ring_ s;
     rx_buffers_ := rx_buffers_ s; tx_buffers_ := tx_buffers_ s;
     rx_head_ := rx_head_ s; tx_tail_ := tx_tail_ s;
     initialized_ := initialized_ s |}.

Definition write_reg32 (offset value : Z) (s : CustomNICDriver) : CustomNICDriver :=
  set_bar0 (reg_write (bar0_ s) offset value) s.

Definition set_rings (rx : list RXDescriptor) (tx : list TXDescriptor)
    (s : CustomNICDriver) : CustomNICDriver :=
  {| bar0_ := bar0_ s; dma_ := dma_ s; rx_ring_ := rx; tx_ring_ := tx;
     rx_buffers_ := rx_buffers_ s; tx_buffers_ := tx_buffers_ s;
     rx_head_ := rx_head_ s; tx_tail_ := tx_tail_ s;
     initialized_ := initialized_ s |}.

Definition set_rx_buffer (i : nat) (p : Z) (s : CustomNICDriver) : CustomNICDriver :=
  {| bar0_ := bar0_ s; dma_ := dma_ s;
     rx_ring_ := rx_ring_ s; tx_ring_ := tx_ring_ s;
     rx_buffers_ := <[i := p]> (rx_buffers_ s); tx_buffers_ := tx_buffers_ s;
     rx_head_ := rx_head_ s; tx_tail_ := tx_tail_ s;
     initialized_ := initialized_ s |}.

Definition set_tx_buffer (i : nat) (p : Z) (s : CustomNICDriver) : CustomNICDriver :=
  {| bar0_ := bar0_ s; dma_ := dma_ s;
     rx_ring_ := rx_ring_ s; tx_ring_ := tx_ring_ s;
     rx_buffers_ := rx_buffers_ s; tx_buffers_ := <[i := p]> (tx_buffers_ s);
     rx_head_ := rx_head_ s; tx_tail_ := tx_tail_ s;
     initialized_ := initialized_ s |}.

(** [rx_ring_[i].buffer_addr = a; rx_ring_[i].status = 0;] where [status]
    is the 64-bit member of the union over the two lengths and the flags. *)
Definition arm_rx_desc (a : Z) (d : RXDescriptor) : RXDescriptor :=
  {| rx_buffer_addr := a; header_addr := header_addr d;
     pkt_len := 0; hdr_len := 0; status_flags := 0;
     rx_reserved := rx_reserved d |}.

Definition set_rx_desc (i : nat) (a : Z) (s : CustomNICDriver) : CustomNICDriver :=
  {| bar0_ := bar0_ s; dma_ := dma_ s;
     rx_ring_ := alter (arm_rx_desc a) i (rx_ring_ s); tx_ring_ := tx_ring_ s;
     rx_buffers_ := rx_buffers_ s; tx_buffers_ := tx_buffers_ s;
     rx_head_ := rx_head_ s; tx_tail_ := tx_tail_ s;
     initialized_ := initialized_ s |}.

Definition set_initialized (b : bool) (s : CustomNICDriver) : CustomNICDriver :=
  {| bar0_ := bar0_ s; dma_ := dma_ s;
     rx_ring_ := rx_ring_ s; tx_ring_ := tx_ring_ s;
     rx_buffers_ := rx_buffers_ s; tx_buffers_ := tx_buffers_ s;
     rx_head_ := rx_head_ s; tx_tail_ := tx_tail_ s;
     initialized_ := b |}.

(** Freshly mapped anonymous memory reads as zero. *)
Definition zero_rx : RXDescriptor :=
  {| rx_buffer_addr := 0; header_addr := 0; pkt_len := 0; hdr_len := 0;
     status_flags := 0; rx_reserved := 0 |}.

Definition zero_tx : TXDescriptor :=
  {| tx_buffer_addr := 0; cmd_type_len := 0; olinfo_status := 0;
     tx_reserved := 0 |}.

(** The first loop of step 4: [left] slots remain, the next one is [i]. *)
Fixpoint bind_rx_buffers (env : environment) (i left : nat) (s : CustomNICDriver)
  : bool * CustomNICDriver :=
  match left with
  | O => (true, s)
  | S left' =>
      let p := allocate_dma_memory (rx_buffer_maps env i) in
      let s1 := set_rx_buffer i p s in
      if p =? 0 then (false, s1)
      else bind_rx_buffers env (S i) left'
             (set_rx_desc i (virt_to_phys (pagemap env) p) s1)
  end.

(** The second loop of step 4. *)
Definition bind_tx_buffers (env : environment) (s : CustomNICDriver)
  : CustomNICDriver :=
  foldl (fun s i => set_tx_buffer i (allocate_dma_memory (tx_buffer_maps env i)) s)
        s (seq 0 (Z.to_nat TX_RING_SIZE)).

(** [program_rx_ring] and [program_tx_ring]; [ring] is the address held in
    [rx_ring_], respectively [tx_ring_]. *)
Definition program_rx_ring (pm : option (Z -> Z)) (ring : Z) (s : CustomNICDriver)
  : CustomNICDriver :=
  let rx_ring_phys := virt_to_phys pm ring in
  let s := write_reg32 RX_BASE_LO (Z.land rx_ring_phys 0xFFFFFFFF) s in
  let s := write_reg32 RX_BASE_HI (Z.shiftr rx_ring_phys 32) s in
  let s := write_reg32 RX_LEN (RX_RING_SIZE * sizeof_RXDescriptor) s in
  let s := write_reg32 registers.RX_HEAD 0 s in
  write_reg32 registers.RX_TAIL (RX_RING_SIZE - 1) s.

Definition program_tx_ring (pm : option (Z -> Z)) (ring : Z) (s : CustomNICDriver)
  : CustomNICDriver :=
  let tx_ring_phys := virt_to_phys pm ring in
  let s := write_reg32 TX_BASE_LO (Z.land tx_ring_phys 0xFFFFFFFF) s in
  let s := write_reg32 TX_BASE_HI (Z.shiftr tx_ring_phys 32) s in
  let s := write_reg32 TX_LEN (TX_RING_SIZE * sizeof_TXDescriptor) s in
  let s := write_reg32 registers.TX_HEAD 0 s in
  write_reg32 registers.TX_TAIL 0 s.

(** [initialize]; a ring that could not be allocated is the null pointer,
    here the empty list.  The register window a failed mapping leaves
    behind is not represented: on that path the state is returned as
    found. *)
Definition initialize (env : environment) (s : CustomNICDriver)
  : bool * CustomNICDriver :=
  match bar0_window env with
  | None => (false, s)
  | Some r =>
      let s := set_bar0 r s in
      let rx := allocate_dma_memory (rx_ring_maps env) in
      let tx := allocate_dma_memory (tx_ring_maps env) in
      let s := set_rings
                 (if rx =? 0 then [] else replicate (Z.to_nat RX_RING_SIZE) zero_rx)
                 (if tx =? 0 then [] else replicate (Z.to_nat TX_RING_SIZE) zero_tx)
                 s in
      if (rx =? 0) || (tx =? 0) then (false, s)
      else
        let r1 := bind_rx_buffers env 0 (Z.to_nat RX_RING_SIZE) s in
        if negb r1.1 then (false, r1.2)
        else
          let s := bind_tx_buffers env r1.2 in
          let s := program_rx_ring (pagemap env) rx s in
          let s := program_tx_ring (pagemap env) tx s in
          (true, set_initialized true s)
  end.

(** Both rings and both pointer arrays have their 512 entries, the cursors
    lie inside them. *)
Definition shaped (s : CustomNICDriver) : Prop :=
  length (rx_ring_ s) = Z.to_nat RX_RING_SIZE
  /\ length (tx_ring_ s) = Z.to_nat TX_RING_SIZE
  /\ length (rx_buffers_ s) = Z.to_nat RX_RING_SIZE
  /\ length (tx_buffers_ s) = Z.to_nat TX_RING_SIZE
  /\ 0 <= rx_head_ s < RX_RING_SIZE
  /\ 0 <= tx_tail_ s < TX_RING_SIZE.

End CustomInit.

(** ** CustomNICDriver: the polling loop and sequences of calls *)

Module CustomLoop.

Import Custom.

Section BusyWait.

(** The caller's data, updated by [callback(packet_data, packet_len)]. *)
Variable U : Type.
Variable callback : Z -> Z -> U -> U.

(** One pass through the body of [busy_wait_loop]. *)
Definition busy_wait_iteration (st : U * CustomNICDriver)
  : outcome (U * CustomNICDriver) :=
  let u := st.1 in
  let s := st.2 in
  let hw_head := read_reg32 registers.RX_HEAD s in
  if negb (hw_head =? rx_head_ s) then
    desc ← at_index (rx_ring_ s) (rx_head_ s);
    if negb (Z.land (status_flags desc) RX_DD_BIT =? 0) then
      packet_data ← at_index (rx_buffers_ s) (rx_head_ s);
      let packet_len := pkt_len desc in
      let ring := <[Z.to_nat (rx_head_ s) := rx_clear_flags desc]> (rx_ring_ s) in
      let head := Z.land (wrap32 (rx_head_ s + 1)) (RX_RING_SIZE - 1) in
      let s' :=
        {| bar0_ := reg_write (bar0_ s) registers.RX_TAIL head;
           dma_ := dma_ s; rx_ring_ := ring; tx_ring_ := tx_ring_ s;
           rx_buffers_ := rx_buffers_ s; tx_buffers_ := tx_buffers_ s;
           rx_head_ := head; tx_tail_ := tx_tail_ s;
           initialized_ := initialized_ s |} in
      Ok (callback packet_data packet_len u, s')
    else Ok (u, s)
  else Ok (u, s).

(** The first [n] passes of the loop, which itself never returns.  Before
    pass [i] the NIC may have written descriptors, packet memory and its
    head register: [nic i]. *)
Fixpoint busy_wait_loop (nic : nat -> CustomNICDriver -> CustomNICDriver)
    (i n : nat) (st : U * CustomNICDriver) : outcome (U * CustomNICDriver) :=
  match n with
  | O => Ok st
  | S n' =>
      st' ← busy_wait_iteration (st.1, nic i st.2);
      busy_wait_loop nic (S i) n' st'
  end.

(** The same passes made by a caller of [poll_rx] who hands every packet
    received to [callback]. *)
Fixpoint poll_loop (nic : nat -> CustomNICDriver -> CustomNICDriver)
    (i n : nat) (st : U * CustomNICDriver) : outcome (U * CustomNICDriver) :=
  match n with
  | O => Ok st
  | S n' =>
      r ← poll_rx (nic i st.2);
      poll_loop nic (S i) n'
        (match r.1 with
         | Some (packet_data, packet_len) => callback packet_data packet_len st.1
         | None => st.1
         end, r.2)
  end.

End BusyWait.

(** [n] consecutive [poll_rx] calls with no hardware activity in between;
    the list holds what each call returned. *)
Fixpoint poll_all (n : nat) (s : CustomNICDriver)
  : outcome (list (option (Z * Z)) * CustomNICDriver) :=
  match n with
  | O => Ok ([], s)
  | S n' =>
      r ← poll_rx s;
      r' ← poll_all n' r.2;
      Ok (r.1 :: r'.1, r'.2)
  end.

(** The DD bit of RX slot [i] and what [poll_rx] hands out for it. *)
Definition rx_done (s : CustomNICDriver) (i : Z) : bool :=
  match rx_ring_ s !! Z.to_nat i with
  | Some d => Z.testbit (status_flags d) 0
  | None => false
  end.

Definition rx_slot (s : CustomNICDriver) (i : Z) : option (Z * Z) :=
  match rx_ring_ s !! Z.to_nat i, rx_buffers_ s !! Z.to_nat i with
  | Some d, Some p => Some (p, pkt_len d)
  | _, _ => None
  end.

(** The RX side of an initialised driver. *)
Definition rx_wf (s : CustomNICDriver) : Prop :=
  length (rx_ring_ s) = Z.to_nat RX_RING_SIZE
  /\ length (rx_buffers_ s) = Z.to_nat RX_RING_SIZE
  /\ 0 <= rx_head_ s < RX_RING_SIZE.

Definition wf (s : CustomNICDriver) : Prop := rx_wf s /\ Ring.custom_tx_wf s.

(** The calls an application makes on a [CustomNICDriver]. *)
Inductive custom_call : Type :=
| PollRx
| SubmitTx (packet_data : list Byte.byte) (packet_len : Z)
| PollTxCompletion
| GetStats.

Definition custom_step (pm : option (Z -> Z)) (c : custom_call)
    (s : CustomNICDriver) : outcome CustomNICDriver :=
  match c with
  | PollRx => r ← poll_rx s; Ok r.2
  | SubmitTx packet_data packet_len =>
      r ← submit_tx pm packet_data packet_len s; Ok r.2
  | PollTxCompletion => let _ := poll_tx_completion s in Ok s
  | GetStats => let _ := get_stats s in Ok s
  end.

Fixpoint custom_run (pm : option (Z -> Z)) (cs : list custom_call)
    (s : CustomNICDriver) : outcome CustomNICDriver :=
  match cs with
  | [] => Ok s
  | c :: rest => s' ← custom_step pm c s; custom_run pm rest s'
  end.

(** A [submit_tx] whose length does not read past the caller's array. *)
Definition call_in_bounds (c : custom_call) : Prop :=
  match c with
  | SubmitTx packet_data packet_len =>
      0 <= packet_len
      /\ (packet_len <= PACKET_BUFFER_SIZE ->
          packet_len <= Z.of_nat (length packet_data))
  | _ => True
  end.

End CustomLoop.

(** ** Concrete CustomNICDriver bring-up *)

Module CustomSamples.

(** Every allocation succeeds on huge pages except TX buffer 0, for which
    both mappings fail; the pagemap maps every page onto itself. *)
Definition bring_up : CustomInit.environment :=
  {| CustomInit.bar0_window := Some ∅;
     CustomInit.rx_ring_maps := (0x7f0000000000, 0);
     CustomInit.tx_ring_maps := (CustomInit.MAP_FAILED, 0x7f0000010000);
     CustomInit.rx_buffer_maps := fun i => (0x10000000 + Z.of_nat i * 2048, 0);
     CustomInit.tx_buffer_maps :=
       fun i => match i with
                | O => (CustomInit.MAP_FAILED, CustomInit.MAP_FAILED)
                | _ => (0x20000000 + Z.of_nat i * 2048, 0)
                end;
     CustomInit.pagemap := Some (fun off => off / 8) |}.

Definition fresh : Custom.CustomNICDriver :=
  CustomInit.new (replicate 512 0xdead) (replicate 512 0xbeef).

(** The same bring-up with every TX buffer allocated. *)
Definition all_allocated : CustomInit.environment :=
  {| CustomInit.bar0_window := Some ∅;
     CustomInit.rx_ring_maps := (0x7f0000000000, 0);
     CustomInit.tx_ring_maps := (CustomInit.MAP_FAILED, 0x7f0000010000);
     CustomInit.rx_buffer_maps := fun i => (0x10000000 + Z.of_nat i * 2048, 0);
     CustomInit.tx_buffer_maps := fun i => (0x20000000 + Z.of_nat i * 2048, 0);
     CustomInit.pagemap := Some (fun off => off / 8) |}.

(** A driver whose first three RX slots were completed by hardware, with
    the NIC's head register at 3. *)
Definition three_rx : Custom.CustomNICDriver :=
  {| Custom.bar0_ := {[ Custom.registers.RX_HEAD := 3 ]};
     Custom.dma_ := ∅;
     Custom.rx_ring_ :=
       [Scenario.custom_rx_desc 1 60; Scenario.custom_rx_desc 1 61;
        Scenario.custom_rx_desc 1 62]
         ++ replicate 509 (Scenario.custom_rx_desc 0 0);
     Custom.tx_ring_ := replicate 512 Scenario.custom_tx_desc;
     Custom.rx_buffers_ :=
       (fun i => 0x10000000 + Z.of_nat i * 2048) <$> seq 0 512;
     Custom.tx_buffers_ :=
       (fun i => 0x20000000 + Z.of_nat i * 2048) <$> seq 0 512;
     Custom.rx_head_ := 0; Custom.tx_tail_ := 0;
     Custom.initialized_ := true |}.

End CustomSamples.

(** ** common_types.hpp *)

Module CommonTypes.

(** [tsc_to_ns(ticks, tsc_freq)] on 64-bit unsigned operands; a zero
    frequency divides by zero and gives no result. *)
Definition tsc_to_ns (ticks tsc_freq : Z) : option Z :=
  if tsc_freq =? 0 then None
  else Some (wrap64 (ticks * 1000000000) / tsc_freq).

(** The default value of the second parameter. *)
Definition default_tsc_freq : Z := 2800000000.

End CommonTypes.

(** ** Stores, barriers and register writes in program order *)

Module Ordering.

(** A store the CPU makes into memory the NIC reads by DMA. *)
Inductive dma_store : Type :=
| RxDescriptorField (slot : Z)   (* one member of [rx_ring_[slot]] *)
| TxDescriptorField (slot : Z)   (* one member of [tx_ring_[slot]] *)
| RingFill (ring : Z)            (* [memset] over the ring at [ring] *)
| BufferBytes (addr n : Z).      (* [n] bytes copied to [addr] *)

(** What a call does that the device can tell apart, in program order.
    Loads, and stores to the driver object itself, are not recorded. *)
Inductive event : Type :=
| Store (w : dma_store)
| Sfence                          (* [_mm_sfence()] *)
| Mfence                          (* the [mfence] instruction *)
| RegWrite (offset value : Z).    (* a 32-bit store into the register window *)

Definition is_fence (e : event) : bool :=
  match e with
  | Sfence | Mfence => true
  | _ => false
  end.

Definition is_store (e : event) : bool :=
  match e with
  | Store _ => true
  | _ => false
  end.

(** The stores of [std::memcpy(addr, src, n)]. *)
Definition copy (addr n : Z) : list event :=
  if n =? 0 then [] else [Store (BufferBytes addr n)].

(** [ordered tail pending t]: every register write of [t] at an offset for
    which [tail] holds is made after a barrier that itself comes after all
    earlier stores to DMA memory.  [pending] tells whether, when [t]
    begins, such a store has been made and no barrier has followed it. *)
Fixpoint ordered (tail : Z -> bool) (pending : bool) (t : list event) : bool :=
  match t with
  | [] => true
  | Store _ :: rest => ordered tail true rest
  | Sfence :: rest | Mfence :: rest => ordered tail false rest
  | RegWrite offset _ :: rest =>
      negb (tail offset && pending) && ordered tail pending rest
  end.

(** Every register write of [t] is directly followed by a barrier. *)
Fixpoint fence_follows (t : list event) : bool :=
  match t with
  | [] => true
  | RegWrite _ _ :: rest =>
      match rest with
      | e :: _ => is_fence e && fence_follows rest
      | [] => false
      end
  | _ :: rest => fence_follows rest
  end.

(** The register window after the register writes of [t]. *)
Fixpoint replay (t : list event) (r : regfile) : regfile :=
  match t with
  | [] => r
  | RegWrite offset value :: rest => replay rest (reg_write r offset value)
  | _ :: rest => replay rest r
  end.

End Ordering.

(** *** BroadcomNetXtreme: the events of each path *)

Module BroadcomTrace.

Import Broadcom BroadcomRegs BroadcomInit Ordering.

(** The two registers that hand descriptors to the NIC. *)
Definition is_tail (offset : Z) : bool :=
  (offset =? REG_RX_RING_TAIL) || (offset =? REG_TX_RING_TAIL).

(** [write_reg] is the volatile store and nothing else. *)
Definition write_reg (offset value : Z) : list event := [RegWrite offset value].

(** [receive_packet]: [desc->status = 0], then the tail write. *)
Definition receive_packet (s : BroadcomNetXtreme) : outcome (list event) :=
  desc ← at_index (rx_ring_ s) (rx_head_ s);
  if Z.land (rx_status desc) DESC_STATUS_DD =? 0 then Ok []
  else
    let head := Z.land (wrap32 (rx_head_ s + 1)) (RX_RING_SIZE - 1) in
    let tail := Z.land (wrap32 (head - 1)) (RX_RING_SIZE - 1) in
    Ok (Store (RxDescriptorField (rx_head_ s))
        :: write_reg REG_RX_RING_TAIL tail).

(** The part of [send_packet] after the ring-space check: the copy, the
    five descriptor members, [_mm_sfence()], then the tail write. *)
Definition send_packet_fill (next_tail : Z) (data : list Byte.byte) (length : Z)
    (s : BroadcomNetXtreme) : outcome (list event) :=
  let tx_buffer := tx_buffers_ s + wrap32 (tx_tail_ s * MAX_PACKET_SIZE) in
  _ ← memcpy (dma_ s) tx_buffer data length;
  _ ← at_index (tx_ring_ s) (tx_tail_ s);
  Ok (copy tx_buffer length
      ++ replicate 5 (Store (TxDescriptorField (tx_tail_ s)))
      ++ [Sfence]
      ++ write_reg REG_TX_RING_TAIL next_tail).

Definition send_packet (data : list Byte.byte) (length : Z)
    (s : BroadcomNetXtreme) : outcome (list event) :=
  let next_tail := Z.land (wrap32 (tx_tail_ s + 1)) (TX_RING_SIZE - 1) in
  if next_tail =? tx_head_ s then
    s1 ← reclaim_tx_descriptors s;
    if next_tail =? tx_head_ s1 then Ok []
    else send_packet_fill next_tail data length s1
  else send_packet_fill next_tail data length s.

Definition reset_device : list event :=
  write_reg REG_DEVICE_CONTROL CTRL_DEVICE_RESET.

(** [allocate_rings]: the two [memset] calls and the closing loop over the
    RX descriptors; a failed allocation returns before the stores that
    follow it. *)
Definition allocate_rings (env : environment) : list event :=
  if rx_ring_mem env =? 0 then []
  else
    Store (RingFill (rx_ring_mem env))
    :: if tx_ring_mem env =? 0 then []
       else
         Store (RingFill (tx_ring_mem env))
         :: if rx_region env =? 0 then []
            else if tx_region env =? 0 then []
            else (fun i : nat => Store (RxDescriptorField (Z.of_nat i)))
                   <$> seq 0 (Z.to_nat RX_RING_SIZE).

(** The register programming of [initialize], [enable_rx_tx] included, on
    the driver [s] that [allocate_rings] left; the three control registers
    are read before any of them is written. *)
Definition program_registers (env : environment) (s : BroadcomNetXtreme)
  : list event :=
  let rx_phys := get_physical_addr (rx_ring_mem env) in
  let tx_phys := get_physical_addr (tx_ring_mem env) in
  write_reg REG_RX_RING_BASE_LO (Z.land rx_phys 0xFFFFFFFF)
  ++ write_reg REG_RX_RING_BASE_HI (Z.shiftr rx_phys 32)
  ++ write_reg REG_RX_RING_SIZE RX_RING_SIZE
  ++ write_reg REG_RX_RING_HEAD 0
  ++ write_reg REG_RX_RING_TAIL (RX_RING_SIZE - 1)
  ++ write_reg REG_TX_RING_BASE_LO (Z.land tx_phys 0xFFFFFFFF)
  ++ write_reg REG_TX_RING_BASE_HI (Z.shiftr tx_phys 32)
  ++ write_reg REG_TX_RING_SIZE TX_RING_SIZE
  ++ write_reg REG_TX_RING_HEAD 0
  ++ write_reg REG_TX_RING_TAIL 0
  ++ write_reg REG_INTERRUPT_MASK 0xFFFFFFFF
  ++ write_reg REG_DEVICE_CONTROL
       (Z.lor (read_reg REG_DEVICE_CONTROL s) CTRL_LOW_LATENCY_MODE)
  ++ write_reg REG_RX_CONTROL (Z.lor (read_reg REG_RX_CONTROL s) CTRL_RX_ENABLE)
  ++ write_reg REG_TX_CONTROL (Z.lor (read_reg REG_TX_CONTROL s) CTRL_TX_ENABLE).

(** [initialize]: what has been emitted when it returns, on each of its
    four ways out. *)
Definition initialize (env : environment) (s : BroadcomNetXtreme) : list event :=
  let r1 := map_bar0 env s in
  if negb r1.1 then []
  else
    let r2 := BroadcomInit.reset_device env r1.2 in
    if negb r2.1 then reset_device
    else
      let r3 := BroadcomInit.allocate_rings env r2.2 in
      if negb r3.1 then reset_device ++ allocate_rings env
      else reset_device ++ allocate_rings env ++ program_registers env r3.2.

End BroadcomTrace.

(** *** CustomNICDriver: the events of each path *)

Module CustomTrace.

Import Custom CustomInit Ordering.

Definition is_tail (offset : Z) : bool :=
  (offset =? registers.RX_TAIL) || (offset =? registers.TX_TAIL).

(** [write_reg32] is the volatile store followed by [mfence]. *)
Definition write_reg32 (offset value : Z) : list event :=
  [RegWrite offset value; Mfence].

(** [poll_rx]: [desc.status_flags = 0], then [write_reg32]. *)
Definition poll_rx (s : CustomNICDriver) : outcome (list event) :=
  let hw_head := read_reg32 registers.RX_HEAD s in
  if hw_head =? rx_head_ s then Ok []
  else
    desc ← at_index (rx_ring_ s) (rx_head_ s);
    if Z.land (status_flags desc) RX_DD_BIT =? 0 then Ok []
    else
      _ ← at_index (rx_buffers_ s) (rx_head_ s);
      let head := Z.land (wrap32 (rx_head_ s + 1)) (RX_RING_SIZE - 1) in
      Ok (Store (RxDescriptorField (rx_head_ s))
          :: write_reg32 registers.RX_TAIL head).

(** [submit_tx]: the copy, the three descriptor members, then
    [write_reg32]. *)
Definition submit_tx (packet_data : list Byte.byte) (packet_len : Z)
    (s : CustomNICDriver) : outcome (list event) :=
  if PACKET_BUFFER_SIZE <? packet_len then Ok []
  else
    buf ← at_index (tx_buffers_ s) (tx_tail_ s);
    _ ← memcpy (dma_ s) buf packet_data packet_len;
    _ ← at_index (tx_ring_ s) (tx_tail_ s);
    let new_tail := Z.land (wrap32 (tx_tail_ s + 1)) (TX_RING_SIZE - 1) in
    Ok (copy buf packet_len
        ++ replicate 3 (Store (TxDescriptorField (tx_tail_ s)))
        ++ write_reg32 registers.TX_TAIL new_tail).

(** The first loop of step 4 of [initialize]: two descriptor members per
    slot, until an allocation fails. *)
Fixpoint bind_rx_buffers (env : environment) (i left : nat) : bool * list event :=
  match left with
  | O => (true, [])
  | S left' =>
      let p := allocate_dma_memory (rx_buffer_maps env i) in
      if p =? 0 then (false, [])
      else
        let r := bind_rx_buffers env (S i) left' in
        (r.1, Store (RxDescriptorField (Z.of_nat i))
              :: Store (RxDescriptorField (Z.of_nat i)) :: r.2)
  end.

Definition program_rx_ring (pm : option (Z -> Z)) (ring : Z) : list event :=
  let rx_ring_phys := virt_to_phys pm ring in
  write_reg32 RX_BASE_LO (Z.land rx_ring_phys 0xFFFFFFFF)
  ++ write_reg32 RX_BASE_HI (Z.shiftr rx_ring_phys 32)
  ++ write_reg32 RX_LEN (RX_RING_SIZE * sizeof_RXDescriptor)
  ++ write_reg32 registers.RX_HEAD 0
  ++ write_reg32 registers.RX_TAIL (RX_RING_SIZE - 1).

Definition program_tx_ring (pm : option (Z -> Z)) (ring : Z) : list event :=
  let tx_ring_phys := virt_to_phys pm ring in
  write_reg32 TX_BASE_LO (Z.land tx_ring_phys 0xFFFFFFFF)
  ++ write_reg32 TX_BASE_HI (Z.shiftr tx_ring_phys 32)
  ++ write_reg32 TX_LEN (TX_RING_SIZE * sizeof_TXDescriptor)
  ++ write_reg32 registers.TX_HEAD 0
  ++ write_reg32 registers.TX_TAIL 0.

(** [initialize]: what has been emitted when it returns.  The second loop
    of step 4 stores into the driver object only. *)
Definition initialize (env : environment) : list event :=
  match bar0_window env with
  | None => []
  | Some _ =>
      let rx := allocate_dma_memory (rx_ring_maps env) in
      let tx := allocate_dma_memory (tx_ring_maps env) in
      if (rx =? 0) || (tx =? 0) then []
      else
        let r1 := bind_rx_buffers env 0 (Z.to_nat RX_RING_SIZE) in
        if negb r1.1 then r1.2
        else r1.2 ++ program_rx_ring (pagemap env) rx
                  ++ program_tx_ring (pagemap env) tx
  end.

End CustomTrace.

(** * Properties *)

(** ** Arithmetic of cursors and status bits *)

Lemma wrap_small (w x : Z) : 0 <= x < 2 ^ w -> wrap w x = x.
Proof. intros H. unfold wrap. now apply Z.mod_small. Qed.

Lemma land_bit0 (x : Z) : (Z.land x (Z.shiftl 1 0) =? 0) = negb (Z.testbit x 0).
Proof.
  change (Z.shiftl 1 0) with (Z.ones 1).
  rewrite Z.land_ones by lia. change (2 ^ 1) with 2.
  rewrite <- Z.bit0_mod.
  now destruct (Z.testbit x 0).
Qed.

Lemma mask_next (n h : Z) :
  0 <= n <= 32 -> 0 <= h < 2 ^ n ->
  Z.land (wrap32 (h + 1)) (2 ^ n - 1) = (h + 1) mod 2 ^ n.
Proof.
  intros Hn Hh.
  assert (2 ^ n <= 2 ^ 32) by (apply Z.pow_le_mono_r; lia).
  replace (2 ^ n - 1) with (Z.ones n) by (rewrite Z.ones_equiv; lia).
  rewrite Z.land_ones by lia.
  unfold wrap32, wrap.
  destruct (Z.eq_dec (h + 1) (2 ^ 32)) as [E | E].
  - rewrite E, Z.mod_same by lia.
    assert (2 ^ n = 2 ^ 32) as -> by lia.
    now rewrite Z.mod_same by lia.
  - now rewrite (Z.mod_small (h + 1) (2 ^ 32)) by lia.
Qed.

Lemma mask_prev (n h : Z) :
  0 <= n <= 32 -> 0 <= h < 2 ^ n ->
  Z.land (wrap32 (h - 1)) (2 ^ n - 1) = (h - 1) mod 2 ^ n.
Proof.
  intros Hn Hh.
  assert (0 < 2 ^ n <= 2 ^ 32) by (split; [lia | apply Z.pow_le_mono_r; lia]).
  replace (2 ^ n - 1) with (Z.ones n) by (rewrite Z.ones_equiv; lia).
  rewrite Z.land_ones by lia.
  unfold wrap32, wrap.
  replace (2 ^ 32) with (2 ^ n * 2 ^ (32 - n))
    by (rewrite <- Z.pow_add_r by lia; f_equal; lia).
  rewrite Z.rem_mul_r by lia.
  rewrite Z.mul_comm, Z.mod_add by lia.
  now rewrite Z.mod_mod by lia.
Qed.

Lemma bind_Ok {A B : Type} (a : A) (k : A -> outcome B) : (Ok a ≫= k) = k a.
Proof. reflexivity. Qed.

Lemma at_index_Ok {A : Type} (ring : list A) (i : Z) (d : A) :
  ring !! Z.to_nat i = Some d -> at_index ring i = Ok d.
Proof. intros H. unfold at_index. now rewrite H. Qed.

(** ** Packet memory *)

Lemma memcpy_Ok (m : memory) (dst : Z) (src : list Byte.byte) (n : Z) :
  dst <> 0 -> n <= Z.of_nat (length src) ->
  memcpy m dst src n = Ok (store_bytes m dst (take (Z.to_nat n) src)).
Proof.
  intros Hdst Hn. unfold memcpy.
  destruct (Z.eqb_spec n 0) as [-> | _]; [reflexivity |].
  destruct (Z.eqb_spec dst 0); [contradiction |].
  now destruct (Z.ltb_spec (Z.of_nat (length src)) n); [lia |].
Qed.

Lemma memcpy_null (m : memory) (src : list Byte.byte) (n : Z) :
  n <> 0 -> memcpy m 0 src n = Fault NullPointer.
Proof.
  intros Hn. unfold memcpy. now destruct (Z.eqb_spec n 0); [contradiction |].
Qed.

Lemma memcpy_nothing (m : memory) (dst : Z) (src : list Byte.byte) :
  memcpy m dst src 0 = Ok m.
Proof. reflexivity. Qed.

Lemma memcpy_null_inv (m m' : memory) (src : list Byte.byte) (n : Z) :
  memcpy m 0 src n = Ok m' -> n = 0 /\ m' = m.
Proof.
  unfold memcpy. destruct (Z.eqb_spec n 0) as [-> | _]; [| discriminate].
  intros [= <-]. split; reflexivity.
Qed.

Lemma store_bytes_below (src : list Byte.byte) :
  forall (m : memory) (dst a : Z),
    a < dst -> store_bytes m dst src !! a = m !! a.
Proof.
  induction src as [| b rest IH]; intros m dst a Ha; cbn [store_bytes].
  - reflexivity.
  - rewrite IH by lia. apply lookup_insert_ne. lia.
Qed.

Lemma store_bytes_inside (src : list Byte.byte) :
  forall (m : memory) (dst : Z) (i : nat),
    (i < length src)%nat ->
    store_bytes m dst src !! (dst + Z.of_nat i) = src !! i.
Proof.
  induction src as [| b rest IH]; intros m dst i Hi; cbn [length] in Hi.
  - lia.
  - cbn [store_bytes]. destruct i as [| i].
    + rewrite Z.add_0_r, store_bytes_below by lia. apply lookup_insert_eq.
    + replace (dst + Z.of_nat (S i)) with (dst + 1 + Z.of_nat i) by lia.
      rewrite IH by lia. reflexivity.
Qed.

(** ** Receive path *)

Lemma broadcom_receive_no_dd (s : Broadcom.BroadcomNetXtreme) (d : Broadcom.RxDescriptor) :
  Broadcom.rx_ring_ s !! Z.to_nat (Broadcom.rx_head_ s) = Some d ->
  Z.testbit (Broadcom.rx_status d) 0 = false ->
  Broadcom.receive_packet s = Ok (None, s).
Proof.
  intros Hd Hdd. unfold Broadcom.receive_packet.
  rewrite (at_index_Ok _ _ _ Hd). cbn.
  unfold Broadcom.DESC_STATUS_DD. now rewrite land_bit0, Hdd.
Qed.

Lemma custom_poll_no_dd (s : Custom.CustomNICDriver) (d : Custom.RXDescriptor) :
  Custom.rx_ring_ s !! Z.to_nat (Custom.rx_head_ s) = Some d ->
  Z.testbit (Custom.status_flags d) 0 = false ->
  Custom.poll_rx s = Ok (None, s).
Proof.
  intros Hd Hdd. unfold Custom.poll_rx.
  destruct (_ =? _); [reflexivity |].
  rewrite (at_index_Ok _ _ _ Hd). cbn.
  unfold Custom.RX_DD_BIT. now rewrite land_bit0, Hdd.
Qed.

(** C6. In every state of either driver in which the descriptor under the
    software head cursor has its DD bit clear, the receive call reports
    "no packet" and hands back the very same driver state: cursors,
    descriptors, buffers, counters and registers are all untouched. *)
Theorem receive_without_dd_changes_nothing :
  (forall (s : Broadcom.BroadcomNetXtreme) (d : Broadcom.RxDescriptor),
      Broadcom.rx_ring_ s !! Z.to_nat (Broadcom.rx_head_ s) = Some d ->
      Z.testbit (Broadcom.rx_status d) 0 = false ->
      Broadcom.receive_packet s = Ok (None, s))
  /\
  (forall (s : Custom.CustomNICDriver) (d : Custom.RXDescriptor),
      Custom.rx_ring_ s !! Z.to_nat (Custom.rx_head_ s) = Some d ->
      Z.testbit (Custom.status_flags d) 0 = false ->
      Custom.poll_rx s = Ok (None, s)).
Proof.
  split.
  - exact broadcom_receive_no_dd.
  - exact custom_poll_no_dd.
Qed.

Lemma receive_without_dd_changes_nothing_witness :
  Broadcom.receive_packet Scenario.broadcom_idle
    = Ok (None, Scenario.broadcom_idle)
  /\ Custom.poll_rx (Scenario.custom (Scenario.custom_rx_desc 0 0) 1)
    = Ok (None, Scenario.custom (Scenario.custom_rx_desc 0 0) 1).
Proof.
  split.
  - apply (proj1 receive_without_dd_changes_nothing _ (Scenario.rx_desc 0 0));
      reflexivity.
  - apply (proj2 receive_without_dd_changes_nothing _ (Scenario.custom_rx_desc 0 0));
      reflexivity.
Defined.

Lemma at_index_inv {A : Type} (ring : list A) (i : Z) (d : A) :
  at_index ring i = Ok d -> ring !! Z.to_nat i = Some d.
Proof. unfold at_index. destruct (ring !! Z.to_nat i); congruence. Qed.

Lemma broadcom_receive_dd (s : Broadcom.BroadcomNetXtreme) (d : Broadcom.RxDescriptor) :
  Broadcom.rx_ring_ s !! Z.to_nat (Broadcom.rx_head_ s) = Some d ->
  Z.testbit (Broadcom.rx_status d) 0 = true ->
  0 <= Broadcom.rx_head_ s < Broadcom.RX_RING_SIZE ->
  Broadcom.receive_packet s =
    Ok (Some (Broadcom.rx_buffers_ s + Broadcom.rx_head_ s * Broadcom.MAX_PACKET_SIZE,
              Broadcom.rx_length d),
        {| Broadcom.bar0_ :=
             <[Broadcom.REG_RX_RING_TAIL := Broadcom.rx_head_ s]> (Broadcom.bar0_ s);
           Broadcom.dma_ := Broadcom.dma_ s;
           Broadcom.rx_ring_ :=
             <[Z.to_nat (Broadcom.rx_head_ s) := Broadcom.rx_clear_status d]>
               (Broadcom.rx_ring_ s);
           Broadcom.tx_ring_ := Broadcom.tx_ring_ s;
           Broadcom.rx_buffers_ := Broadcom.rx_buffers_ s;
           Broadcom.tx_buffers_ := Broadcom.tx_buffers_ s;
           Broadcom.rx_head_ := (Broadcom.rx_head_ s + 1) mod Broadcom.RX_RING_SIZE;
           Broadcom.tx_head_ := Broadcom.tx_head_ s;
           Broadcom.tx_tail_ := Broadcom.tx_tail_ s;
           Broadcom.packets_received_ := wrap64 (Broadcom.packets_received_ s + 1);
           Broadcom.packets_sent_ := Broadcom.packets_sent_ s;
           Broadcom.initialized_ := Broadcom.initialized_ s |}).
Proof.
  intros Hd Hdd Hh. unfold Broadcom.receive_packet.
  rewrite (at_index_Ok _ _ _ Hd). cbn.
  unfold Broadcom.DESC_STATUS_DD. rewrite land_bit0, Hdd. cbn [negb].
  unfold Broadcom.RX_RING_SIZE, Broadcom.MAX_PACKET_SIZE in *.
  change (1024 - 1) with (2 ^ 10 - 1).
  rewrite (mask_next 10) by lia.
  pose proof (Z.mod_pos_bound (Broadcom.rx_head_ s + 1) (2 ^ 10) ltac:(lia)).
  rewrite (mask_prev 10) by lia.
  change (2 ^ 10) with 1024.
  assert (((Broadcom.rx_head_ s + 1) mod 1024 - 1) mod 1024 = Broadcom.rx_head_ s) as Hprev.
  { rewrite Zminus_mod_idemp_l.
    replace (Broadcom.rx_head_ s + 1 - 1) with (Broadcom.rx_head_ s) by lia.
    apply Z.mod_small; lia. }
  rewrite Hprev.
  unfold reg_write, wrap32.
  rewrite (wrap_small 32 (Broadcom.rx_head_ s)) by lia.
  rewrite (wrap_small 32 (Broadcom.rx_head_ s * 9216)) by lia.
  reflexivity.
Qed.

Lemma custom_poll_dd (s : Custom.CustomNICDriver) (d : Custom.RXDescriptor) (p : Z) :
  reg_read (Custom.bar0_ s) Custom.registers.RX_HEAD <> Custom.rx_head_ s ->
  Custom.rx_ring_ s !! Z.to_nat (Custom.rx_head_ s) = Some d ->
  Z.testbit (Custom.status_flags d) 0 = true ->
  Custom.rx_buffers_ s !! Z.to_nat (Custom.rx_head_ s) = Some p ->
  0 <= Custom.rx_head_ s < Custom.RX_RING_SIZE ->
  Custom.poll_rx s =
    Ok (Some (p, Custom.pkt_len d),
        {| Custom.bar0_ :=
             <[Custom.registers.RX_TAIL :=
                 (Custom.rx_head_ s + 1) mod Custom.RX_RING_SIZE]> (Custom.bar0_ s);
           Custom.dma_ := Custom.dma_ s;
           Custom.rx_ring_ :=
             <[Z.to_nat (Custom.rx_head_ s) := Custom.rx_clear_flags d]>
               (Custom.rx_ring_ s);
           Custom.tx_ring_ := Custom.tx_ring_ s;
           Custom.rx_buffers_ := Custom.rx_buffers_ s;
           Custom.tx_buffers_ := Custom.tx_buffers_ s;
           Custom.rx_head_ := (Custom.rx_head_ s + 1) mod Custom.RX_RING_SIZE;
           Custom.tx_tail_ := Custom.tx_tail_ s;
           Custom.initialized_ := Custom.initialized_ s |}).
Proof.
  intros Hhw Hd Hdd Hp Hh. unfold Custom.poll_rx, Custom.read_reg32.
  destruct (Z.eqb_spec (reg_read (Custom.bar0_ s) Custom.registers.RX_HEAD)
                       (Custom.rx_head_ s)) as [E | _]; [contradiction |].
  rewrite (at_index_Ok _ _ _ Hd). cbn.
  unfold Custom.RX_DD_BIT. rewrite land_bit0, Hdd. cbn [negb].
  rewrite (at_index_Ok _ _ _ Hp). cbn.
  unfold Custom.RX_RING_SIZE in *.
  change (512 - 1) with (2 ^ 9 - 1).
  rewrite (mask_next 9) by lia.
  change (2 ^ 9) with 512.
  unfold reg_write, wrap32.
  rewrite (wrap_small 32 ((Custom.rx_head_ s + 1) mod 512))
    by (pose proof (Z.mod_pos_bound (Custom.rx_head_ s + 1) 512); lia).
  reflexivity.
Qed.

(** C4 (as amended). When the descriptor under the software head cursor has
    its DD bit set (and, for [CustomNICDriver::poll_rx], the RX_HEAD register
    differs from the software head), the receive call returns the buffer
    bound to that slot and the descriptor's length, zeroes the descriptor's
    status, and advances head to [(head + 1) mod N].  The value stored in
    the RX tail register is the new head for [CustomNICDriver], and for
    [BroadcomNetXtreme] the index of the slot just recycled, that is
    [(new head - 1) mod N], the old head.  Nothing else changes apart from
    Broadcom's receive counter. *)
Theorem receive_with_dd_recycles_slot :
  (forall (s : Broadcom.BroadcomNetXtreme) (d : Broadcom.RxDescriptor),
      Broadcom.rx_ring_ s !! Z.to_nat (Broadcom.rx_head_ s) = Some d ->
      Z.testbit (Broadcom.rx_status d) 0 = true ->
      0 <= Broadcom.rx_head_ s < Broadcom.RX_RING_SIZE ->
      Broadcom.receive_packet s =
        Ok (Some (Broadcom.rx_buffers_ s
                  + Broadcom.rx_head_ s * Broadcom.MAX_PACKET_SIZE,
                  Broadcom.rx_length d),
            {| Broadcom.bar0_ :=
                 <[Broadcom.REG_RX_RING_TAIL := Broadcom.rx_head_ s]>
                   (Broadcom.bar0_ s);
               Broadcom.dma_ := Broadcom.dma_ s;
               Broadcom.rx_ring_ :=
                 <[Z.to_nat (Broadcom.rx_head_ s) := Broadcom.rx_clear_status d]>
                   (Broadcom.rx_ring_ s);
               Broadcom.tx_ring_ := Broadcom.tx_ring_ s;
               Broadcom.rx_buffers_ := Broadcom.rx_buffers_ s;
               Broadcom.tx_buffers_ := Broadcom.tx_buffers_ s;
               Broadcom.rx_head_ :=
                 (Broadcom.rx_head_ s + 1) mod Broadcom.RX_RING_SIZE;
               Broadcom.tx_head_ := Broadcom.tx_head_ s;
               Broadcom.tx_tail_ := Broadcom.tx_tail_ s;
               Broadcom.packets_received_ :=
                 wrap64 (Broadcom.packets_received_ s + 1);
               Broadcom.packets_sent_ := Broadcom.packets_sent_ s;
               Broadcom.initialized_ := Broadcom.initialized_ s |}))
  /\
  (forall (s : Custom.CustomNICDriver) (d : Custom.RXDescriptor) (p : Z),
      reg_read (Custom.bar0_ s) Custom.registers.RX_HEAD <> Custom.rx_head_ s ->
      Custom.rx_ring_ s !! Z.to_nat (Custom.rx_head_ s) = Some d ->
      Z.testbit (Custom.status_flags d) 0 = true ->
      Custom.rx_buffers_ s !! Z.to_nat (Custom.rx_head_ s) = Some p ->
      0 <= Custom.rx_head_ s < Custom.RX_RING_SIZE ->
      Custom.poll_rx s =
        Ok (Some (p, Custom.pkt_len d),
            {| Custom.bar0_ :=
                 <[Custom.registers.RX_TAIL :=
                     (Custom.rx_head_ s + 1) mod Custom.RX_RING_SIZE]>
                   (Custom.bar0_ s);
               Custom.dma_ := Custom.dma_ s;
               Custom.rx_ring_ :=
                 <[Z.to_nat (Custom.rx_head_ s) := Custom.rx_clear_flags d]>
                   (Custom.rx_ring_ s);
               Custom.tx_ring_ := Custom.tx_ring_ s;
               Custom.rx_buffers_ := Custom.rx_buffers_ s;
               Custom.tx_buffers_ := Custom.tx_buffers_ s;
               Custom.rx_head_ :=
                 (Custom.rx_head_ s + 1) mod Custom.RX_RING_SIZE;
               Custom.tx_tail_ := Custom.tx_tail_ s;
               Custom.initialized_ := Custom.initialized_ s |})).
Proof.
  split.
  - exact broadcom_receive_dd.
  - exact custom_poll_dd.
Qed.

Lemma receive_with_dd_recycles_slot_witness :
  (exists s', Broadcom.receive_packet (Scenario.broadcom_rx 64 0)
              = Ok (Some (0x10000000, 64), s')
              /\ Broadcom.rx_head_ s' = 1
              /\ Broadcom.bar0_ s' !! Broadcom.REG_RX_RING_TAIL = Some 0)
  /\
  (exists s', Custom.poll_rx (Scenario.custom_rx 1 64)
              = Ok (Some (0x10000000, 64), s')
              /\ Custom.rx_head_ s' = 1
              /\ Custom.bar0_ s' !! Custom.registers.RX_TAIL = Some 1).
Proof.
  split.
  - pose proof (proj1 receive_with_dd_recycles_slot
                  (Scenario.broadcom_rx 64 0) (Scenario.rx_desc 1 64)
                  eq_refl eq_refl ltac:(vm_compute; split; congruence)) as H.
    eexists. split; [exact H | split; reflexivity].
  - pose proof (proj2 receive_with_dd_recycles_slot
                  (Scenario.custom_rx 1 64) (Scenario.custom_rx_desc 1 64)
                  0x10000000 ltac:(vm_compute; congruence) eq_refl eq_refl
                  eq_refl ltac:(vm_compute; split; congruence)) as H.
    eexists. split; [exact H | split; reflexivity].
Defined.

(** C4, the claim as worded fails on both drivers.  On [BroadcomNetXtreme]
    a receive from slot 0 moves head to 1 and stores 0, not the new head,
    in the RX tail register.  On [CustomNICDriver] a slot whose DD bit is
    set is not delivered while the RX_HEAD register equals the software
    head. *)
Lemma receive_with_dd_counterexample :
  (exists r s', Broadcom.receive_packet (Scenario.broadcom_rx 64 0) = Ok (Some r, s')
                /\ Broadcom.rx_head_ s' = 1
                /\ reg_read (Broadcom.bar0_ s') Broadcom.REG_RX_RING_TAIL = 0)
  /\
  (Z.testbit (Custom.status_flags (Scenario.custom_rx_desc 1 64)) 0 = true
   /\ Custom.poll_rx (Scenario.custom_rx 0 64) = Ok (None, Scenario.custom_rx 0 64)).
Proof.
  split.
  - do 2 eexists. split; [reflexivity | split; reflexivity].
  - split; reflexivity.
Qed.

Lemma broadcom_receive_length (s s' : Broadcom.BroadcomNetXtreme) (p len : Z) :
  Broadcom.receive_packet s = Ok (Some (p, len), s') ->
  exists d, Broadcom.rx_ring_ s !! Z.to_nat (Broadcom.rx_head_ s) = Some d
            /\ Z.testbit (Broadcom.rx_status d) 0 = true
            /\ len = Broadcom.rx_length d.
Proof.
  unfold Broadcom.receive_packet, Broadcom.DESC_STATUS_DD.
  destruct (at_index _ _) as [d | f] eqn:E; cbn; [| discriminate].
  rewrite land_bit0.
  destruct (Z.testbit (Broadcom.rx_status d) 0) eqn:Hdd; cbn; [| discriminate].
  intros [= _ <- _]. exists d. auto using at_index_inv.
Qed.

Lemma custom_poll_length (s s' : Custom.CustomNICDriver) (p len : Z) :
  Custom.poll_rx s = Ok (Some (p, len), s') ->
  exists d, Custom.rx_ring_ s !! Z.to_nat (Custom.rx_head_ s) = Some d
            /\ Z.testbit (Custom.status_flags d) 0 = true
            /\ len = Custom.pkt_len d.
Proof.
  unfold Custom.poll_rx, Custom.RX_DD_BIT.
  destruct (_ =? _); [discriminate |].
  destruct (at_index (Custom.rx_ring_ s) _) as [d | f] eqn:E; cbn; [| discriminate].
  rewrite land_bit0.
  destruct (Z.testbit (Custom.status_flags d) 0) eqn:Hdd; cbn; [| discriminate].
  destruct (at_index (Custom.rx_buffers_ s) _) as [q | f]; cbn; [| discriminate].
  intros [= _ <- _]. exists d. auto using at_index_inv.
Qed.

(** C3 (as amended). Neither receive call validates or clamps the length:
    whenever a packet is returned, the length handed to the caller is the
    length field of the descriptor under the head cursor, whatever its
    value.  It is therefore within the slot capacity exactly when the
    hardware wrote a length within the capacity. *)
Theorem receive_returns_descriptor_length :
  (forall (s s' : Broadcom.BroadcomNetXtreme) (p len : Z),
      Broadcom.receive_packet s = Ok (Some (p, len), s') ->
      exists d, Broadcom.rx_ring_ s !! Z.to_nat (Broadcom.rx_head_ s) = Some d
                /\ Z.testbit (Broadcom.rx_status d) 0 = true
                /\ len = Broadcom.rx_length d)
  /\
  (forall (s s' : Custom.CustomNICDriver) (p len : Z),
      Custom.poll_rx s = Ok (Some (p, len), s') ->
      exists d, Custom.rx_ring_ s !! Z.to_nat (Custom.rx_head_ s) = Some d
                /\ Z.testbit (Custom.status_flags d) 0 = true
                /\ len = Custom.pkt_len d).
Proof.
  split.
  - exact broadcom_receive_length.
  - exact custom_poll_length.
Qed.

Lemma receive_returns_descriptor_length_witness :
  (exists d, Broadcom.rx_ring_ (Scenario.broadcom_rx 64 0) !! 0%nat = Some d
             /\ Z.testbit (Broadcom.rx_status d) 0 = true
             /\ 64 = Broadcom.rx_length d)
  /\
  (exists d, Custom.rx_ring_ (Scenario.custom_rx 1 64) !! 0%nat = Some d
             /\ Z.testbit (Custom.status_flags d) 0 = true
             /\ 64 = Custom.pkt_len d).
Proof.
  split.
  - eapply (proj1 receive_returns_descriptor_length (Scenario.broadcom_rx 64 0)).
    reflexivity.
  - eapply (proj2 receive_returns_descriptor_length (Scenario.custom_rx 1 64)).
    reflexivity.
Defined.

(** C3, the claim as worded fails: a descriptor whose length field is
    65535 is delivered with length 65535, above [MAX_PACKET_SIZE] (9216)
    and [PACKET_BUFFER_SIZE] (2048), and a descriptor of length 0 is
    delivered as an ordinary packet. *)
Lemma receive_length_counterexample :
  (exists p s', Broadcom.receive_packet (Scenario.broadcom_rx 65535 0)
                = Ok (Some (p, 65535), s')
                /\ Broadcom.MAX_PACKET_SIZE < 65535)
  /\
  (exists p s', Custom.poll_rx (Scenario.custom_rx 1 65535)
                = Ok (Some (p, 65535), s')
                /\ Custom.PACKET_BUFFER_SIZE < 65535)
  /\
  (exists p s', Broadcom.receive_packet (Scenario.broadcom_rx 0 0)
                = Ok (Some (p, 0), s')).
Proof.
  split; [| split].
  - do 2 eexists. split; reflexivity.
  - do 2 eexists. split; reflexivity.
  - do 2 eexists. reflexivity.
Qed.

(** ** Transmit path of BroadcomNetXtreme *)

Section BroadcomTx.

Import Broadcom Ring.

Local Ltac ring_size := unfold TX_RING_SIZE, MAX_PACKET_SIZE in *.

Lemma set_tx_head_same (s : BroadcomNetXtreme) : set_tx_head (tx_head_ s) s = s.
Proof. now destruct s. Qed.

Lemma set_tx_head_twice (h h' : Z) (s : BroadcomNetXtreme) :
  set_tx_head h' (set_tx_head h s) = set_tx_head h' s.
Proof. reflexivity. Qed.

Lemma tx_next_tail (s : BroadcomNetXtreme) :
  tx_wf s ->
  Z.land (wrap32 (tx_tail_ s + 1)) (TX_RING_SIZE - 1)
  = (tx_tail_ s + 1) mod TX_RING_SIZE.
Proof.
  intros (_ & _ & Ht & _). ring_size.
  change (1024 - 1) with (2 ^ 10 - 1). now rewrite (mask_next 10) by lia.
Qed.

Lemma tx_next_head (s : BroadcomNetXtreme) :
  tx_wf s ->
  Z.land (wrap32 (tx_head_ s + 1)) (TX_RING_SIZE - 1)
  = (tx_head_ s + 1) mod TX_RING_SIZE.
Proof.
  intros (_ & Hh & _ & _). ring_size.
  change (1024 - 1) with (2 ^ 10 - 1). now rewrite (mask_next 10) by lia.
Qed.

Lemma tx_slot_exists (s : BroadcomNetXtreme) (i : Z) :
  tx_wf s -> 0 <= i < TX_RING_SIZE ->
  exists d, tx_ring_ s !! Z.to_nat i = Some d.
Proof.
  intros (Hlen & _) Hi.
  apply lookup_lt_is_Some_2. rewrite Hlen. lia.
Qed.

Lemma tx_wf_set_head (s : BroadcomNetXtreme) (h : Z) :
  tx_wf s -> 0 <= h < TX_RING_SIZE -> tx_wf (set_tx_head h s).
Proof. unfold tx_wf. cbn. tauto. Qed.

(** *** The copy-and-publish part of [send_packet] *)

Lemma send_packet_fill_ok (s : BroadcomNetXtreme) (nt : Z) (data : list Byte.byte)
    (len : Z) :
  tx_wf s -> 0 <= len <= Z.of_nat (length data) ->
  exists s',
    send_packet_fill nt data len s = Ok (true, s')
    /\ tx_head_ s' = tx_head_ s
    /\ tx_tail_ s' = nt
    /\ tx_buffers_ s' = tx_buffers_ s
    /\ length (tx_ring_ s') = length (tx_ring_ s)
    /\ tx_done (tx_ring_ s') (tx_tail_ s) = false
    /\ (forall i : nat, i <> Z.to_nat (tx_tail_ s) ->
          tx_ring_ s' !! i = tx_ring_ s !! i)
    /\ packets_received_ s' = packets_received_ s
    /\ packets_sent_ s' = wrap64 (packets_sent_ s + 1)
    /\ dma_ s' = store_bytes (dma_ s)
                   (tx_buffers_ s + wrap32 (tx_tail_ s * MAX_PACKET_SIZE))
                   (take (Z.to_nat len) data).
Proof.
  intros Hwf Hlen.
  destruct (tx_slot_exists s (tx_tail_ s) Hwf) as [d Hd]; [apply Hwf |].
  destruct Hwf as (Hl & Hh & Ht & Hb).
  unfold send_packet_fill.
  assert (tx_buffers_ s + wrap32 (tx_tail_ s * MAX_PACKET_SIZE) <> 0) as Hnz.
  { unfold wrap32, wrap.
    pose proof (Z.mod_pos_bound (tx_tail_ s * MAX_PACKET_SIZE) (2 ^ 32) ltac:(lia)).
    lia. }
  rewrite (memcpy_Ok _ _ _ _ Hnz) by lia.
  cbn. rewrite (at_index_Ok _ _ _ Hd). cbn.
  eexists. split; [reflexivity |]. cbn.
  assert (Z.to_nat (tx_tail_ s) < length (tx_ring_ s))%nat as Hin
    by (rewrite Hl; ring_size; lia).
  repeat split; try reflexivity.
  - now rewrite length_insert.
  - unfold tx_done. now rewrite list_lookup_insert_eq by exact Hin.
  - intros i Hi. now rewrite list_lookup_insert_ne by congruence.
Qed.

Lemma send_packet_fill_not_false (s s' : BroadcomNetXtreme) (nt : Z)
    (data : list Byte.byte) (len : Z) :
  send_packet_fill nt data len s <> Ok (false, s').
Proof.
  unfold send_packet_fill.
  destruct (memcpy _ _ _ _); cbn; [| discriminate].
  destruct (at_index _ _); cbn; discriminate.
Qed.

(** *** The reclaim loop *)

Lemma reclaim_loop_fuel_mono (n m : nat) (s s' : BroadcomNetXtreme) :
  (n <= m)%nat -> reclaim_loop n s = Ok s' -> reclaim_loop m s = Ok s'.
Proof.
  revert m s. induction n as [| n IH]; intros m s Hnm.
  - destruct m; cbn; destruct (_ =? _); try discriminate; auto.
  - destruct m as [| m]; [lia |]. cbn.
    destruct (_ =? _); [auto |].
    destruct (at_index _ _) as [d | f]; cbn; [| discriminate].
    destruct (_ =? _); [auto |].
    apply IH. lia.
Qed.

Lemma reclaim_stop_here (fuel : nat) (s : BroadcomNetXtreme) :
  tx_wf s ->
  reclaim_loop fuel s = Ok s ->
  (tx_tail_ s - tx_head_ s) mod TX_RING_SIZE = 0
  \/ tx_done (tx_ring_ s) (tx_head_ s) = false ->
  exists j,
    0 <= j <= (tx_tail_ s - tx_head_ s) mod TX_RING_SIZE
    /\ reclaim_loop fuel s
       = Ok (set_tx_head ((tx_head_ s + j) mod TX_RING_SIZE) s)
    /\ (forall i, 0 <= i < j ->
          tx_done (tx_ring_ s) ((tx_head_ s + i) mod TX_RING_SIZE) = true)
    /\ (j = (tx_tail_ s - tx_head_ s) mod TX_RING_SIZE
        \/ tx_done (tx_ring_ s) ((tx_head_ s + j) mod TX_RING_SIZE) = false).
Proof.
  intros (_ & Hh & Ht & _) Hrun Hstop.
  pose proof (Z.mod_pos_bound (tx_tail_ s - tx_head_ s) TX_RING_SIZE
                ltac:(ring_size; lia)).
  exists 0. rewrite Z.add_0_r, (Z.mod_small (tx_head_ s)) by lia.
  rewrite set_tx_head_same.
  repeat split; try lia; [exact Hrun |].
  destruct Hstop as [-> | Hstop]; [now left | now right].
Qed.

Lemma reclaim_loop_spec (fuel : nat) (s : BroadcomNetXtreme) :
  tx_wf s ->
  (tx_tail_ s - tx_head_ s) mod TX_RING_SIZE <= Z.of_nat fuel ->
  exists j,
    0 <= j <= (tx_tail_ s - tx_head_ s) mod TX_RING_SIZE
    /\ reclaim_loop fuel s
       = Ok (set_tx_head ((tx_head_ s + j) mod TX_RING_SIZE) s)
    /\ (forall i, 0 <= i < j ->
          tx_done (tx_ring_ s) ((tx_head_ s + i) mod TX_RING_SIZE) = true)
    /\ (j = (tx_tail_ s - tx_head_ s) mod TX_RING_SIZE
        \/ tx_done (tx_ring_ s) ((tx_head_ s + j) mod TX_RING_SIZE) = false).
Proof.
  revert s. induction fuel as [| fuel IH]; intros s Hwf Hfuel.
  - pose proof Hwf as (_ & Hh & Ht & _).
    assert (tx_head_ s = tx_tail_ s) as E
      by (ring_size; Z.div_mod_to_equations; lia).
    apply reclaim_stop_here; [exact Hwf | | left].
    + cbn. now rewrite E, Z.eqb_refl.
    + rewrite E, Z.sub_diag. reflexivity.
  - pose proof Hwf as (_ & Hh & Ht & _).
    destruct (Z.eqb_spec (tx_head_ s) (tx_tail_ s)) as [E | Hne].
    { apply reclaim_stop_here; [exact Hwf | | left].
      + cbn. now rewrite E, Z.eqb_refl.
      + rewrite E, Z.sub_diag. reflexivity. }
    destruct (tx_slot_exists s (tx_head_ s) Hwf Hh) as [d Hd].
    assert (reclaim_loop (S fuel) s
            = if Z.testbit (tx_status d) 0
              then reclaim_loop fuel
                     (set_tx_head ((tx_head_ s + 1) mod TX_RING_SIZE) s)
              else Ok s) as Hstep.
    { cbn [reclaim_loop].
      destruct (Z.eqb_spec (tx_head_ s) (tx_tail_ s)); [contradiction |].
      rewrite (at_index_Ok _ _ _ Hd), bind_Ok.
      unfold DESC_STATUS_DD. rewrite land_bit0, (tx_next_head s Hwf).
      now destruct (Z.testbit (tx_status d) 0). }
    destruct (Z.testbit (tx_status d) 0) eqn:Hdd.
    + set (h1 := (tx_head_ s + 1) mod TX_RING_SIZE) in *.
      assert (0 <= h1 < TX_RING_SIZE) as Hh1
        by (apply Z.mod_pos_bound; ring_size; lia).
      assert ((tx_tail_ s - h1) mod TX_RING_SIZE
              = (tx_tail_ s - tx_head_ s) mod TX_RING_SIZE - 1) as Hdist.
      { subst h1. ring_size. Z.div_mod_to_equations. lia. }
      destruct (IH (set_tx_head h1 s)) as (j & Hj & Hrun & Hall & Hstop).
      { now apply tx_wf_set_head. }
      { cbn. lia. }
      cbn in Hj, Hrun, Hall, Hstop.
      assert (forall i, (h1 + i) mod TX_RING_SIZE
                        = (tx_head_ s + (i + 1)) mod TX_RING_SIZE) as Hshift.
      { intros i. subst h1. rewrite Zplus_mod_idemp_l. f_equal. lia. }
      exists (j + 1). rewrite Hstep, Hrun, Hshift. repeat split; try lia.
      * intros i Hi. destruct (Z.eq_dec i 0) as [-> | Hi0].
        -- rewrite Z.add_0_r, Z.mod_small by lia.
           unfold tx_done. now rewrite Hd.
        -- replace i with (i - 1 + 1) by lia. rewrite <- Hshift.
           apply Hall. lia.
      * destruct Hstop as [-> | Hstop]; [left; lia | right].
        now rewrite <- Hshift.
    + apply reclaim_stop_here; [exact Hwf | exact Hstep | right].
      unfold tx_done. now rewrite Hd.
Qed.

Lemma reclaim_terminates (s : BroadcomNetXtreme) :
  tx_wf s ->
  exists j,
    0 <= j <= (tx_tail_ s - tx_head_ s) mod TX_RING_SIZE
    /\ reclaim_tx_descriptors s
       = Ok (set_tx_head ((tx_head_ s + j) mod TX_RING_SIZE) s)
    /\ (forall i, 0 <= i < j ->
          tx_done (tx_ring_ s) ((tx_head_ s + i) mod TX_RING_SIZE) = true)
    /\ (j = (tx_tail_ s - tx_head_ s) mod TX_RING_SIZE
        \/ tx_done (tx_ring_ s) ((tx_head_ s + j) mod TX_RING_SIZE) = false).
Proof.
  intros Hwf. unfold reclaim_tx_descriptors.
  apply reclaim_loop_spec; [exact Hwf |].
  rewrite Z2Nat.id by (ring_size; lia).
  pose proof (Z.mod_pos_bound (tx_tail_ s - tx_head_ s) TX_RING_SIZE
                ltac:(ring_size; lia)).
  lia.
Qed.

(** *** [send_packet] on a ring with room, and on a full ring *)

Lemma send_packet_free (s : BroadcomNetXtreme) (data : list Byte.byte) (len : Z) :
  tx_wf s ->
  (tx_tail_ s + 1) mod TX_RING_SIZE <> tx_head_ s ->
  0 <= len <= Z.of_nat (length data) ->
  exists s',
    send_packet data len s = Ok (true, s')
    /\ tx_wf s'
    /\ tx_head_ s' = tx_head_ s
    /\ tx_tail_ s' = (tx_tail_ s + 1) mod TX_RING_SIZE
    /\ tx_done (tx_ring_ s') (tx_tail_ s) = false
    /\ (forall i : nat, i <> Z.to_nat (tx_tail_ s) ->
          tx_ring_ s' !! i = tx_ring_ s !! i)
    /\ packets_sent_ s' = wrap64 (packets_sent_ s + 1)
    /\ dma_ s' = store_bytes (dma_ s)
                   (tx_buffers_ s + wrap32 (tx_tail_ s * MAX_PACKET_SIZE))
                   (take (Z.to_nat len) data).
Proof.
  intros Hwf Hfree Hlen. unfold send_packet.
  rewrite (tx_next_tail s Hwf).
  destruct (Z.eqb_spec ((tx_tail_ s + 1) mod TX_RING_SIZE) (tx_head_ s));
    [contradiction |].
  destruct (send_packet_fill_ok s ((tx_tail_ s + 1) mod TX_RING_SIZE) data len
              Hwf Hlen)
    as (s' & Hrun & Hh & Ht & Hb & Hl & Hdone & Hother & _ & Hsent & Hdma).
  exists s'. repeat split; try assumption.
  - rewrite Hl. apply Hwf.
  - rewrite Hh. apply Hwf.
  - rewrite Hh. apply Hwf.
  - rewrite Ht. apply Z.mod_pos_bound. ring_size. lia.
  - rewrite Ht. apply Z.mod_pos_bound. ring_size. lia.
  - rewrite Hb. apply Hwf.
Qed.

Lemma send_packet_full (s : BroadcomNetXtreme) (data : list Byte.byte) (len : Z) :
  tx_wf s ->
  (tx_tail_ s + 1) mod TX_RING_SIZE = tx_head_ s ->
  tx_done (tx_ring_ s) (tx_head_ s) = false ->
  send_packet data len s = Ok (false, s).
Proof.
  intros Hwf Hfull Hdd. unfold send_packet.
  rewrite (tx_next_tail s Hwf), Hfull, Z.eqb_refl.
  destruct (reclaim_terminates s Hwf) as (j & Hj & Hrun & Hall & Hstop).
  assert (j = 0) as ->.
  { destruct (Z.eq_dec j 0) as [| Hj0]; [assumption |].
    specialize (Hall 0 ltac:(lia)).
    pose proof Hwf as (_ & Hh & _).
    rewrite Z.add_0_r, Z.mod_small in Hall by lia. congruence. }
  pose proof Hwf as (_ & Hh & _).
  rewrite Z.add_0_r, (Z.mod_small (tx_head_ s)), set_tx_head_same in Hrun by lia.
  now rewrite Hrun, bind_Ok, Z.eqb_refl.
Qed.

Lemma send_packet_false_inv (s s' : BroadcomNetXtreme) (data : list Byte.byte)
    (len : Z) :
  tx_wf s ->
  send_packet data len s = Ok (false, s') ->
  s' = s
  /\ (tx_tail_ s + 1) mod TX_RING_SIZE = tx_head_ s
  /\ tx_done (tx_ring_ s) (tx_head_ s) = false.
Proof.
  intros Hwf. unfold send_packet.
  rewrite (tx_next_tail s Hwf).
  destruct (Z.eqb_spec ((tx_tail_ s + 1) mod TX_RING_SIZE) (tx_head_ s))
    as [Hfull | Hfree].
  - destruct (reclaim_terminates s Hwf) as (j & Hj & Hrun & Hall & Hstop).
    rewrite Hrun, bind_Ok. cbn [tx_head_ set_tx_head]. rewrite Hfull.
    pose proof Hwf as (_ & Hh & Ht & _).
    destruct (Z.eqb_spec (tx_head_ s) ((tx_head_ s + j) mod TX_RING_SIZE))
      as [Hsame | Hmoved].
    + assert (j = 0) as ->
        by (revert Hj Hsame Hfull; ring_size; Z.div_mod_to_equations; lia).
      rewrite Z.add_0_r, (Z.mod_small (tx_head_ s)), set_tx_head_same by lia.
      intros [= <-]. split; [reflexivity | split; [reflexivity |]].
      rewrite Z.add_0_r, (Z.mod_small (tx_head_ s)) in Hstop by lia.
      destruct Hstop as [Hstop | Hstop]; [| assumption].
      revert Hstop Hfull. ring_size. Z.div_mod_to_equations. lia.
    + intros Hfill. now apply send_packet_fill_not_false in Hfill.
  - intros Hfill. now apply send_packet_fill_not_false in Hfill.
Qed.

(** *** Consecutive submissions *)

Lemma tx_done_other (ring ring' : list TxDescriptor) (i t : Z) :
  (forall k : nat, k <> Z.to_nat t -> ring' !! k = ring !! k) ->
  0 <= i -> 0 <= t -> i <> t ->
  tx_done ring' i = tx_done ring i.
Proof.
  intros Hother Hi Ht Hne. unfold tx_done.
  now rewrite Hother by lia.
Qed.

Lemma send_all_cons (data : list Byte.byte) (len : Z)
    (rest : list (list Byte.byte * Z)) (s s1 : BroadcomNetXtreme) (b : bool) :
  send_packet data len s = Ok (b, s1) ->
  Runs.send_all ((data, len) :: rest) s
  = (r' ← Runs.send_all rest s1; Ok (b :: r'.1, r'.2)).
Proof. intros H. cbn [Runs.send_all]. now rewrite H, bind_Ok. Qed.

Lemma send_all_free (frames : list (list Byte.byte * Z)) :
  forall s : BroadcomNetXtreme,
    tx_wf s ->
    Forall valid_frame frames ->
    Z.of_nat (length frames)
      <= (tx_head_ s - tx_tail_ s - 1) mod TX_RING_SIZE ->
    exists s',
      Runs.send_all frames s = Ok (replicate (length frames) true, s')
      /\ tx_wf s'
      /\ tx_head_ s' = tx_head_ s
      /\ tx_tail_ s' = (tx_tail_ s + Z.of_nat (length frames)) mod TX_RING_SIZE
      /\ (forall j, 0 <= j < Z.of_nat (length frames) ->
            tx_done (tx_ring_ s') ((tx_tail_ s + j) mod TX_RING_SIZE) = false)
      /\ (forall i, 0 <= i < TX_RING_SIZE ->
            (forall j, 0 <= j < Z.of_nat (length frames) ->
               i <> (tx_tail_ s + j) mod TX_RING_SIZE) ->
            tx_done (tx_ring_ s') i = tx_done (tx_ring_ s) i).
Proof.
  induction frames as [| [data len] rest IH]; intros s Hwf Hvalid Hroom.
  - exists s. pose proof Hwf as (_ & Hh & Ht & _).
    cbn. rewrite Z.add_0_r, Z.mod_small by lia.
    repeat split; try apply Hwf; intros; lia.
  - pose proof Hwf as (_ & Hh & Ht & _).
    apply Forall_cons in Hvalid as [[Hlen Hdata] Hvalid].
    cbn [length] in Hroom. cbn [fst snd] in Hlen, Hdata.
    destruct (send_packet_free s data len Hwf)
      as (s1 & Hsend & Hwf1 & Hh1 & Ht1 & Hdone1 & Hother1 & _).
    { revert Hroom. ring_size. Z.div_mod_to_equations. lia. }
    { lia. }
    destruct (IH s1 Hwf1 Hvalid) as (s' & Hrun & Hwf' & Hh' & Ht' & Hdone' & Hother').
    { rewrite Hh1, Ht1. revert Hroom. ring_size. Z.div_mod_to_equations. lia. }
    exists s'. rewrite (send_all_cons _ _ _ _ _ _ Hsend), Hrun, bind_Ok.
    cbn [fst snd length replicate].
    assert (forall j, (tx_tail_ s1 + j) mod TX_RING_SIZE
                      = (tx_tail_ s + (j + 1)) mod TX_RING_SIZE) as Hshift.
    { intros j. rewrite Ht1, Zplus_mod_idemp_l. f_equal. lia. }
    repeat split; try apply Hwf'.
    + congruence.
    + rewrite Ht', Hshift. f_equal. lia.
    + intros j Hj. destruct (Z.eq_dec j 0) as [-> | Hj0].
      * rewrite Z.add_0_r, Z.mod_small by lia.
        rewrite Hother'; [exact Hdone1 | lia |].
        intros j Hj'. rewrite Hshift.
        revert Hroom Hj'. ring_size. Z.div_mod_to_equations. lia.
      * replace j with (j - 1 + 1) by lia. rewrite <- Hshift.
        apply Hdone'. lia.
    + intros i Hi Hfresh.
      rewrite Hother'; [| exact Hi |].
      * apply (tx_done_other _ _ _ (tx_tail_ s)); [exact Hother1 | lia | lia |].
        specialize (Hfresh 0 ltac:(lia)).
        now rewrite Z.add_0_r, Z.mod_small in Hfresh by lia.
      * intros j Hj. rewrite Hshift. apply Hfresh. lia.
Qed.

Lemma send_all_snoc (frames : list (list Byte.byte * Z)) (data : list Byte.byte)
    (len : Z) (s s1 s2 : BroadcomNetXtreme) (bs : list bool) (b : bool) :
  Runs.send_all frames s = Ok (bs, s1) ->
  send_packet data len s1 = Ok (b, s2) ->
  Runs.send_all (frames ++ [(data, len)]) s = Ok (bs ++ [b], s2).
Proof.
  revert s bs. induction frames as [| [d l] rest IH]; intros s bs Hrun Hlast.
  - cbn in Hrun. injection Hrun as <- <-.
    cbn [app Runs.send_all]. now rewrite Hlast.
  - cbn [Runs.send_all] in Hrun. cbn [app Runs.send_all].
    destruct (send_packet d l s) as [[b0 s0] | f]; [| discriminate].
    rewrite bind_Ok in *. cbn [fst snd] in *.
    destruct (Runs.send_all rest s0) as [[bs0 s0'] | f] eqn:Hrest; [| discriminate].
    rewrite bind_Ok in Hrun. cbn [fst snd] in Hrun. injection Hrun as <- <-.
    now rewrite (IH s0 bs0 Hrest Hlast).
Qed.

End BroadcomTx.

(** ** Transmit path of CustomNICDriver *)

Section CustomTx.

Import Custom Ring.

Variable pagemap : option (Z -> Z).

Lemma custom_submit_oversize (s : CustomNICDriver) (data : list Byte.byte) (len : Z) :
  PACKET_BUFFER_SIZE < len -> submit_tx pagemap data len s = Ok (false, s).
Proof.
  intros H. unfold submit_tx.
  now destruct (Z.ltb_spec PACKET_BUFFER_SIZE len); [| lia].
Qed.

Lemma custom_submit_ok (s : CustomNICDriver) (data : list Byte.byte) (len : Z) :
  custom_tx_wf s -> custom_valid_frame (data, len) ->
  exists s',
    submit_tx pagemap data len s = Ok (true, s')
    /\ custom_tx_wf s'
    /\ tx_tail_ s' = (tx_tail_ s + 1) mod TX_RING_SIZE.
Proof.
  intros (Hring & Hbufs & Hnz & Ht) [Hlen Hdata]. cbn [fst snd] in Hlen, Hdata.
  unfold submit_tx.
  destruct (Z.ltb_spec PACKET_BUFFER_SIZE len); [lia |].
  destruct (lookup_lt_is_Some_2 (tx_buffers_ s) (Z.to_nat (tx_tail_ s)))
    as [buf Hbuf]; [rewrite Hbufs; unfold TX_RING_SIZE in *; lia |].
  destruct (lookup_lt_is_Some_2 (tx_ring_ s) (Z.to_nat (tx_tail_ s)))
    as [d Hd]; [rewrite Hring; unfold TX_RING_SIZE in *; lia |].
  rewrite (at_index_Ok _ _ _ Hbuf), bind_Ok.
  pose proof (Forall_lookup_1 _ _ _ _ Hnz Hbuf) as Hbuf0. cbn in Hbuf0.
  rewrite (memcpy_Ok _ _ _ _ Hbuf0) by lia.
  rewrite bind_Ok, (at_index_Ok _ _ _ Hd), bind_Ok.
  unfold TX_RING_SIZE in *. change (512 - 1) with (2 ^ 9 - 1).
  rewrite (mask_next 9) by lia. change (2 ^ 9) with 512.
  eexists. split; [reflexivity |].
  unfold custom_tx_wf, TX_RING_SIZE. cbn [tx_ring_ tx_buffers_ tx_tail_].
  rewrite length_insert.
  pose proof (Z.mod_pos_bound (tx_tail_ s + 1) 512 ltac:(lia)).
  repeat split; try assumption; try lia.
Qed.

Lemma custom_submit_result (s s' : CustomNICDriver) (data : list Byte.byte)
    (len : Z) (r : bool) :
  submit_tx pagemap data len s = Ok (r, s') ->
  r = negb (PACKET_BUFFER_SIZE <? len) /\ (r = false -> s' = s).
Proof.
  unfold submit_tx. destruct (PACKET_BUFFER_SIZE <? len).
  - intros [= <- <-]. split; reflexivity.
  - destruct (at_index (tx_buffers_ s) (tx_tail_ s)) as [buf | f];
      [rewrite bind_Ok | discriminate].
    destruct (memcpy _ _ _ _) as [m | f]; [rewrite bind_Ok | discriminate].
    destruct (at_index (tx_ring_ s) (tx_tail_ s)) as [d | f];
      [rewrite bind_Ok | discriminate].
    intros [= <- _]. split; [reflexivity | discriminate].
Qed.

Lemma custom_submit_all_ok (frames : list (list Byte.byte * Z)) :
  forall s : CustomNICDriver,
    custom_tx_wf s -> Forall custom_valid_frame frames ->
    exists s',
      Runs.submit_all pagemap frames s = Ok (replicate (length frames) true, s').
Proof.
  induction frames as [| [data len] rest IH]; intros s Hwf Hvalid.
  - exists s. reflexivity.
  - apply Forall_cons in Hvalid as [Hf Hvalid].
    destruct (custom_submit_ok s data len Hwf Hf) as (s1 & Hrun & Hwf1 & _).
    destruct (IH s1 Hwf1 Hvalid) as (s' & Hrest).
    exists s'. cbn [Runs.submit_all].
    rewrite Hrun, bind_Ok. cbn [fst snd].
    now rewrite Hrest, bind_Ok.
Qed.

End CustomTx.

(** ** Backpressure and reclaim *)

Lemma broadcom_fill_empty_ring (s : Broadcom.BroadcomNetXtreme)
    (frames : list (list Byte.byte * Z)) :
  Ring.tx_wf s ->
  Broadcom.tx_head_ s = Broadcom.tx_tail_ s ->
  length frames = Z.to_nat Broadcom.TX_RING_SIZE ->
  Forall Ring.valid_frame frames ->
  exists s',
    Runs.send_all frames s
    = Ok (replicate (Z.to_nat (Broadcom.TX_RING_SIZE - 1)) true ++ [false], s').
Proof.
  intros Hwf Hempty Hlen Hvalid.
  destruct (exists_last (l := frames)) as (init & [data len] & ->).
  { intros ->. discriminate Hlen. }
  rewrite length_app in Hlen. cbn [length] in Hlen.
  apply Forall_app in Hvalid as [Hinit _].
  pose proof Hwf as (_ & Hh & Ht & _).
  unfold Broadcom.TX_RING_SIZE in *.
  destruct (send_all_free init s Hwf Hinit)
    as (s1 & Hrun & Hwf1 & Hh1 & Ht1 & Hdone & _).
  { unfold Broadcom.TX_RING_SIZE. rewrite Hempty.
    replace (Broadcom.tx_tail_ s - Broadcom.tx_tail_ s - 1) with (-1) by lia.
    change (-1 mod 1024) with 1023. lia. }
  unfold Broadcom.TX_RING_SIZE in *.
  assert (length init = Z.to_nat (1024 - 1)) as Hinit_len by lia.
  rewrite Hinit_len in Hrun.
  exists s1. apply (send_all_snoc _ _ _ _ _ _ _ _ Hrun).
  apply send_packet_full; [exact Hwf1 | |].
  - rewrite Ht1, Hh1, Hempty. unfold Broadcom.TX_RING_SIZE.
    rewrite Zplus_mod_idemp_l.
    replace (Broadcom.tx_tail_ s + Z.of_nat (length init) + 1)
      with (Broadcom.tx_tail_ s + 1 * 1024) by lia.
    rewrite Z.mod_add by lia. apply Z.mod_small. lia.
  - rewrite Hh1, Hempty.
    specialize (Hdone 0 ltac:(lia)).
    now rewrite Z.add_0_r, Z.mod_small in Hdone by lia.
Qed.

Lemma broadcom_full_ring_submit (s : Broadcom.BroadcomNetXtreme)
    (data : list Byte.byte) (len : Z) :
  Ring.tx_wf s ->
  (Broadcom.tx_tail_ s + 1) mod Broadcom.TX_RING_SIZE = Broadcom.tx_head_ s ->
  exists s1,
    Broadcom.reclaim_tx_descriptors s = Ok s1
    /\ Broadcom.send_packet data len s
       = if (Broadcom.tx_tail_ s + 1) mod Broadcom.TX_RING_SIZE
            =? Broadcom.tx_head_ s1
         then Ok (false, s)
         else Broadcom.send_packet_fill
                ((Broadcom.tx_tail_ s + 1) mod Broadcom.TX_RING_SIZE) data len s1.
Proof.
  intros Hwf Hfull.
  destruct (reclaim_terminates s Hwf) as (j & _ & Hrun & _).
  eexists. split; [exact Hrun |].
  assert (Broadcom.send_packet data len s
          = if (Broadcom.tx_tail_ s + 1) mod Broadcom.TX_RING_SIZE
               =? Broadcom.tx_head_
                    (Broadcom.set_tx_head
                       ((Broadcom.tx_head_ s + j) mod Broadcom.TX_RING_SIZE) s)
            then Ok (false,
                     Broadcom.set_tx_head
                       ((Broadcom.tx_head_ s + j) mod Broadcom.TX_RING_SIZE) s)
            else Broadcom.send_packet_fill
                   ((Broadcom.tx_tail_ s + 1) mod Broadcom.TX_RING_SIZE) data len
                   (Broadcom.set_tx_head
                      ((Broadcom.tx_head_ s + j) mod Broadcom.TX_RING_SIZE) s))
    as Hsend.
  { unfold Broadcom.send_packet.
    rewrite (tx_next_tail s Hwf), Hfull, Z.eqb_refl, Hrun, bind_Ok.
    reflexivity. }
  rewrite Hsend.
  destruct (_ =? _) eqn:Hstill; [| reflexivity].
  now destruct (send_packet_false_inv _ _ _ _ Hwf Hsend) as (-> & _).
Qed.

Lemma broadcom_reclaim_restores (s : Broadcom.BroadcomNetXtreme) (k : Z)
    (frames : list (list Byte.byte * Z)) :
  Ring.tx_wf s ->
  (Broadcom.tx_tail_ s + 1) mod Broadcom.TX_RING_SIZE = Broadcom.tx_head_ s ->
  0 <= k <= Broadcom.TX_RING_SIZE - 1 ->
  (forall i, 0 <= i < k ->
     Ring.tx_done (Broadcom.tx_ring_ s)
       ((Broadcom.tx_head_ s + i) mod Broadcom.TX_RING_SIZE) = true) ->
  (k < Broadcom.TX_RING_SIZE - 1 ->
     Ring.tx_done (Broadcom.tx_ring_ s)
       ((Broadcom.tx_head_ s + k) mod Broadcom.TX_RING_SIZE) = false) ->
  length frames = Z.to_nat (k + 1) ->
  Forall Ring.valid_frame frames ->
  exists s1 s2,
    Broadcom.reclaim_tx_descriptors s = Ok s1
    /\ s1 = Broadcom.set_tx_head
              ((Broadcom.tx_head_ s + k) mod Broadcom.TX_RING_SIZE) s
    /\ Runs.send_all frames s1 = Ok (replicate (Z.to_nat k) true ++ [false], s2).
Proof.
  intros Hwf Hfull Hk Hmarked Hnext Hlen Hvalid.
  pose proof Hwf as (_ & Hh & Ht & _).
  destruct (reclaim_terminates s Hwf) as (j & Hj & Hrun & Hall & Hstop).
  assert ((Broadcom.tx_tail_ s - Broadcom.tx_head_ s) mod Broadcom.TX_RING_SIZE
          = Broadcom.TX_RING_SIZE - 1) as Hdist.
  { revert Hfull. unfold Broadcom.TX_RING_SIZE in *.
    Z.div_mod_to_equations. lia. }
  rewrite Hdist in Hj, Hstop.
  assert (j = k) as ->.
  { destruct (Z.lt_trichotomy j k) as [Hlt | [Heq | Hgt]]; [| exact Heq |].
    - destruct Hstop as [Hstop | Hstop]; [lia |].
      rewrite Hmarked in Hstop by lia. discriminate.
    - specialize (Hall k ltac:(lia)).
      rewrite Hnext in Hall by lia. discriminate. }
  set (h1 := (Broadcom.tx_head_ s + k) mod Broadcom.TX_RING_SIZE) in *.
  assert (0 <= h1 < Broadcom.TX_RING_SIZE) as Hh1
    by (apply Z.mod_pos_bound; unfold Broadcom.TX_RING_SIZE; lia).
  pose proof (tx_wf_set_head s h1 Hwf Hh1) as Hwf1.
  exists (Broadcom.set_tx_head h1 s).
  destruct (exists_last (l := frames)) as (init & [data len] & ->).
  { intros ->. cbn in Hlen. lia. }
  rewrite length_app in Hlen. cbn [length] in Hlen.
  apply Forall_app in Hvalid as [Hinit _].
  assert (Z.of_nat (length init) = k) as Hinit_len by lia.
  destruct (send_all_free init _ Hwf1 Hinit)
    as (s2 & Hsend & Hwf2 & Hh2 & Ht2 & Hdone & Hother).
  { cbn [Broadcom.tx_head_ Broadcom.tx_tail_ Broadcom.set_tx_head].
    subst h1. revert Hfull. unfold Broadcom.TX_RING_SIZE in *.
    Z.div_mod_to_equations. lia. }
  cbn [Broadcom.tx_head_ Broadcom.tx_tail_ Broadcom.tx_ring_ Broadcom.set_tx_head]
    in Hh2, Ht2, Hdone, Hother.
  replace (length init) with (Z.to_nat k) in Hsend by lia.
  exists s2. split; [exact Hrun | split; [reflexivity |]].
  apply (send_all_snoc _ _ _ _ _ _ _ _ Hsend).
  apply send_packet_full; [exact Hwf2 | |].
  - rewrite Ht2, Hh2, Hinit_len. subst h1. revert Hfull.
    unfold Broadcom.TX_RING_SIZE in *. Z.div_mod_to_equations. lia.
  - rewrite Hh2.
    destruct (Z.eq_dec k (Broadcom.TX_RING_SIZE - 1)) as [Hall_done | Hsome].
    + specialize (Hdone 0 ltac:(unfold Broadcom.TX_RING_SIZE in *; lia)).
      rewrite Z.add_0_r, Z.mod_small in Hdone by lia.
      replace h1 with (Broadcom.tx_tail_ s); [exact Hdone |].
      subst h1. revert Hfull. unfold Broadcom.TX_RING_SIZE in *.
      Z.div_mod_to_equations. lia.
    + rewrite Hother; [apply Hnext; lia | exact Hh1 |].
      intros i Hi. subst h1. revert Hfull.
      unfold Broadcom.TX_RING_SIZE in *. Z.div_mod_to_equations. lia.
Qed.

(** C5. On a well-formed driver [reclaim_tx_descriptors] returns, and the
    state it returns differs from the one it was given in [tx_head_] only:
    head has moved forward by [j] slots, all of which had DD set, and
    either it has reached tail or the descriptor it stopped at has DD
    clear.  When, on a full ring, the [k] oldest pending descriptors are
    DD-complete and the next one is not, reclaim moves head by [k] and the
    next [k] submissions of valid-size frames return [true], the one after
    them [false]. *)
Theorem reclaim_advances_over_completed :
  (forall s : Broadcom.BroadcomNetXtreme,
      Ring.tx_wf s ->
      exists j,
        0 <= j <= (Broadcom.tx_tail_ s - Broadcom.tx_head_ s)
                    mod Broadcom.TX_RING_SIZE
        /\ Broadcom.reclaim_tx_descriptors s
           = Ok (Broadcom.set_tx_head
                   ((Broadcom.tx_head_ s + j) mod Broadcom.TX_RING_SIZE) s)
        /\ (forall i, 0 <= i < j ->
              Ring.tx_done (Broadcom.tx_ring_ s)
                ((Broadcom.tx_head_ s + i) mod Broadcom.TX_RING_SIZE) = true)
        /\ (j = (Broadcom.tx_tail_ s - Broadcom.tx_head_ s)
                  mod Broadcom.TX_RING_SIZE
            \/ Ring.tx_done (Broadcom.tx_ring_ s)
                 ((Broadcom.tx_head_ s + j) mod Broadcom.TX_RING_SIZE) = false))
  /\
  (forall (s : Broadcom.BroadcomNetXtreme) (k : Z)
          (frames : list (list Byte.byte * Z)),
      Ring.tx_wf s ->
      (Broadcom.tx_tail_ s + 1) mod Broadcom.TX_RING_SIZE = Broadcom.tx_head_ s ->
      0 <= k <= Broadcom.TX_RING_SIZE - 1 ->
      (forall i, 0 <= i < k ->
         Ring.tx_done (Broadcom.tx_ring_ s)
           ((Broadcom.tx_head_ s + i) mod Broadcom.TX_RING_SIZE) = true) ->
      (k < Broadcom.TX_RING_SIZE - 1 ->
         Ring.tx_done (Broadcom.tx_ring_ s)
           ((Broadcom.tx_head_ s + k) mod Broadcom.TX_RING_SIZE) = false) ->
      length frames = Z.to_nat (k + 1) ->
      Forall Ring.valid_frame frames ->
      exists s1 s2,
        Broadcom.reclaim_tx_descriptors s = Ok s1
        /\ s1 = Broadcom.set_tx_head
                  ((Broadcom.tx_head_ s + k) mod Broadcom.TX_RING_SIZE) s
        /\ Runs.send_all frames s1
           = Ok (replicate (Z.to_nat k) true ++ [false], s2)).
Proof.
  split.
  - exact reclaim_terminates.
  - exact broadcom_reclaim_restores.
Qed.

Lemma reclaim_advances_over_completed_witness :
  exists s1 s2,
    Broadcom.reclaim_tx_descriptors (Scenario.broadcom_full 3) = Ok s1
    /\ s1 = Broadcom.set_tx_head 3 (Scenario.broadcom_full 3)
    /\ Runs.send_all (replicate 4 (Scenario.frame 64)) s1
       = Ok ([true; true; true; false], s2).
Proof.
  apply (proj2 reclaim_advances_over_completed (Scenario.broadcom_full 3) 3
           (replicate 4 (Scenario.frame 64))).
  - unfold Ring.tx_wf. vm_compute. repeat split; congruence.
  - reflexivity.
  - vm_compute. split; congruence.
  - intros i Hi.
    assert (i = 0 \/ i = 1 \/ i = 2) as [-> | [-> | ->]] by lia; reflexivity.
  - reflexivity.
  - reflexivity.
  - apply Forall_replicate. unfold Ring.valid_frame. vm_compute.
    repeat split; congruence.
Defined.

(** ** Oversized frames *)

(** C1. [CustomNICDriver::submit_tx] rejects a 9217-byte frame and leaves
    the driver as it was, but [BroadcomNetXtreme::send_packet] has no length
    check: given a frame of 9217 bytes, one more than [MAX_PACKET_SIZE], on
    an idle ring it returns [true], advances the tail cursor, bumps the send
    counter and copies all 9217 bytes, the last of which lands in the buffer
    of the next slot. *)
Theorem broadcom_send_oversize_accepted :
  (exists s',
     Broadcom.send_packet (Scenario.frame 9217).1 9217 Scenario.broadcom_idle
     = Ok (true, s')
     /\ Broadcom.MAX_PACKET_SIZE < 9217
     /\ Broadcom.tx_tail_ Scenario.broadcom_idle = 0
     /\ Broadcom.tx_tail_ s' = 1
     /\ Broadcom.packets_sent_ s' = 1
     /\ Broadcom.dma_ Scenario.broadcom_idle
          !! (0x20000000 + 1 * Broadcom.MAX_PACKET_SIZE) = None
     /\ Broadcom.dma_ s'
          !! (0x20000000 + 1 * Broadcom.MAX_PACKET_SIZE) = Some Byte.x00)
  /\
  Custom.submit_tx None (Scenario.frame 9217).1 9217
    (Scenario.custom (Scenario.custom_rx_desc 0 0) 0)
  = Ok (false, Scenario.custom (Scenario.custom_rx_desc 0 0) 0).
Proof.
  split.
  - destruct (send_packet_free Scenario.broadcom_idle (Scenario.frame 9217).1 9217)
      as (s' & Hsend & _ & _ & Htail & _ & _ & Hsent & Hdma).
    { unfold Ring.tx_wf. vm_compute. repeat split; congruence. }
    { vm_compute. congruence. }
    { cbn [fst Scenario.frame]. rewrite length_replicate. lia. }
    exists s'. split; [exact Hsend |].
    split; [reflexivity |]. split; [reflexivity |].
    split; [rewrite Htail; reflexivity |]. split; [rewrite Hsent; reflexivity |].
    split; [reflexivity |].
    rewrite Hdma. cbn [fst Scenario.frame].
    rewrite take_replicate, Nat.min_id.
    change (Broadcom.tx_buffers_ Scenario.broadcom_idle
            + wrap32 (Broadcom.tx_tail_ Scenario.broadcom_idle
                      * Broadcom.MAX_PACKET_SIZE))
      with 0x20000000.
    change (0x20000000 + 1 * Broadcom.MAX_PACKET_SIZE)
      with (0x20000000 + Z.of_nat (Z.to_nat 9216)).
    rewrite store_bytes_inside by (rewrite length_replicate; lia).
    apply lookup_replicate_2. lia.
  - apply custom_submit_oversize. reflexivity.
Qed.

(** ** Statistics counters *)

Lemma reclaim_loop_counters (fuel : nat) :
  forall s s' : Broadcom.BroadcomNetXtreme,
    Broadcom.reclaim_loop fuel s = Ok s' ->
    Broadcom.packets_received_ s' = Broadcom.packets_received_ s
    /\ Broadcom.packets_sent_ s' = Broadcom.packets_sent_ s.
Proof.
  induction fuel as [| fuel IH]; intros s s'; cbn [Broadcom.reclaim_loop].
  - destruct (_ =? _); [| discriminate]. now intros [= <-].
  - destruct (_ =? _); [now intros [= <-] |].
    destruct (at_index _ _) as [d | f]; [rewrite bind_Ok | discriminate].
    destruct (_ =? _); [now intros [= <-] |].
    intros H. apply IH in H. exact H.
Qed.

Lemma send_packet_fill_counters (s s' : Broadcom.BroadcomNetXtreme) (nt : Z)
    (data : list Byte.byte) (len : Z) (b : bool) :
  Broadcom.send_packet_fill nt data len s = Ok (b, s') ->
  Broadcom.packets_received_ s' = Broadcom.packets_received_ s
  /\ Broadcom.packets_sent_ s' = wrap64 (Broadcom.packets_sent_ s + 1).
Proof.
  unfold Broadcom.send_packet_fill.
  destruct (memcpy _ _ _ _) as [m | f]; [rewrite bind_Ok | discriminate].
  destruct (at_index _ _) as [d | f]; [rewrite bind_Ok | discriminate].
  now intros [= _ <-].
Qed.

Lemma broadcom_step_counters (c : Runs.broadcom_call)
    (s s' : Broadcom.BroadcomNetXtreme) :
  Runs.broadcom_step c s = Ok s' ->
  (Broadcom.packets_received_ s' = Broadcom.packets_received_ s
   \/ Broadcom.packets_received_ s' = wrap64 (Broadcom.packets_received_ s + 1))
  /\
  (Broadcom.packets_sent_ s' = Broadcom.packets_sent_ s
   \/ Broadcom.packets_sent_ s' = wrap64 (Broadcom.packets_sent_ s + 1)).
Proof.
  destruct c as [| data len | | |]; cbn [Runs.broadcom_step].
  - unfold Broadcom.receive_packet.
    destruct (at_index _ _) as [d | f]; [rewrite !bind_Ok | discriminate].
    destruct (_ =? _); rewrite bind_Ok; intros [= <-]; cbn; auto.
  - unfold Broadcom.send_packet.
    destruct (_ =? _).
    + unfold Broadcom.reclaim_tx_descriptors.
      destruct (Broadcom.reclaim_loop _ s) as [s1 | f] eqn:Hrec;
        [rewrite bind_Ok | discriminate].
      destruct (reclaim_loop_counters _ _ _ Hrec) as [Hr Hs].
      destruct (_ =? _).
      * rewrite bind_Ok. intros [= <-]. cbn. rewrite Hr, Hs. auto.
      * destruct (Broadcom.send_packet_fill _ _ _ s1) as [[b s2] | f] eqn:Hfill;
          [rewrite bind_Ok | discriminate].
        intros [= <-]. cbn.
        destruct (send_packet_fill_counters _ _ _ _ _ _ Hfill) as [Hr2 Hs2].
        rewrite Hr2, Hs2, Hr, Hs. auto.
    + destruct (Broadcom.send_packet_fill _ _ _ s) as [[b s2] | f] eqn:Hfill;
        [rewrite bind_Ok | discriminate].
      intros [= <-]. cbn.
      destruct (send_packet_fill_counters _ _ _ _ _ _ Hfill) as [Hr2 Hs2].
      rewrite Hr2, Hs2. auto.
  - unfold Broadcom.reclaim_tx_descriptors. intros H.
    apply reclaim_loop_counters in H as [-> ->]. auto.
  - intros [= <-]. auto.
  - intros [= <-]. auto.
Qed.

Lemma broadcom_run_counters (cs : list Runs.broadcom_call) :
  forall s s' : Broadcom.BroadcomNetXtreme,
    Runs.broadcom_run cs s = Ok s' ->
    0 <= Broadcom.packets_received_ s ->
    0 <= Broadcom.packets_sent_ s ->
    Broadcom.packets_received_ s + Z.of_nat (length cs) < 2 ^ 64 ->
    Broadcom.packets_sent_ s + Z.of_nat (length cs) < 2 ^ 64 ->
    Broadcom.packets_received_ s <= Broadcom.packets_received_ s'
      <= Broadcom.packets_received_ s + Z.of_nat (length cs)
    /\ Broadcom.packets_sent_ s <= Broadcom.packets_sent_ s'
      <= Broadcom.packets_sent_ s + Z.of_nat (length cs).
Proof.
  induction cs as [| c rest IH]; intros s s' Hrun Hr0 Hs0 Hr Hs.
  - cbn in Hrun. injection Hrun as <-. cbn [length]. lia.
  - cbn [Runs.broadcom_run] in Hrun. cbn [length] in *.
    destruct (Runs.broadcom_step c s) as [s1 | f] eqn:Hstep; [| discriminate].
    rewrite bind_Ok in Hrun.
    destruct (broadcom_step_counters _ _ _ Hstep) as [Hr1 Hs1].
    assert (wrap64 (Broadcom.packets_received_ s + 1)
            = Broadcom.packets_received_ s + 1) as Ewr
      by (apply wrap_small; lia).
    assert (wrap64 (Broadcom.packets_sent_ s + 1)
            = Broadcom.packets_sent_ s + 1) as Ews
      by (apply wrap_small; lia).
    rewrite Ewr in Hr1. rewrite Ews in Hs1.
    specialize (IH s1 s' Hrun). lia.
Qed.

(** C8 (as amended). The counters are 64-bit: every call leaves a counter
    as it is or adds one to it modulo 2^64, and no call stores any other
    value in it.  Across every sequence of receive, transmit, reclaim and
    read calls that completes, both counters are therefore non-decreasing
    as long as neither would pass 2^64 - 1.  Reading a counter returns the
    state unchanged, and [CustomNICDriver::get_stats] returns a fresh
    all-zero [PacketStats] whatever the driver state. *)
Theorem counters_monotone_until_wrap :
  (forall (cs : list Runs.broadcom_call) (s s' : Broadcom.BroadcomNetXtreme),
      Runs.broadcom_run cs s = Ok s' ->
      0 <= Broadcom.packets_received_ s ->
      0 <= Broadcom.packets_sent_ s ->
      Broadcom.packets_received_ s + Z.of_nat (length cs) < 2 ^ 64 ->
      Broadcom.packets_sent_ s + Z.of_nat (length cs) < 2 ^ 64 ->
      Broadcom.get_packets_received s <= Broadcom.get_packets_received s'
      /\ Broadcom.get_packets_sent s <= Broadcom.get_packets_sent s')
  /\
  (forall (c : Runs.broadcom_call) (s s' : Broadcom.BroadcomNetXtreme),
      Runs.broadcom_step c s = Ok s' ->
      (Broadcom.packets_received_ s' = Broadcom.packets_received_ s
       \/ Broadcom.packets_received_ s'
          = wrap64 (Broadcom.packets_received_ s + 1))
      /\
      (Broadcom.packets_sent_ s' = Broadcom.packets_sent_ s
       \/ Broadcom.packets_sent_ s' = wrap64 (Broadcom.packets_sent_ s + 1)))
  /\
  (forall s : Broadcom.BroadcomNetXtreme,
      Runs.broadcom_step Runs.GetPacketsReceived s = Ok s
      /\ Runs.broadcom_step Runs.GetPacketsSent s = Ok s)
  /\
  (forall s : Custom.CustomNICDriver, Custom.get_stats s = Custom.PacketStats_new).
Proof.
  repeat apply conj.
  - intros cs s s' Hrun Hr0 Hs0 Hr Hs.
    unfold Broadcom.get_packets_received, Broadcom.get_packets_sent.
    pose proof (broadcom_run_counters cs s s' Hrun Hr0 Hs0 Hr Hs). lia.
  - exact broadcom_step_counters.
  - intros s. split; reflexivity.
  - reflexivity.
Qed.

Lemma counters_monotone_until_wrap_witness :
  exists s',
    Runs.broadcom_run
      [Runs.Receive; Runs.Send (Scenario.frame 64).1 64; Runs.Reclaim;
       Runs.GetPacketsReceived]
      (Scenario.broadcom_rx 64 0) = Ok s'
    /\ Broadcom.get_packets_received (Scenario.broadcom_rx 64 0)
       <= Broadcom.get_packets_received s'
    /\ Broadcom.get_packets_sent (Scenario.broadcom_rx 64 0)
       <= Broadcom.get_packets_sent s'.
Proof.
  destruct (Runs.broadcom_run _ (Scenario.broadcom_rx 64 0)) as [s' | f] eqn:E;
    [| vm_compute in E; discriminate E].
  exists s'. split; [reflexivity |].
  apply (proj1 counters_monotone_until_wrap _ _ _ E); vm_compute; congruence.
Defined.

(** C8, the claim as worded fails at the top of the 64-bit range: a receive
    on a driver whose [packets_received_] is 2^64 - 1 leaves it at 0. *)
Lemma counters_wrap_counterexample :
  exists r s',
    Broadcom.receive_packet (Scenario.broadcom_rx 64 (2 ^ 64 - 1)) = Ok (Some r, s')
    /\ Broadcom.get_packets_received (Scenario.broadcom_rx 64 (2 ^ 64 - 1))
       = 2 ^ 64 - 1
    /\ Broadcom.get_packets_received s' = 0.
Proof. do 2 eexists. split; [reflexivity | split; reflexivity]. Qed.

(** ** SolarflareEFVI *)

Section Efvi.

Import Solarflare.

Lemma allocate_loop_scalars (ids : list nat) :
  forall s : SolarflareEFVI,
    let s' := foldl (fun s i => set_pkt_buf i 0 s) s ids in
    initialized_ s' = initialized_ s
    /\ rx_posted_ s' = rx_posted_ s
    /\ tx_posted_ s' = tx_posted_ s
    /\ mem_ s' = mem_ s
    /\ length (pkt_bufs (handle_ s')) = length (pkt_bufs (handle_ s)).
Proof.
  induction ids as [| i rest IH]; intros s; cbn [foldl].
  - repeat split.
  - destruct (IH (set_pkt_buf i 0 s)) as (Hi & Hr & Ht & Hm & Hl).
    cbn zeta in *. rewrite Hi, Hr, Ht, Hm, Hl. cbn.
    repeat split. apply length_insert.
Qed.

Lemma allocate_loop_nulls (n : nat) (s : SolarflareEFVI) (i : nat) :
  (i < n)%nat -> (i < length (pkt_bufs (handle_ s)))%nat ->
  pkt_bufs (handle_ (foldl (fun s i => set_pkt_buf i 0 s) s (seq 0 n))) !! i
  = Some 0.
Proof.
  induction n as [| n IH]; intros Hin Hlen; [lia |].
  rewrite seq_S, foldl_app. cbn [foldl Nat.add].
  destruct (allocate_loop_scalars (seq 0 n) s) as (_ & _ & _ & _ & Hl).
  cbn zeta in Hl.
  set (s1 := foldl (fun s i => set_pkt_buf i 0 s) s (seq 0 n)) in *.
  cbn [set_pkt_buf handle_ pkt_bufs].
  destruct (Nat.eq_dec i n) as [-> | Hne].
  - apply list_lookup_insert_eq. lia.
  - rewrite list_lookup_insert_ne by congruence. apply IH; lia.
Qed.

Lemma post_loop (ids : list nat) :
  forall s : SolarflareEFVI,
    0 <= rx_posted_ s ->
    rx_posted_ s + Z.of_nat (length ids) < 2 ^ 32 ->
    let s' := foldl (fun s i => post_rx_buffer (Z.of_nat i) s) s ids in
    rx_posted_ s' = rx_posted_ s + Z.of_nat (length ids)
    /\ initialized_ s' = initialized_ s
    /\ tx_posted_ s' = tx_posted_ s
    /\ handle_ s' = handle_ s
    /\ mem_ s' = mem_ s.
Proof.
  induction ids as [| i rest IH]; intros s H0 Hfit; cbn [foldl length] in *.
  - repeat split. lia.
  - destruct (IH (post_rx_buffer (Z.of_nat i) s)) as (Hr & Hi & Ht & Hh & Hm).
    + cbn. unfold wrap32. rewrite wrap_small; lia.
    + cbn. unfold wrap32. rewrite wrap_small; lia.
    + cbn zeta in *. rewrite Hr, Hi, Ht, Hh, Hm. cbn.
      unfold wrap32. rewrite wrap_small by lia. repeat split. lia.
Qed.

Lemma allocate_packet_buffers_spec (s : SolarflareEFVI) :
  initialized_ (allocate_packet_buffers s) = initialized_ s
  /\ rx_posted_ (allocate_packet_buffers s) = rx_posted_ s
  /\ tx_posted_ (allocate_packet_buffers s) = tx_posted_ s
  /\ (forall i : nat,
        (i < Z.to_nat EFVI_NUM_BUFS)%nat ->
        (i < length (pkt_bufs (handle_ s)))%nat ->
        pkt_bufs (handle_ (allocate_packet_buffers s)) !! i = Some 0).
Proof.
  unfold allocate_packet_buffers.
  destruct (allocate_loop_scalars (seq 0 (Z.to_nat EFVI_NUM_BUFS)) s)
    as (Hi & Hr & Ht & _ & _).
  repeat split; try assumption.
  intros i Hi1 Hi2. now apply allocate_loop_nulls.
Qed.

Lemma initialize_spec (interface : string) (h : efvi_handle) (m : memory) :
  let r := initialize interface (new h m) in
  r.1 = true
  /\ initialized_ r.2 = true
  /\ rx_posted_ r.2 = EFVI_RX_RING_SIZE
  /\ tx_posted_ r.2 = 0
  /\ (forall i : nat,
        (i < Z.to_nat EFVI_NUM_BUFS)%nat -> (i < length (pkt_bufs h))%nat ->
        pkt_bufs (handle_ r.2) !! i = Some 0).
Proof.
  unfold initialize. cbn [fst snd new handle_ mem_ rx_posted_ tx_posted_].
  set (s1 := {| handle_ := h; mem_ := m; initialized_ := true;
                rx_posted_ := 0; tx_posted_ := 0 |}).
  destruct (allocate_packet_buffers_spec s1) as (Hi & Hr & Ht & Hnull).
  destruct (post_loop (seq 0 (Z.to_nat EFVI_RX_RING_SIZE))
              (allocate_packet_buffers s1))
    as (Hr' & Hi' & Ht' & Hh' & _).
  { rewrite Hr. subst s1. cbn [rx_posted_]. lia. }
  { rewrite Hr, length_seq. subst s1. cbn [rx_posted_].
    unfold EFVI_RX_RING_SIZE. lia. }
  cbn zeta in *. rewrite Hr', Hi', Ht', Hh', Hi, Hr, Ht, length_seq.
  split; [reflexivity |]. split; [reflexivity |].
  split; [subst s1; cbn [rx_posted_]; unfold EFVI_RX_RING_SIZE; lia |].
  split; [reflexivity |].
  exact Hnull.
Qed.

Lemma poll_rx_posted (pkt : efvi_packet) (now : Z) (s : SolarflareEFVI) :
  initialized_ s = true -> 0 < rx_posted_ s < 2 ^ 32 ->
  poll_rx pkt now s
  = (true, {| data := data pkt; len := 64; timestamp_ns := now |}, s).
Proof.
  intros Hi Hr. unfold poll_rx. rewrite Hi. cbn [negb].
  destruct (Z.ltb_spec 0 (rx_posted_ s)); [| lia].
  unfold post_rx_buffer. cbn [handle_ mem_ initialized_ rx_posted_ tx_posted_].
  unfold wrap32. rewrite (wrap_small 32 (rx_posted_ s - 1)) by lia.
  rewrite wrap_small by lia.
  replace (rx_posted_ s - 1 + 1) with (rx_posted_ s) by lia.
  destruct s. cbn [initialized_] in Hi. now subst.
Qed.

Lemma efvi_step_keeps_rx (c : Runs.efvi_call) (s s' : SolarflareEFVI) :
  Runs.efvi_step c s = Ok s' ->
  initialized_ s = true -> 0 < rx_posted_ s < 2 ^ 32 ->
  initialized_ s' = true /\ rx_posted_ s' = rx_posted_ s.
Proof.
  intros Hstep Hi Hr. destruct c as [pkt now | d l |]; cbn [Runs.efvi_step] in Hstep.
  - rewrite (poll_rx_posted pkt now s Hi Hr) in Hstep.
    injection Hstep as <-. auto.
  - unfold submit_tx in Hstep. rewrite Hi in Hstep. cbn [negb] in Hstep.
    destruct (_ <? _); [rewrite bind_Ok in Hstep; injection Hstep as <-; auto |].
    destruct (_ <? _); [| rewrite bind_Ok in Hstep; injection Hstep as <-; auto].
    destruct (at_index _ _) as [buf | f]; [rewrite !bind_Ok in Hstep | discriminate].
    destruct (memcpy _ _ _ _) as [m' | f]; [rewrite !bind_Ok in Hstep | discriminate].
    injection Hstep as <-. auto.
  - injection Hstep as <-. unfold poll_tx_completions.
    destruct (_ <? _); auto.
Qed.

Lemma efvi_run_keeps_rx (cs : list Runs.efvi_call) :
  forall s s' : SolarflareEFVI,
    Runs.efvi_run cs s = Ok s' ->
    initialized_ s = true -> 0 < rx_posted_ s < 2 ^ 32 ->
    initialized_ s' = true /\ rx_posted_ s' = rx_posted_ s.
Proof.
  induction cs as [| c rest IH]; intros s s' Hrun Hi Hr.
  - injection Hrun as <-. auto.
  - cbn [Runs.efvi_run] in Hrun.
    destruct (Runs.efvi_step c s) as [s1 | f] eqn:Hstep; [| discriminate].
    rewrite bind_Ok in Hrun.
    destruct (efvi_step_keeps_rx _ _ _ Hstep Hi Hr) as [Hi1 Hr1].
    destruct (IH s1 s' Hrun Hi1) as [Hi' Hr']; [lia |].
    split; [assumption | congruence].
Qed.

Lemma submit_tx_after_initialize (interface : string) (h : efvi_handle)
    (m : memory) (data : list Byte.byte) (len : Z) :
  length (pkt_bufs h) = Z.to_nat EFVI_NUM_BUFS ->
  len <> 0 ->
  len <= EFVI_PKT_BUF_SIZE ->
  submit_tx data len (initialize interface (new h m)).2 = Fault NullPointer.
Proof.
  intros Hsize Hpos Hlen.
  destruct (initialize_spec interface h m) as (_ & Hi & _ & Ht & Hnull).
  cbn zeta in *.
  specialize (Hnull 0%nat ltac:(vm_compute; lia)
                ltac:(rewrite Hsize; vm_compute; lia)).
  unfold submit_tx. rewrite Hi, Ht. cbn [negb].
  destruct (Z.ltb_spec EFVI_PKT_BUF_SIZE len); [lia |].
  change (0 <? EFVI_TX_RING_SIZE) with true. cbn match.
  rewrite (at_index_Ok _ 0 _ Hnull), bind_Ok.
  rewrite (memcpy_null _ _ _ Hpos). reflexivity.
Qed.

End Efvi.

(** C10. After [initialize], every entry of [pkt_bufs] is [nullptr]
    ([allocate_packet_buffers] stores nothing else), so the first
    [submit_tx] of a 64-byte frame passes all three guards and then copies
    through a null pointer instead of returning. *)
Theorem efvi_submit_copies_through_null :
  Solarflare.initialized_ Scenario.efvi_ready = true
  /\ Solarflare.tx_posted_ Scenario.efvi_ready = 0
  /\ Solarflare.pkt_bufs (Solarflare.handle_ Scenario.efvi_ready) !! 0%nat = Some 0
  /\ Solarflare.submit_tx (Scenario.frame 64).1 64 Scenario.efvi_ready
     = Fault NullPointer.
Proof.
  destruct (initialize_spec "eth0" Scenario.stale_handle ∅)
    as (_ & Hi & _ & Ht & Hnull).
  cbn zeta in *.
  specialize (Hnull 0%nat ltac:(vm_compute; lia) ltac:(vm_compute; lia)).
  split; [exact Hi | split; [exact Ht | split; [exact Hnull |]]].
  apply submit_tx_after_initialize;
    [reflexivity | discriminate | vm_compute; congruence].
Qed.

(** * Further properties of the drivers *)

(** ** Bit-level helpers *)

Lemma wrap_range (w x : Z) : 0 <= w -> 0 <= wrap w x < 2 ^ w.
Proof. intros Hw. unfold wrap. apply Z.mod_pos_bound. lia. Qed.

Lemma land_low_bits (x n : Z) : 0 <= n -> Z.land x (2 ^ n - 1) = x mod 2 ^ n.
Proof.
  intros Hn. replace (2 ^ n - 1) with (Z.ones n) by (rewrite Z.ones_equiv; lia).
  now apply Z.land_ones.
Qed.

Lemma lor_shiftl_add (hi lo n : Z) :
  0 <= n -> 0 <= lo < 2 ^ n -> Z.lor (Z.shiftl hi n) lo = hi * 2 ^ n + lo.
Proof.
  intros Hn Hlo.
  assert (Z.land (Z.shiftl hi n) lo = 0) as Hdisj.
  { apply Z.bits_inj'. intros i Hi.
    rewrite Z.land_spec, Z.bits_0.
    destruct (Z.lt_ge_cases i n) as [Hlt | Hge].
    - now rewrite Z.shiftl_spec_low.
    - rewrite <- (Z.mod_small lo (2 ^ n)) by lia.
      rewrite Z.mod_pow2_bits_high by lia. apply andb_false_r. }
  rewrite <- Z.lxor_lor by exact Hdisj.
  rewrite <- Z.add_nocarry_lxor by exact Hdisj.
  now rewrite Z.shiftl_mul_pow2 by lia.
Qed.

(** ** Register readers of BroadcomNetXtreme *)

(** X1. The six bytes [get_mac_address] stores are each below 256; the
    first four are the little-endian bytes of the whole low MAC register and
    the last two those of the low half of the high MAC register. *)
Theorem mac_address_is_little_endian_split (s : Broadcom.BroadcomNetXtreme) :
  exists b0 b1 b2 b3 b4 b5,
    BroadcomRegs.get_mac_address s = [b0; b1; b2; b3; b4; b5]
    /\ Forall (fun b => 0 <= b < 256) [b0; b1; b2; b3; b4; b5]
    /\ BroadcomRegs.read_reg BroadcomRegs.REG_MAC_ADDR_LOW s
       = b0 + 2 ^ 8 * b1 + 2 ^ 16 * b2 + 2 ^ 24 * b3
    /\ BroadcomRegs.read_reg BroadcomRegs.REG_MAC_ADDR_HIGH s mod 2 ^ 16
       = b4 + 2 ^ 8 * b5.
Proof.
  unfold BroadcomRegs.get_mac_address.
  set (low := BroadcomRegs.read_reg BroadcomRegs.REG_MAC_ADDR_LOW s).
  set (high := BroadcomRegs.read_reg BroadcomRegs.REG_MAC_ADDR_HIGH s).
  assert (0 <= low < 2 ^ 32) as Hlow by (apply wrap_range; lia).
  assert (0 <= high < 2 ^ 32) as Hhigh by (apply wrap_range; lia).
  do 6 eexists. split; [reflexivity |].
  change 0xFF with (2 ^ 8 - 1).
  rewrite !land_low_bits, !Z.shiftr_div_pow2 by lia.
  change (2 ^ 0) with 1. change (2 ^ 8) with 256. change (2 ^ 16) with 65536.
  change (2 ^ 24) with 16777216. change (2 ^ 32) with 4294967296 in *.
  rewrite !Z.div_1_r.
  split; [| split].
  - repeat constructor; try (apply Z.mod_pos_bound; lia).
    all: apply Z.mod_pos_bound; lia.
  - Z.div_mod_to_equations. lia.
  - Z.div_mod_to_equations. lia.
Qed.

(** X2. [get_hardware_timestamp] returns [hi * 2^32 + lo] for the two PTP
    registers: a 64-bit value whose upper and lower halves are exactly the
    two registers. *)
Theorem hardware_timestamp_combines_halves (s : Broadcom.BroadcomNetXtreme) :
  let lo := BroadcomRegs.read_reg BroadcomRegs.REG_PTP_TIME_LO s in
  let hi := BroadcomRegs.read_reg BroadcomRegs.REG_PTP_TIME_HI s in
  let t := BroadcomRegs.get_hardware_timestamp s in
  t = hi * 2 ^ 32 + lo
  /\ 0 <= t < 2 ^ 64
  /\ t / 2 ^ 32 = hi
  /\ t mod 2 ^ 32 = lo.
Proof.
  cbn zeta. unfold BroadcomRegs.get_hardware_timestamp.
  set (lo := BroadcomRegs.read_reg BroadcomRegs.REG_PTP_TIME_LO s).
  set (hi := BroadcomRegs.read_reg BroadcomRegs.REG_PTP_TIME_HI s).
  assert (0 <= lo < 2 ^ 32) as Hlo by (apply wrap_range; lia).
  assert (0 <= hi < 2 ^ 32) as Hhi by (apply wrap_range; lia).
  unfold wrap64.
  rewrite (wrap_small 64 (Z.shiftl hi 32))
    by (rewrite Z.shiftl_mul_pow2 by lia;
        change (2 ^ 64) with (2 ^ 32 * 2 ^ 32); nia).
  rewrite lor_shiftl_add by lia.
  change (2 ^ 64) with 18446744073709551616.
  change (2 ^ 32) with 4294967296 in *.
  split; [reflexivity |]. split; [lia |].
  split; Z.div_mod_to_equations; lia.
Qed.

(** ** Runs of register writes *)

Lemma reg_loop_miss (off val : nat -> Z) (n : nat) (r : regfile) (o : Z) :
  (forall i, (i < n)%nat -> off i <> o) ->
  foldl (fun r i => reg_write r (off i) (val i)) r (seq 0 n) !! o = r !! o.
Proof.
  induction n as [| n IH]; intros Hmiss; [reflexivity |].
  rewrite seq_S, foldl_app. cbn [foldl Nat.add]. unfold reg_write at 1.
  rewrite lookup_insert_ne by (apply Hmiss; lia).
  apply IH. intros i Hi. apply Hmiss. lia.
Qed.

Lemma reg_loop_hit (off val : nat -> Z) (n : nat) (r : regfile) (j : nat) :
  (j < n)%nat ->
  (forall i, (i < n)%nat -> off i = off j -> i = j) ->
  foldl (fun r i => reg_write r (off i) (val i)) r (seq 0 n) !! off j
  = Some (wrap32 (val j)).
Proof.
  induction n as [| n IH]; intros Hj Hinj; [lia |].
  rewrite seq_S, foldl_app. cbn [foldl Nat.add]. unfold reg_write at 1.
  destruct (Nat.eq_dec j n) as [-> | Hne].
  - apply lookup_insert_eq.
  - rewrite lookup_insert_ne by (intros E; apply Hinj in E; lia).
    apply IH; [lia |]. intros i Hi. apply Hinj. lia.
Qed.

Lemma write_loop_state (off val : nat -> Z) (ids : list nat) :
  forall s : Broadcom.BroadcomNetXtreme,
    foldl (fun s i => BroadcomRegs.write_reg (off i) (val i) s) s ids
    = BroadcomRegs.set_bar0
        (foldl (fun r i => reg_write r (off i) (val i)) (Broadcom.bar0_ s) ids) s.
Proof.
  induction ids as [| i rest IH]; intros s; cbn [foldl].
  - now destruct s.
  - rewrite IH. reflexivity.
Qed.

(** X3. [configure_rss(n)] with [n] between 1 and 255 fills the 128-entry
    redirection table round-robin, entry [i] holding [i mod n] and hence a
    queue number below [n]; it stores the fixed key [0x6b + i * 0x1f3d] in
    the ten key registers and touches no other register and no other part
    of the driver.  With [n = 0] the modulus has no value and the call does
    not produce a result. *)
Theorem configure_rss_round_robin :
  (forall (n : Z) (s : Broadcom.BroadcomNetXtreme),
      1 <= n < 256 ->
      exists s',
        BroadcomRegs.configure_rss n s = Some s'
        /\ s' = BroadcomRegs.set_bar0 (Broadcom.bar0_ s') s
        /\ (forall i, 0 <= i < 128 ->
              BroadcomRegs.read_reg (BroadcomRegs.REG_RSS_TABLE_BASE + i * 4) s'
              = i mod n
              /\ i mod n < n)
        /\ (forall i, 0 <= i < 10 ->
              BroadcomRegs.read_reg (BroadcomRegs.REG_RSS_KEY_BASE + i * 4) s'
              = 0x6b + i * 0x1f3d)
        /\ (forall o,
              (forall i, 0 <= i < 128 ->
                 o <> BroadcomRegs.REG_RSS_TABLE_BASE + i * 4) ->
              (forall i, 0 <= i < 10 ->
                 o <> BroadcomRegs.REG_RSS_KEY_BASE + i * 4) ->
              Broadcom.bar0_ s' !! o = Broadcom.bar0_ s !! o))
  /\
  (forall s : Broadcom.BroadcomNetXtreme, BroadcomRegs.configure_rss 0 s = None).
Proof.
  split; [| reflexivity].
  intros n s Hn. unfold BroadcomRegs.configure_rss, BroadcomRegs.write_rss_key.
  destruct (Z.eqb_spec n 0); [lia |].
  eexists. split; [reflexivity |].
  set (koff := fun i : nat => BroadcomRegs.REG_RSS_KEY_BASE + Z.of_nat i * 4).
  set (kval := fun i : nat => BroadcomRegs.rss_key (Z.of_nat i)).
  set (toff := fun i : nat => BroadcomRegs.REG_RSS_TABLE_BASE + Z.of_nat i * 4).
  set (tval := fun i : nat => Z.land (Z.rem (Z.of_nat i) n) 0xFF).
  change (foldl _ s (seq 0 10))
    with (foldl (fun s i => BroadcomRegs.write_reg (koff i) (kval i) s) s (seq 0 10)).
  change (foldl _ ?a (seq 0 128))
    with (foldl (fun s i => BroadcomRegs.write_reg (toff i) (tval i) s) a (seq 0 128)).
  rewrite !write_loop_state. cbn [Broadcom.bar0_ BroadcomRegs.set_bar0].
  set (keys := foldl (fun r i => reg_write r (koff i) (kval i))
                     (Broadcom.bar0_ s) (seq 0 10)).
  split; [reflexivity |].
  unfold BroadcomRegs.read_reg, reg_read. cbn [Broadcom.bar0_ BroadcomRegs.set_bar0].
  assert (forall i j : nat, toff i = toff j -> i = j) as Htinj
    by (unfold toff; intros; lia).
  assert (forall i j : nat, koff i = koff j -> i = j) as Hkinj
    by (unfold koff; intros; lia).
  split; [| split].
  - intros i Hi.
    pose proof (Z.mod_pos_bound i n ltac:(lia)) as Hmod.
    split; [| lia].
    replace (BroadcomRegs.REG_RSS_TABLE_BASE + i * 4) with (toff (Z.to_nat i))
      by (unfold toff; lia).
    rewrite reg_loop_hit by (try lia; intros; now apply Htinj).
    cbn [default]. unfold id, tval. rewrite Z2Nat.id by lia.
    rewrite Z.rem_mod_nonneg by lia.
    change 0xFF with (2 ^ 8 - 1). rewrite land_low_bits by lia.
    assert (i mod n < 128)
      by (pose proof (Z.mod_le i n ltac:(lia) ltac:(lia)); lia).
    rewrite (Z.mod_small (i mod n)) by (change (2 ^ 8) with 256; lia).
    unfold wrap32.
    now rewrite !(wrap_small 32 (i mod n))
      by (change (2 ^ 32) with 4294967296; lia).
  - intros i Hi.
    replace (BroadcomRegs.REG_RSS_KEY_BASE + i * 4) with (koff (Z.to_nat i))
      by (unfold koff; lia).
    rewrite reg_loop_miss.
    2:{ intros j Hj. unfold toff, koff.
        unfold BroadcomRegs.REG_RSS_TABLE_BASE, BroadcomRegs.REG_RSS_KEY_BASE. lia. }
    unfold keys. rewrite reg_loop_hit by (try lia; intros; now apply Hkinj).
    cbn [default]. unfold id, kval, BroadcomRegs.rss_key. rewrite Z2Nat.id by lia.
    unfold wrap32.
    now rewrite !(wrap_small 32 (0x6b + i * 0x1f3d))
      by (change (2 ^ 32) with 4294967296; lia).
  - intros o Htable Hkey.
    rewrite reg_loop_miss.
    2:{ intros j Hj. unfold toff. intros E. apply (Htable (Z.of_nat j)); lia. }
    unfold keys. apply reg_loop_miss.
    intros j Hj. unfold koff. intros E. apply (Hkey (Z.of_nat j)); lia.
Qed.

Lemma configure_rss_round_robin_witness :
  exists s',
    BroadcomRegs.configure_rss 4 Scenario.broadcom_idle = Some s'
    /\ BroadcomRegs.read_reg (BroadcomRegs.REG_RSS_TABLE_BASE + 6 * 4) s' = 2.
Proof.
  destruct (proj1 configure_rss_round_robin 4 Scenario.broadcom_idle ltac:(lia))
    as (s' & Hrun & _ & Htable & _).
  exists s'. split; [exact Hrun |].
  exact (proj1 (Htable 6 ltac:(lia))).
Defined.

(** ** RX ring of BroadcomNetXtreme: delivery order *)

Section BroadcomRx.

Import Broadcom RxRing.

Lemma rx_slot_exists (s : BroadcomNetXtreme) (i : Z) :
  rx_wf s -> 0 <= i < RX_RING_SIZE ->
  exists d, rx_ring_ s !! Z.to_nat i = Some d.
Proof.
  intros (Hlen & _) Hi. apply lookup_lt_is_Some_2. rewrite Hlen. lia.
Qed.

Lemma receive_step_done (s : BroadcomNetXtreme) :
  rx_wf s -> rx_done (rx_ring_ s) (rx_head_ s) = true ->
  exists s',
    receive_packet s = Ok (rx_slot s (rx_head_ s), s')
    /\ rx_wf s'
    /\ rx_head_ s' = (rx_head_ s + 1) mod RX_RING_SIZE
    /\ rx_buffers_ s' = rx_buffers_ s
    /\ rx_done (rx_ring_ s') (rx_head_ s) = false
    /\ (forall i, 0 <= i -> i <> rx_head_ s ->
          rx_ring_ s' !! Z.to_nat i = rx_ring_ s !! Z.to_nat i)
    /\ (forall i, rx_slot s' i = rx_slot s i).
Proof.
  intros Hwf Hdd. pose proof Hwf as (Hlen & Hh).
  destruct (rx_slot_exists s (rx_head_ s) Hwf Hh) as [d Hd].
  unfold rx_done in Hdd. rewrite Hd in Hdd.
  rewrite (broadcom_receive_dd s d Hd Hdd Hh).
  eexists. split; [unfold rx_slot; rewrite Hd; reflexivity |].
  assert (Z.to_nat (rx_head_ s) < length (rx_ring_ s))%nat as Hin
    by (rewrite Hlen; unfold RX_RING_SIZE in *; lia).
  unfold rx_wf, rx_done, rx_slot.
  cbn [rx_ring_ rx_head_ rx_buffers_].
  rewrite length_insert, list_lookup_insert_eq by exact Hin.
  repeat split; try assumption; try reflexivity.
  - apply Z.mod_pos_bound. unfold RX_RING_SIZE. lia.
  - apply Z.mod_pos_bound. unfold RX_RING_SIZE. lia.
  - intros i Hi Hne. apply list_lookup_insert_ne. lia.
  - intros i. destruct (Nat.eq_dec (Z.to_nat (rx_head_ s)) (Z.to_nat i)) as [E | E].
    + rewrite <- E, list_lookup_insert_eq, Hd by exact Hin. reflexivity.
    + now rewrite list_lookup_insert_ne by exact E.
Qed.

Lemma receive_all_S (n : nat) (s s1 : BroadcomNetXtreme) (r : option (Z * Z)) :
  receive_packet s = Ok (r, s1) ->
  receive_all (S n) s = (r' ← receive_all n s1; Ok (r :: r'.1, r'.2)).
Proof. intros H. cbn [receive_all]. now rewrite H, bind_Ok. Qed.

(** X4. When hardware has completed the [k] RX descriptors that follow the
    head cursor and not the one after them, [k + 1] consecutive
    [receive_packet] calls hand out exactly those [k] slots, each once, in
    ring order and each with its own buffer and length, and the last call
    reports "no packet"; head has then moved by [k]. *)
Theorem receive_all_fifo (k : nat) :
  forall s : BroadcomNetXtreme,
    rx_wf s ->
    Z.of_nat k <= RX_RING_SIZE ->
    (forall i, 0 <= i < Z.of_nat k ->
       rx_done (rx_ring_ s) ((rx_head_ s + i) mod RX_RING_SIZE) = true) ->
    (Z.of_nat k < RX_RING_SIZE ->
       rx_done (rx_ring_ s) ((rx_head_ s + Z.of_nat k) mod RX_RING_SIZE) = false) ->
    exists s',
      receive_all (S k) s
      = Ok (((fun i => rx_slot s ((rx_head_ s + Z.of_nat i) mod RX_RING_SIZE))
               <$> seq 0 k) ++ [None], s')
      /\ rx_head_ s' = (rx_head_ s + Z.of_nat k) mod RX_RING_SIZE.
Proof.
  induction k as [| k IH]; intros s Hwf Hk Hset Hnext.
  - pose proof Hwf as (_ & Hh).
    destruct (rx_slot_exists s (rx_head_ s) Hwf Hh) as [d Hd].
    specialize (Hnext ltac:(unfold RX_RING_SIZE; lia)).
    rewrite Z.add_0_r, Z.mod_small in Hnext by lia.
    unfold rx_done in Hnext. rewrite Hd in Hnext.
    exists s.
    rewrite (receive_all_S _ _ _ _ (broadcom_receive_no_dd s d Hd Hnext)).
    cbn [receive_all]. rewrite bind_Ok.
    cbn [fst snd fmap list_fmap seq app]. rewrite Z.add_0_r, Z.mod_small by lia.
    split; reflexivity.
  - pose proof Hwf as (_ & Hh).
    destruct (receive_step_done s Hwf)
      as (s1 & Hrecv & Hwf1 & Hh1 & Hb1 & Hdone1 & Hother1 & Hslot1).
    { specialize (Hset 0 ltac:(lia)).
      now rewrite Z.add_0_r, Z.mod_small in Hset by lia. }
    assert (forall i, (rx_head_ s1 + i) mod RX_RING_SIZE
                      = (rx_head_ s + (i + 1)) mod RX_RING_SIZE) as Hshift.
    { intros i. rewrite Hh1, Zplus_mod_idemp_l. f_equal. lia. }
    assert (forall i, 0 <= i -> i + 1 < RX_RING_SIZE ->
              rx_done (rx_ring_ s1) ((rx_head_ s + (i + 1)) mod RX_RING_SIZE)
              = rx_done (rx_ring_ s) ((rx_head_ s + (i + 1)) mod RX_RING_SIZE))
      as Hkeep.
    { intros i Hi Hi'. unfold rx_done. rewrite Hother1; [reflexivity | |].
      - apply Z.mod_pos_bound. unfold RX_RING_SIZE. lia.
      - revert Hh Hi Hi'. unfold RX_RING_SIZE. Z.div_mod_to_equations. lia. }
    destruct (IH s1 Hwf1) as (s' & Hrun & Hh').
    { lia. }
    { intros i Hi. rewrite Hshift, Hkeep by lia. apply Hset. lia. }
    { intros _. rewrite Hshift.
      destruct (Z.eq_dec (Z.of_nat (S k)) RX_RING_SIZE) as [Hall | Hsome].
      - replace ((rx_head_ s + (Z.of_nat k + 1)) mod RX_RING_SIZE)
          with (rx_head_ s); [exact Hdone1 |].
        revert Hh Hall. unfold RX_RING_SIZE. Z.div_mod_to_equations. lia.
      - rewrite Hkeep by lia.
        replace (Z.of_nat k + 1) with (Z.of_nat (S k)) by lia.
        apply Hnext. lia. }
    exists s'. rewrite (receive_all_S _ _ _ _ Hrecv), Hrun, bind_Ok.
    cbn [fst snd]. split.
    + f_equal. f_equal. cbn [seq fmap list_fmap app].
      rewrite Z.add_0_r, (Z.mod_small (rx_head_ s)) by lia. f_equal. f_equal.
      rewrite <- seq_shift, <- list_fmap_compose.
      apply list_fmap_ext. intros _ i _. cbn. rewrite Hslot1, Hshift.
      do 2 f_equal. lia.
    + rewrite Hh', Hshift. f_equal. lia.
Qed.

End BroadcomRx.

Lemma receive_all_fifo_witness :
  exists s',
    RxRing.receive_all 3 Samples.broadcom_two_rx
    = Ok ([Some (0x10000000, 60); Some (0x10000000 + 9216, 61); None], s')
    /\ Broadcom.rx_head_ s' = 2.
Proof.
  apply (receive_all_fifo 2 Samples.broadcom_two_rx).
  - split; [reflexivity | vm_compute; split; congruence].
  - vm_compute. congruence.
  - intros i Hi. assert (i = 0 \/ i = 1) as [-> | ->] by lia; reflexivity.
  - reflexivity.
Defined.

(** ** Whole-driver invariant of BroadcomNetXtreme *)

Section BroadcomInvariant.

Import Broadcom RxRing Ring.

Lemma send_packet_fill_rx (s s' : BroadcomNetXtreme) (nt : Z)
    (data : list Byte.byte) (len : Z) (b : bool) :
  send_packet_fill nt data len s = Ok (b, s') ->
  rx_ring_ s' = rx_ring_ s /\ rx_head_ s' = rx_head_ s
  /\ rx_buffers_ s' = rx_buffers_ s.
Proof.
  unfold send_packet_fill.
  destruct (memcpy _ _ _ _) as [m | f]; [rewrite bind_Ok | discriminate].
  destruct (at_index _ _) as [d | f]; [rewrite bind_Ok | discriminate].
  now intros [= _ <-].
Qed.

Lemma receive_keeps_wf (s : BroadcomNetXtreme) :
  wf s -> exists r s', receive_packet s = Ok (r, s') /\ wf s'.
Proof.
  intros [Hrx Htx]. pose proof Hrx as (_ & Hh).
  destruct (rx_slot_exists s (rx_head_ s) Hrx Hh) as [d Hd].
  destruct (Z.testbit (rx_status d) 0) eqn:Hdd.
  - rewrite (broadcom_receive_dd s d Hd Hdd Hh). do 2 eexists.
    split; [reflexivity |]. split.
    + destruct Hrx as (Hlen & _). unfold rx_wf. cbn [rx_ring_ rx_head_].
      rewrite length_insert. split; [exact Hlen |].
      apply Z.mod_pos_bound. unfold RX_RING_SIZE. lia.
    + exact Htx.
  - rewrite (broadcom_receive_no_dd s d Hd Hdd). do 2 eexists.
    split; [reflexivity |]. now split.
Qed.

Lemma reclaim_keeps_wf (s : BroadcomNetXtreme) :
  wf s -> exists s', reclaim_tx_descriptors s = Ok s' /\ wf s'.
Proof.
  intros [Hrx Htx].
  destruct (reclaim_terminates s Htx) as (j & _ & Hrun & _).
  eexists. split; [exact Hrun |]. split; [exact Hrx |].
  apply tx_wf_set_head; [exact Htx |].
  apply Z.mod_pos_bound. unfold TX_RING_SIZE. lia.
Qed.

Lemma send_keeps_wf (s : BroadcomNetXtreme) (data : list Byte.byte) (len : Z) :
  wf s -> 0 <= len <= Z.of_nat (length data) ->
  exists b s', send_packet data len s = Ok (b, s') /\ wf s'.
Proof.
  intros [Hrx Htx] Hlen.
  destruct (Z.eq_dec ((tx_tail_ s + 1) mod TX_RING_SIZE) (tx_head_ s))
    as [Hfull | Hroom].
  - destruct (broadcom_full_ring_submit s data len Htx Hfull) as (s1 & Hrec & Hsend).
    destruct (reclaim_keeps_wf s (conj Hrx Htx)) as (s1' & Hrec' & Hrx1 & Htx1).
    assert (s1' = s1) as -> by congruence.
    rewrite Hsend. destruct (_ =? _).
    + do 2 eexists. split; [reflexivity |]. now split.
    + destruct (send_packet_fill_ok s1 ((tx_tail_ s + 1) mod TX_RING_SIZE)
                  data len Htx1 Hlen)
        as (s2 & Hfill & Hh & Ht & Hb & Hl & _).
      destruct (send_packet_fill_rx _ _ _ _ _ _ Hfill) as (Hr & Hrh & _).
      exists true, s2. split; [exact Hfill |]. split.
      * unfold rx_wf. rewrite Hr, Hrh. exact Hrx1.
      * destruct Htx1 as (Hl1 & Hh1 & Ht1 & Hb1). unfold tx_wf.
        rewrite Hl, Hh, Ht, Hb. repeat split; try assumption; try lia.
        all: apply Z.mod_pos_bound; unfold TX_RING_SIZE; lia.
  - destruct (send_packet_free s data len Htx Hroom Hlen)
      as (s' & Hsend & Htx' & _).
    exists true, s'. split; [exact Hsend |]. split; [| exact Htx'].
    revert Hsend. unfold send_packet. rewrite (tx_next_tail s Htx).
    destruct (Z.eqb_spec ((tx_tail_ s + 1) mod TX_RING_SIZE) (tx_head_ s));
      [contradiction |].
    intros Hfill.
    destruct (send_packet_fill_rx _ _ _ _ _ _ Hfill) as (Hr & Hrh & _).
    unfold rx_wf. rewrite Hr, Hrh. exact Hrx.
Qed.

Lemma broadcom_step_keeps_wf (c : Runs.broadcom_call) (s : BroadcomNetXtreme) :
  wf s -> call_in_bounds c ->
  exists s', Runs.broadcom_step c s = Ok s' /\ wf s'.
Proof.
  intros Hwf Hc. destruct c as [| data len | | |]; cbn [Runs.broadcom_step].
  - destruct (receive_keeps_wf s Hwf) as (r & s' & -> & Hwf').
    exists s'. now rewrite bind_Ok.
  - destruct Hc as [Hfit Hdata].
    destruct (send_keeps_wf s data len Hwf ltac:(lia)) as (b & s' & -> & Hwf').
    exists s'. now rewrite bind_Ok.
  - exact (reclaim_keeps_wf s Hwf).
  - now exists s.
  - now exists s.
Qed.

(** X5. On a driver whose rings are allocated and whose three cursors lie
    inside them, every sequence of receive, send, reclaim and counter-read
    calls runs to completion (no ring index leaves its ring, no null
    buffer region is used, every reclaim loop ends) and leaves the driver
    in such a state again, provided every send names a length of at most
    [MAX_PACKET_SIZE] that does not go beyond the caller's own array. *)
Theorem broadcom_calls_keep_cursors_in_ring (cs : list Runs.broadcom_call) :
  forall s : BroadcomNetXtreme,
    wf s -> Forall call_in_bounds cs ->
    exists s', Runs.broadcom_run cs s = Ok s' /\ wf s'.
Proof.
  induction cs as [| c rest IH]; intros s Hwf Hcs.
  - now exists s.
  - apply Forall_cons in Hcs as [Hc Hrest].
    destruct (broadcom_step_keeps_wf c s Hwf Hc) as (s1 & Hstep & Hwf1).
    destruct (IH s1 Hwf1 Hrest) as (s' & Hrun & Hwf').
    exists s'. cbn [Runs.broadcom_run]. now rewrite Hstep, bind_Ok.
Qed.

(** *** Reclaim composed with itself *)

(** X6. A second [reclaim_tx_descriptors] right after a first one changes
    nothing, and a reclaim never leaves more descriptors pending than it
    found. *)
Theorem reclaim_is_idempotent (s s1 : BroadcomNetXtreme) :
  tx_wf s ->
  reclaim_tx_descriptors s = Ok s1 ->
  reclaim_tx_descriptors s1 = Ok s1
  /\ (tx_tail_ s1 - tx_head_ s1) mod TX_RING_SIZE
     <= (tx_tail_ s - tx_head_ s) mod TX_RING_SIZE.
Proof.
  intros Hwf Hrun.
  destruct (reclaim_terminates s Hwf) as (j & Hj & Hrun' & _ & Hstop).
  rewrite Hrun in Hrun'. injection Hrun' as ->.
  set (h1 := (tx_head_ s + j) mod TX_RING_SIZE) in *.
  assert (0 <= h1 < TX_RING_SIZE) as Hh1
    by (apply Z.mod_pos_bound; unfold TX_RING_SIZE; lia).
  pose proof (tx_wf_set_head s h1 Hwf Hh1) as Hwf1.
  pose proof Hwf as (_ & Hh & Ht & _).
  assert ((tx_tail_ s - h1) mod TX_RING_SIZE
          = (tx_tail_ s - tx_head_ s) mod TX_RING_SIZE - j) as Hdist.
  { subst h1. revert Hj. unfold TX_RING_SIZE in *.
    Z.div_mod_to_equations. lia. }
  destruct (reclaim_terminates _ Hwf1) as (j1 & Hj1 & Hrun1 & Hall1 & _).
  cbn [tx_head_ tx_tail_ tx_ring_ set_tx_head] in Hj1, Hrun1, Hall1.
  cbn [tx_head_ tx_tail_ set_tx_head].
  split; [| lia].
  assert (j1 = 0) as ->.
  { destruct (Z.eq_dec j1 0) as [| Hne]; [assumption |].
    specialize (Hall1 0 ltac:(lia)).
    rewrite Z.add_0_r, (Z.mod_small h1) in Hall1 by lia.
    destruct Hstop as [Hstop | Hstop]; [lia | congruence]. }
  rewrite Hrun1, Z.add_0_r, (Z.mod_small h1) by lia. reflexivity.
Qed.

Lemma reclaim_is_idempotent_witness :
  Broadcom.reclaim_tx_descriptors
    (Broadcom.set_tx_head 3 (Scenario.broadcom_full 3))
  = Ok (Broadcom.set_tx_head 3 (Scenario.broadcom_full 3))
  /\ (1023 - 3) mod 1024 <= (1023 - 0) mod 1024.
Proof.
  apply (reclaim_is_idempotent (Scenario.broadcom_full 3)).
  - unfold Ring.tx_wf. vm_compute. repeat split; congruence.
  - vm_compute. reflexivity.
Defined.

End BroadcomInvariant.

Lemma broadcom_calls_keep_cursors_in_ring_witness :
  exists s',
    Runs.broadcom_run
      [Runs.Receive; Runs.Send Samples.hello 5; Runs.Reclaim; Runs.Receive]
      Samples.broadcom_two_rx = Ok s'
    /\ RxRing.wf s'.
Proof.
  apply broadcom_calls_keep_cursors_in_ring.
  - split; [split; [reflexivity | vm_compute; split; congruence] |].
    unfold Ring.tx_wf. vm_compute. repeat split; congruence.
  - repeat constructor; vm_compute; congruence.
Defined.

(** ** What a successful send publishes *)

Lemma store_bytes_above (src : list Byte.byte) :
  forall (m : memory) (dst a : Z),
    dst + Z.of_nat (length src) <= a -> store_bytes m dst src !! a = m !! a.
Proof.
  induction src as [| b rest IH]; intros m dst a Ha; cbn [store_bytes length] in *.
  - reflexivity.
  - rewrite IH by lia. apply lookup_insert_ne. lia.
Qed.

Lemma command_word (len : Z) :
  0 <= len < 2 ^ 16 ->
  wrap32 (Z.lor (Z.lor len Broadcom.DESC_CMD_EOP) Broadcom.DESC_CMD_IFCS)
  = len + 2 ^ 24 + 2 ^ 25.
Proof.
  intros Hlen. unfold Broadcom.DESC_CMD_EOP, Broadcom.DESC_CMD_IFCS.
  change (2 ^ 16) with 65536 in Hlen.
  rewrite (Z.lor_comm len), lor_shiftl_add
    by (change (2 ^ 24) with 16777216; lia).
  rewrite Z.lor_comm, lor_shiftl_add
    by (change (2 ^ 24) with 16777216; change (2 ^ 25) with 33554432; lia).
  unfold wrap32. rewrite wrap_small.
  - lia.
  - change (2 ^ 24) with 16777216. change (2 ^ 25) with 33554432.
    change (2 ^ 32) with 4294967296. lia.
Qed.

(** X7. A [send_packet] of [len] bytes, [len] at most [MAX_PACKET_SIZE],
    on a ring with room returns [true] and publishes the frame in the slot
    under the old tail: the descriptor carries the slot's buffer address,
    the command word [len | EOP | IFCS] (so its low 16 bits read back as
    [len]) and a zero status; the first [len] bytes of that buffer are the
    caller's bytes and no byte outside them is written; the TX tail
    register holds the new tail cursor. *)
Theorem send_packet_publishes_frame (s : Broadcom.BroadcomNetXtreme)
    (data : list Byte.byte) (len : Z) :
  Ring.tx_wf s ->
  (Broadcom.tx_tail_ s + 1) mod Broadcom.TX_RING_SIZE <> Broadcom.tx_head_ s ->
  0 <= len <= Z.of_nat (length data) ->
  len <= Broadcom.MAX_PACKET_SIZE ->
  let buf := Broadcom.tx_buffers_ s
             + Broadcom.tx_tail_ s * Broadcom.MAX_PACKET_SIZE in
  exists s' d,
    Broadcom.send_packet data len s = Ok (true, s')
    /\ Broadcom.tx_ring_ s' !! Z.to_nat (Broadcom.tx_tail_ s) = Some d
    /\ Broadcom.tx_buffer_addr d = buf
    /\ Broadcom.tx_cmd_type_len d = len + 2 ^ 24 + 2 ^ 25
    /\ Broadcom.tx_cmd_type_len d mod 2 ^ 16 = len
    /\ Broadcom.tx_status d = 0
    /\ (forall i : nat, Z.of_nat i < len ->
          Broadcom.dma_ s' !! (buf + Z.of_nat i) = data !! i)
    /\ (forall a, a < buf \/ buf + len <= a ->
          Broadcom.dma_ s' !! a = Broadcom.dma_ s !! a)
    /\ reg_read (Broadcom.bar0_ s') Broadcom.REG_TX_RING_TAIL
       = Broadcom.tx_tail_ s'.
Proof.
  intros Hwf Hroom Hlen Hmax buf.
  assert (len < 2 ^ 16) as H16
    by (unfold Broadcom.MAX_PACKET_SIZE in Hmax; change (2 ^ 16) with 65536; lia).
  pose proof Hwf as (Hl & Hh & Ht & Hb).
  destruct (tx_slot_exists s (Broadcom.tx_tail_ s) Hwf Ht) as [d0 Hd0].
  assert (wrap32 (Broadcom.tx_tail_ s * Broadcom.MAX_PACKET_SIZE)
          = Broadcom.tx_tail_ s * Broadcom.MAX_PACKET_SIZE) as Hoff.
  { unfold wrap32. apply wrap_small.
    unfold Broadcom.TX_RING_SIZE, Broadcom.MAX_PACKET_SIZE in *.
    change (2 ^ 32) with 4294967296. lia. }
  assert (buf <> 0) as Hbuf
    by (subst buf; unfold Broadcom.TX_RING_SIZE, Broadcom.MAX_PACKET_SIZE in *; lia).
  unfold Broadcom.send_packet. rewrite (tx_next_tail s Hwf).
  destruct (Z.eqb_spec ((Broadcom.tx_tail_ s + 1) mod Broadcom.TX_RING_SIZE)
                       (Broadcom.tx_head_ s)); [contradiction |].
  unfold Broadcom.send_packet_fill. rewrite Hoff. fold buf.
  rewrite (memcpy_Ok _ _ _ _ Hbuf) by lia.
  rewrite bind_Ok, (at_index_Ok _ _ _ Hd0), bind_Ok.
  assert (Z.to_nat (Broadcom.tx_tail_ s) < length (Broadcom.tx_ring_ s))%nat
    as Hin by (rewrite Hl; unfold Broadcom.TX_RING_SIZE in *; lia).
  assert (length (take (Z.to_nat len) data) = Z.to_nat len) as Htake
    by (rewrite length_take; lia).
  do 2 eexists. split; [reflexivity |].
  cbn [Broadcom.tx_ring_ Broadcom.dma_ Broadcom.bar0_ Broadcom.tx_tail_].
  split; [apply list_lookup_insert_eq; exact Hin |].
  cbn [Broadcom.tx_buffer_addr Broadcom.tx_cmd_type_len Broadcom.tx_status].
  rewrite command_word by lia.
  split; [reflexivity |]. split; [reflexivity |]. split.
  { change (2 ^ 24) with (256 * 2 ^ 16). change (2 ^ 25) with (512 * 2 ^ 16).
    replace (len + 256 * 2 ^ 16 + 512 * 2 ^ 16) with (len + 768 * 2 ^ 16) by lia.
    rewrite Z.mod_add by lia. apply Z.mod_small. lia. }
  split; [reflexivity |]. split; [| split].
  - intros i Hi. rewrite store_bytes_inside by lia.
    apply lookup_take_lt. lia.
  - intros a [Ha | Ha].
    + now apply store_bytes_below.
    + apply store_bytes_above. lia.
  - unfold reg_read, reg_write. rewrite lookup_insert_eq. cbn [default].
    unfold id, wrap32. apply wrap_small.
    pose proof (Z.mod_pos_bound (Broadcom.tx_tail_ s + 1) Broadcom.TX_RING_SIZE
                  ltac:(unfold Broadcom.TX_RING_SIZE; lia)).
    unfold Broadcom.TX_RING_SIZE in *. change (2 ^ 32) with 4294967296. lia.
Qed.

Lemma send_packet_publishes_frame_witness :
  exists s' d,
    Broadcom.send_packet Samples.hello 5 Scenario.broadcom_idle = Ok (true, s')
    /\ Broadcom.tx_ring_ s' !! 0%nat = Some d
    /\ Broadcom.tx_cmd_type_len d mod 2 ^ 16 = 5
    /\ Broadcom.dma_ s' !! (0x20000000 + 4) = Some Byte.x6f.
Proof.
  destruct (send_packet_publishes_frame Scenario.broadcom_idle Samples.hello 5)
    as (s' & d & Hsend & Hd & _ & _ & Hlen & _ & Hbytes & _).
  - unfold Ring.tx_wf. vm_compute. repeat split; congruence.
  - vm_compute. congruence.
  - vm_compute. split; congruence.
  - vm_compute. congruence.
  - exists s', d. split; [exact Hsend |]. split; [exact Hd |].
    split; [exact Hlen |]. exact (Hbytes 4%nat ltac:(lia)).
Defined.

(** ** Bring-up of BroadcomNetXtreme *)

Section BroadcomBringUp.

Import Broadcom BroadcomRegs BroadcomInit.

Lemma land_bit (x n : Z) :
  0 <= n -> (Z.land x (Z.shiftl 1 n) =? 0) = negb (Z.testbit x n).
Proof.
  intros Hn. rewrite Z.shiftl_1_l.
  destruct (Z.testbit x n) eqn:Hb; cbn [negb].
  - apply Z.eqb_neq. intros E.
    assert (Z.testbit (Z.land x (2 ^ n)) n = false) as Hc
      by (rewrite E; apply Z.bits_0).
    rewrite Z.land_spec, Hb, Z.pow2_bits_true in Hc by lia. discriminate.
  - apply Z.eqb_eq. apply Z.bits_inj'. intros m Hm.
    rewrite Z.land_spec, Z.bits_0, Z.pow2_bits_eqb by lia.
    destruct (Z.eqb_spec n m) as [<- | _]; [now rewrite Hb | apply andb_false_r].
Qed.

Lemma wrap32_testbit (x n : Z) :
  0 <= n < 32 -> Z.testbit (wrap32 x) n = Z.testbit x n.
Proof. intros Hn. unfold wrap32, wrap. apply Z.mod_pow2_bits_low. lia. Qed.

Lemma read_set_bar0 (o : Z) (r : regfile) (s : BroadcomNetXtreme) :
  read_reg o (set_bar0 r s) = wrap32 (default 0 (r !! o)).
Proof. reflexivity. Qed.

Lemma wrap32_idem (x : Z) : wrap32 (wrap32 x) = wrap32 x.
Proof. unfold wrap32, wrap. apply Z.mod_mod. lia. Qed.

Lemma read_write_reg (o o' v : Z) (s : BroadcomNetXtreme) :
  read_reg o (write_reg o' v s)
  = if o' =? o then wrap32 v else read_reg o s.
Proof.
  unfold write_reg, read_reg, reg_read, reg_write. cbn [bar0_ set_bar0].
  destruct (Z.eqb_spec o' o) as [-> | Hne].
  - rewrite lookup_insert_eq. cbn [default]. unfold id. apply wrap32_idem.
  - now rewrite lookup_insert_ne by exact Hne.
Qed.

Lemma reset_poll_spec (device : nat -> Z) (left : nat) :
  forall (i : nat) (s : BroadcomNetXtreme),
    ((reset_poll device i left s).1 = true
     <-> exists j : nat, (j < left)%nat /\ Z.testbit (device (i + j)%nat) 26 = false)
    /\ same_soft_state s (reset_poll device i left s).2
    /\ rx_ring_ (reset_poll device i left s).2 = rx_ring_ s
    /\ tx_ring_ (reset_poll device i left s).2 = tx_ring_ s
    /\ rx_buffers_ (reset_poll device i left s).2 = rx_buffers_ s
    /\ tx_buffers_ (reset_poll device i left s).2 = tx_buffers_ s
    /\ initialized_ (reset_poll device i left s).2 = initialized_ s
    /\ ((reset_poll device i left s).1 = true ->
        Z.testbit (read_reg REG_DEVICE_CONTROL (reset_poll device i left s).2) 26
        = false).
Proof.
  induction left as [| left IH]; intros i s; cbn [reset_poll].
  - cbn [fst snd]. split.
    + split; [discriminate | intros (j & Hj & _); lia].
    + unfold same_soft_state. repeat split. discriminate.
  - set (s1 := set_bar0 (<[REG_DEVICE_CONTROL:=device i]> (bar0_ s)) s).
    assert (read_reg REG_DEVICE_CONTROL s1 = wrap32 (device i)) as Hread.
    { unfold s1. rewrite read_set_bar0, lookup_insert_eq. reflexivity. }
    unfold CTRL_DEVICE_RESET. rewrite land_bit by lia.
    rewrite Hread, wrap32_testbit by lia.
    destruct (Z.testbit (device i) 26) eqn:Hbit; cbn [negb].
    + destruct (IH (S i) s1) as (Hiff & Hsoft & Hr & Ht & Hrb & Htb & Hi & Hctl).
      refine (conj _ (conj Hsoft (conj Hr (conj Ht (conj Hrb (conj Htb
                (conj Hi Hctl))))))).
      rewrite Hiff. split; intros (j & Hj & Hclear).
      * exists (S j). split; [lia |]. now rewrite Nat.add_succ_r.
      * destruct j as [| j]; [rewrite Nat.add_0_r in Hclear; congruence |].
        exists j. split; [lia |]. now rewrite Nat.add_succ_r in Hclear.
    + cbn [fst snd].
      refine (conj _ (conj _ (conj eq_refl (conj eq_refl (conj eq_refl
                (conj eq_refl (conj eq_refl _))))))).
      * split; [| reflexivity]. intros _. exists 0%nat.
        split; [lia | now rewrite Nat.add_0_r].
      * unfold same_soft_state. repeat split.
      * intros _. now rewrite Hread, wrap32_testbit by lia.
Qed.

Lemma bind_loop_length (addr : nat -> Z) (ids : list nat) :
  forall ring : list RxDescriptor,
    length (foldl (fun ring i => alter (set_rx_buffer_addr (addr i)) i ring)
                  ring ids)
    = length ring.
Proof.
  induction ids as [| i rest IH]; intros ring; cbn [foldl]; [reflexivity |].
  rewrite IH. apply length_alter.
Qed.

Lemma bind_loop_lookup (addr : nat -> Z) (n : nat) (ring : list RxDescriptor)
    (i : nat) :
  (i < n)%nat ->
  foldl (fun ring i => alter (set_rx_buffer_addr (addr i)) i ring)
        ring (seq 0 n) !! i
  = set_rx_buffer_addr (addr i) <$> ring !! i.
Proof.
  induction n as [| n IH]; intros Hi; [lia |].
  rewrite seq_S, foldl_app. cbn [foldl Nat.add].
  destruct (Nat.eq_dec i n) as [-> | Hne].
  - rewrite list_lookup_alter_eq.
    assert (forall m, (n <= m)%nat ->
              foldl (fun ring i => alter (set_rx_buffer_addr (addr i)) i ring)
                    ring (seq 0 n) !! m = ring !! m) as Huntouched.
    { clear. induction n as [| n IHn]; intros m Hm; [reflexivity |].
      rewrite seq_S, foldl_app. cbn [foldl Nat.add].
      rewrite list_lookup_alter_ne by lia. apply IHn. lia. }
    now rewrite Huntouched by lia.
  - rewrite list_lookup_alter_ne by congruence. apply IH. lia.
Qed.

Lemma allocate_rings_spec (env : environment) (s : BroadcomNetXtreme) :
  let r := allocate_rings env s in
  (r.1 = true
   <-> rx_ring_mem env <> 0 /\ tx_ring_mem env <> 0
       /\ rx_region env <> 0 /\ tx_region env <> 0)
  /\ same_soft_state s r.2
  /\ bar0_ r.2 = bar0_ s
  /\ initialized_ r.2 = initialized_ s
  /\ (r.1 = true ->
      length (rx_ring_ r.2) = Z.to_nat RX_RING_SIZE
      /\ (forall i : nat, (i < Z.to_nat RX_RING_SIZE)%nat ->
            rx_ring_ r.2 !! i
            = Some (set_rx_buffer_addr
                      (rx_region env + Z.of_nat i * MAX_PACKET_SIZE) zero_rx))
      /\ tx_ring_ r.2 = replicate (Z.to_nat TX_RING_SIZE) zero_tx
      /\ rx_buffers_ r.2 = rx_region env
      /\ tx_buffers_ r.2 = tx_region env).
Proof.
  cbn zeta. unfold allocate_rings. fold (rx_region env). fold (tx_region env).
  destruct (Z.eqb_spec (rx_ring_mem env) 0) as [E1 | E1];
    [cbn; unfold same_soft_state; repeat split; try discriminate; tauto |].
  destruct (Z.eqb_spec (tx_ring_mem env) 0) as [E2 | E2];
    [cbn; unfold same_soft_state; repeat split; try discriminate; tauto |].
  destruct (Z.eqb_spec (rx_region env) 0) as [E3 | E3];
    [cbn; unfold same_soft_state; repeat split; try discriminate; tauto |].
  destruct (Z.eqb_spec (tx_region env) 0) as [E4 | E4];
    [cbn; unfold same_soft_state; repeat split; try discriminate; tauto |].
  cbn [fst snd set_rings rx_ring_ tx_ring_ rx_buffers_ tx_buffers_ bar0_
       initialized_].
  split; [tauto |]. split; [unfold same_soft_state; repeat split |].
  split; [reflexivity |]. split; [reflexivity |]. intros _.
  unfold bind_rx_buffers.
  set (addr := fun i : nat =>
                 get_physical_addr
                   (rx_region env + wrap32 (Z.of_nat i * MAX_PACKET_SIZE))).
  change (foldl _ ?r ?l)
    with (foldl (fun ring i => alter (set_rx_buffer_addr (addr i)) i ring) r l).
  split; [rewrite bind_loop_length; apply length_replicate |].
  split; [| repeat split].
  intros i Hi. rewrite bind_loop_lookup by exact Hi.
  rewrite lookup_replicate_2 by exact Hi. cbn [fmap option_fmap option_map].
  unfold addr, get_physical_addr, wrap32. rewrite wrap_small; [reflexivity |].
  unfold RX_RING_SIZE, MAX_PACKET_SIZE in *. change (2 ^ 32) with 4294967296. lia.
Qed.

Lemma read_write_reg_eq (o v : Z) (s : BroadcomNetXtreme) :
  read_reg o (write_reg o v s) = wrap32 v.
Proof. now rewrite read_write_reg, Z.eqb_refl. Qed.

Lemma read_write_reg_ne (o o' v : Z) (s : BroadcomNetXtreme) :
  o' <> o -> read_reg o (write_reg o' v s) = read_reg o s.
Proof. intros H. rewrite read_write_reg. now destruct (Z.eqb_spec o' o). Qed.

Local Ltac reg_simpl :=
  repeat first
    [ rewrite read_write_reg_eq
    | rewrite read_write_reg_ne by (vm_compute; congruence) ].

Lemma lor_bit_set (x n : Z) :
  0 <= n < 32 ->
  Z.testbit (wrap32 (Z.lor x (Z.shiftl 1 n))) n = true
  /\ forall m, 0 <= m < 32 -> m <> n ->
       Z.testbit (wrap32 (Z.lor x (Z.shiftl 1 n))) m = Z.testbit x m.
Proof.
  intros Hn. rewrite Z.shiftl_1_l. split.
  - rewrite wrap32_testbit, Z.lor_spec, Z.pow2_bits_true by lia.
    apply orb_true_r.
  - intros m Hm Hne.
    rewrite wrap32_testbit, Z.lor_spec, Z.pow2_bits_false by lia.
    apply orb_false_r.
Qed.

Lemma program_registers_spec (env : environment) (s : BroadcomNetXtreme) :
  let s' := program_registers env s in
  s' = set_bar0 (bar0_ s') s
  /\ read_reg REG_RX_RING_TAIL s' = RX_RING_SIZE - 1
  /\ read_reg REG_RX_RING_HEAD s' = 0
  /\ read_reg REG_TX_RING_TAIL s' = 0
  /\ read_reg REG_TX_RING_HEAD s' = 0
  /\ read_reg REG_RX_RING_SIZE s' = RX_RING_SIZE
  /\ read_reg REG_TX_RING_SIZE s' = TX_RING_SIZE
  /\ read_reg REG_INTERRUPT_MASK s' = 2 ^ 32 - 1
  /\ (0 <= rx_ring_mem env < 2 ^ 64 ->
      read_reg REG_RX_RING_BASE_LO s' + 2 ^ 32 * read_reg REG_RX_RING_BASE_HI s'
      = rx_ring_mem env)
  /\ (0 <= tx_ring_mem env < 2 ^ 64 ->
      read_reg REG_TX_RING_BASE_LO s' + 2 ^ 32 * read_reg REG_TX_RING_BASE_HI s'
      = tx_ring_mem env)
  /\ Z.testbit (read_reg REG_DEVICE_CONTROL s') 15 = true
  /\ (forall m, 0 <= m < 32 -> m <> 15 ->
        Z.testbit (read_reg REG_DEVICE_CONTROL s') m
        = Z.testbit (read_reg REG_DEVICE_CONTROL s) m)
  /\ Z.testbit (read_reg REG_RX_CONTROL s') 1 = true
  /\ Z.testbit (read_reg REG_TX_CONTROL s') 0 = true.
Proof.
  cbn zeta. unfold program_registers, enable_rx_tx. cbn zeta.
  split; [reflexivity |].
  reg_simpl.
  assert (forall a, 0 <= a < 2 ^ 64 ->
            wrap32 (Z.land (get_physical_addr a) 0xFFFFFFFF)
            + 2 ^ 32 * wrap32 (Z.shiftr (get_physical_addr a) 32) = a) as Hsplit.
  { intros a Ha. unfold get_physical_addr.
    change 0xFFFFFFFF with (2 ^ 32 - 1).
    rewrite land_low_bits, Z.shiftr_div_pow2 by lia.
    unfold wrap32, wrap. change (2 ^ 64) with 18446744073709551616 in Ha.
    change (2 ^ 32) with 4294967296.
    Z.div_mod_to_equations. lia. }
  unfold CTRL_LOW_LATENCY_MODE, CTRL_RX_ENABLE, CTRL_TX_ENABLE.
  repeat apply conj; try reflexivity.
  - exact (Hsplit (rx_ring_mem env)).
  - exact (Hsplit (tx_ring_mem env)).
  - apply lor_bit_set. lia.
  - intros m Hm Hne.
    now rewrite (proj2 (lor_bit_set _ 15 ltac:(lia))) by assumption.
  - apply lor_bit_set. lia.
  - apply lor_bit_set. lia.
Qed.

Lemma same_soft_trans (a b c : BroadcomNetXtreme) :
  same_soft_state a b -> same_soft_state b c -> same_soft_state a c.
Proof.
  unfold same_soft_state. intros (?&?&?&?&?&?) (?&?&?&?&?&?).
  repeat split; congruence.
Qed.

Lemma reset_device_spec (env : environment) (s : BroadcomNetXtreme) :
  ((reset_device env s).1 = true <-> reset_completes env)
  /\ same_soft_state s (reset_device env s).2
  /\ initialized_ (reset_device env s).2 = initialized_ s.
Proof.
  unfold reset_device.
  destruct (reset_poll_spec (device_control env) 1000 0
              (write_reg REG_DEVICE_CONTROL CTRL_DEVICE_RESET s))
    as (Hiff & Hsoft & _ & _ & _ & _ & Hi & _).
  split; [exact Hiff |]. split; [exact Hsoft | exact Hi].
Qed.

Lemma reset_device_leaves_reset (env : environment) (s : BroadcomNetXtreme) :
  (reset_device env s).1 = true ->
  Z.testbit (read_reg REG_DEVICE_CONTROL (reset_device env s).2) 26 = false.
Proof.
  unfold reset_device.
  destruct (reset_poll_spec (device_control env) 1000 0
              (write_reg REG_DEVICE_CONTROL CTRL_DEVICE_RESET s))
    as (_ & _ & _ & _ & _ & _ & _ & Hbit).
  exact Hbit.
Qed.

(** X8. [initialize] returns [true] exactly when the register window can
    be mapped, the device leaves reset within 1000 polls, both rings are
    allocated and both buffer regions end up non-null (from the huge-page
    mapping or, failing that, from the fallback allocation).  On every
    failure [initialized_] is left as it was.  Whether it succeeds or not,
    [initialize] never touches the three ring cursors, the two packet
    counters or the packet memory, so calling it on a driver that has
    been used does not rewind them. *)
Theorem initialize_outcome (env : environment) (s : BroadcomNetXtreme) :
  ((initialize env s).1 = true
   <-> is_Some (bar0_window env) /\ reset_completes env
       /\ rx_ring_mem env <> 0 /\ tx_ring_mem env <> 0
       /\ rx_region env <> 0 /\ tx_region env <> 0)
  /\ same_soft_state s (initialize env s).2
  /\ initialized_ (initialize env s).2
     = ((initialize env s).1 || initialized_ s).
Proof.
  unfold initialize, map_bar0.
  destruct (bar0_window env) as [r |] eqn:Hwin; cbn [fst snd negb].
  2:{ split; [| split; [unfold same_soft_state; repeat split | reflexivity]].
      split; [discriminate | intros ([x Hx] & _); discriminate]. }
  destruct (reset_device_spec env (set_bar0 r s)) as (Hreset & Hsoft1 & Hi1).
  destruct (reset_device env (set_bar0 r s)) as [ok1 s1]. cbn [fst snd] in *.
  destruct ok1; cbn [negb fst snd].
  2:{ split; [| split; [exact Hsoft1 | exact Hi1]].
      split; [discriminate |]. intros (_ & Hc & _). apply Hreset in Hc.
      discriminate. }
  destruct (allocate_rings_spec env s1) as (Halloc & Hsoft2 & _ & Hi2 & _).
  cbn zeta in *.
  destruct (allocate_rings env s1) as [ok2 s2]. cbn [fst snd] in *.
  destruct ok2; cbn [negb fst snd].
  2:{ split; [| split; [exact (same_soft_trans _ _ _ Hsoft1 Hsoft2)
                        | now rewrite Hi2, Hi1]].
      split; [discriminate |]. intros (_ & _ & Hc). apply Halloc in Hc.
      discriminate. }
  split; [| split].
  - split; [| reflexivity]. intros _. split; [now exists r |].
    split; [now apply Hreset |]. now apply Halloc.
  - apply (same_soft_trans _ _ _ Hsoft1), (same_soft_trans _ _ _ Hsoft2).
    destruct (program_registers_spec env s2) as (Hs & _). cbn zeta in Hs.
    rewrite Hs. unfold same_soft_state. repeat split.
  - reflexivity.
Qed.

Lemma initialize_success (env : environment) (s : BroadcomNetXtreme) :
  (initialize env s).1 = true ->
  exists r s2,
    bar0_window env = Some r
    /\ (reset_device env (set_bar0 r s)).1 = true
    /\ allocate_rings env (reset_device env (set_bar0 r s)).2 = (true, s2)
    /\ (initialize env s).2 = set_initialized true (program_registers env s2).
Proof.
  unfold initialize, map_bar0.
  destruct (bar0_window env) as [r |]; cbn [fst snd negb]; [| discriminate].
  destruct (reset_device env (set_bar0 r s)) as [[] s1] eqn:E1;
    cbn [fst snd negb]; [| discriminate].
  destruct (allocate_rings env s1) as [[] s2] eqn:E2; cbn [fst snd negb];
    [| discriminate].
  intros _. exists r, s2. rewrite E1. cbn [fst snd]. now rewrite E2.
Qed.

Lemma read_reg_same_bar0 (o : Z) (s s' : BroadcomNetXtreme) :
  bar0_ s = bar0_ s' -> read_reg o s = read_reg o s'.
Proof. unfold read_reg. now intros ->. Qed.

Lemma initialize_after_allocation (env : environment) :
  (initialize env new).1 = true ->
  exists s2,
    (initialize env new).2 = set_initialized true (program_registers env s2)
    /\ length (rx_ring_ s2) = Z.to_nat RX_RING_SIZE
    /\ (forall i : nat, (i < Z.to_nat RX_RING_SIZE)%nat ->
          rx_ring_ s2 !! i
          = Some (set_rx_buffer_addr
                    (rx_region env + Z.of_nat i * MAX_PACKET_SIZE) zero_rx))
    /\ tx_ring_ s2 = replicate (Z.to_nat TX_RING_SIZE) zero_tx
    /\ rx_buffers_ s2 = rx_region env
    /\ tx_buffers_ s2 = tx_region env
    /\ tx_region env <> 0
    /\ rx_head_ s2 = 0 /\ tx_head_ s2 = 0 /\ tx_tail_ s2 = 0
    /\ Z.testbit (read_reg REG_DEVICE_CONTROL s2) 26 = false.
Proof.
  intros Hok.
  destruct (initialize_success env new Hok) as (r & s2 & _ & Hreset & Halloc & Hshape).
  pose proof (reset_device_leaves_reset env (set_bar0 r new) Hreset) as Hbit.
  destruct (reset_device_spec env (set_bar0 r new)) as (_ & Hsoft1 & _).
  remember (reset_device env (set_bar0 r new)).2 as s1 eqn:Hs1. clear Hs1 Hreset.
  pose proof (allocate_rings_spec env s1) as Hspec.
  cbn zeta in Hspec. rewrite Halloc in Hspec. cbn [fst snd] in Hspec.
  destruct Hspec as (Hiff & Hsoft2 & Hbar & _ & Hrings).
  destruct (Hrings eq_refl) as (Hlen & Hbind & Htxring & Hrxb & Htxb).
  destruct (proj1 Hiff eq_refl) as (_ & _ & _ & Htx0).
  destruct (same_soft_trans _ _ _ Hsoft1 Hsoft2) as (Hrh & Hth & Htt & _).
  exists s2.
  refine (conj Hshape (conj Hlen (conj Hbind (conj Htxring (conj Hrxb
            (conj Htxb (conj Htx0 (conj Hrh (conj Hth (conj Htt _)))))))))).
  rewrite (read_reg_same_bar0 _ _ _ Hbar). exact Hbit.
Qed.

Lemma read_set_initialized (o : Z) (b : bool) (s : BroadcomNetXtreme) :
  read_reg o (set_initialized b s) = read_reg o s.
Proof. reflexivity. Qed.

(** X9. When [initialize] succeeds on a freshly constructed driver, the
    driver is well formed and marked initialised; RX descriptor [i] carries
    the address of buffer [i] of the RX region and a zero status, the TX
    ring is all zero; the ring base registers hold the two halves of the
    ring addresses, the size registers 1024, both head registers 0, the TX
    tail 0 and the RX tail 1023; all interrupts are masked, the
    low-latency and the RX/TX enable bits are set and the reset bit is
    clear.  A receive on the driver so initialised reports "no packet". *)
Theorem initialize_arms_rings (env : environment) :
  (initialize env new).1 = true ->
  0 <= rx_ring_mem env < 2 ^ 64 ->
  0 <= tx_ring_mem env < 2 ^ 64 ->
  0 <= tx_region env ->
  let s' := (initialize env new).2 in
  initialized_ s' = true
  /\ RxRing.wf s'
  /\ (forall i : nat, (i < Z.to_nat RX_RING_SIZE)%nat ->
        rx_ring_ s' !! i
        = Some (set_rx_buffer_addr
                  (rx_region env + Z.of_nat i * MAX_PACKET_SIZE) zero_rx))
  /\ tx_ring_ s' = replicate (Z.to_nat TX_RING_SIZE) zero_tx
  /\ rx_buffers_ s' = rx_region env
  /\ tx_buffers_ s' = tx_region env
  /\ read_reg REG_RX_RING_BASE_LO s' + 2 ^ 32 * read_reg REG_RX_RING_BASE_HI s'
     = rx_ring_mem env
  /\ read_reg REG_TX_RING_BASE_LO s' + 2 ^ 32 * read_reg REG_TX_RING_BASE_HI s'
     = tx_ring_mem env
  /\ read_reg REG_RX_RING_SIZE s' = RX_RING_SIZE
  /\ read_reg REG_TX_RING_SIZE s' = TX_RING_SIZE
  /\ read_reg REG_RX_RING_HEAD s' = 0
  /\ read_reg REG_TX_RING_HEAD s' = 0
  /\ read_reg REG_RX_RING_TAIL s' = RX_RING_SIZE - 1
  /\ read_reg REG_TX_RING_TAIL s' = 0
  /\ read_reg REG_INTERRUPT_MASK s' = 2 ^ 32 - 1
  /\ Z.testbit (read_reg REG_DEVICE_CONTROL s') 15 = true
  /\ Z.testbit (read_reg REG_DEVICE_CONTROL s') 26 = false
  /\ Z.testbit (read_reg REG_RX_CONTROL s') 1 = true
  /\ Z.testbit (read_reg REG_TX_CONTROL s') 0 = true
  /\ receive_packet s' = Ok (None, s').
Proof.
  intros Hok Hrx Htx Htxr. cbn zeta.
  destruct (initialize_after_allocation env Hok)
    as (s2 & -> & Hlen & Hbind & Htxring & Hrxb & Htxb & Htx0 & Hrh & Hth & Htt
        & Hbit2).
  pose proof (program_registers_spec env s2) as Hspec. cbn zeta in Hspec.
  destruct Hspec
    as (Hshape & Hrt & Hrhd & Htt' & Hthd & Hrs & Hts & Hmask & Hrbase & Htbase
        & Hll & Hkeep & Hrxen & Htxen).
  remember (program_registers env s2) as s3 eqn:Hs3. clear Hs3.
  rewrite !read_set_initialized.
  assert (rx_ring_ (set_initialized true s3) = rx_ring_ s2) as Hring
    by (rewrite Hshape; reflexivity).
  assert (rx_head_ (set_initialized true s3) = 0) as Hhead
    by (rewrite Hshape; exact Hrh).
  split; [reflexivity |]. split.
  { split.
    - split; [now rewrite Hring | rewrite Hhead; unfold RX_RING_SIZE; lia].
    - rewrite Hshape. unfold Ring.tx_wf.
      cbn [tx_ring_ tx_head_ tx_tail_ tx_buffers_ set_initialized set_bar0].
      rewrite Htxring, Hth, Htt, Htxb, length_replicate.
      unfold TX_RING_SIZE. repeat split; lia. }
  split; [intros i Hi; rewrite Hring; now apply Hbind |].
  split; [rewrite Hshape; exact Htxring |].
  split; [rewrite Hshape; exact Hrxb |].
  split; [rewrite Hshape; exact Htxb |].
  split; [now apply Hrbase |]. split; [now apply Htbase |].
  do 7 (split; [assumption |]).
  split; [assumption |].
  split; [rewrite Hkeep by lia; exact Hbit2 |].
  split; [assumption |]. split; [assumption |].
  apply (broadcom_receive_no_dd _ (set_rx_buffer_addr
                                     (rx_region env + Z.of_nat 0 * MAX_PACKET_SIZE)
                                     zero_rx)).
  - rewrite Hhead, Hring. apply (Hbind 0%nat). unfold RX_RING_SIZE. lia.
  - reflexivity.
Qed.

Lemma initialize_arms_rings_witness :
  Broadcom.initialized_ (BroadcomInit.initialize InitSamples.bring_up BroadcomInit.new).2
  = true
  /\ BroadcomRegs.read_reg Broadcom.REG_RX_RING_TAIL
       (BroadcomInit.initialize InitSamples.bring_up BroadcomInit.new).2 = 1023.
Proof.
  destruct (initialize_arms_rings InitSamples.bring_up)
    as (Hi & _ & _ & _ & _ & _ & _ & _ & _ & _ & _ & _ & Htail & _).
  - vm_compute. reflexivity.
  - vm_compute. split; congruence.
  - vm_compute. split; congruence.
  - vm_compute. congruence.
  - split; [exact Hi | exact Htail].
Defined.

End BroadcomBringUp.

(** ** Registers written on the data path of BroadcomNetXtreme *)

Section BroadcomDataPath.

Import Broadcom BroadcomRegs BroadcomInit.

Lemma land_ring_mask (x : Z) : 0 <= Z.land x (1024 - 1) < 1024.
Proof.
  change (1024 - 1) with (2 ^ 10 - 1). rewrite land_low_bits by lia.
  apply Z.mod_pos_bound. lia.
Qed.

Lemma reclaim_loop_registers (fuel : nat) :
  forall s s' : BroadcomNetXtreme,
    reclaim_loop fuel s = Ok s' ->
    bar0_ s' = bar0_ s /\ rx_head_ s' = rx_head_ s /\ tx_tail_ s' = tx_tail_ s.
Proof.
  induction fuel as [| fuel IH]; intros s s'; cbn [reclaim_loop].
  - destruct (_ =? _); [| discriminate]. now intros [= <-].
  - destruct (_ =? _); [now intros [= <-] |].
    destruct (at_index _ _) as [d | f]; [rewrite bind_Ok | discriminate].
    destruct (_ =? _); [now intros [= <-] |].
    intros H. apply IH in H. exact H.
Qed.

Lemma send_packet_fill_registers (s s' : BroadcomNetXtreme) (nt : Z)
    (data : list Byte.byte) (len : Z) (b : bool) :
  send_packet_fill nt data len s = Ok (b, s') ->
  bar0_ s' = reg_write (bar0_ s) REG_TX_RING_TAIL nt
  /\ rx_head_ s' = rx_head_ s /\ tx_tail_ s' = nt.
Proof.
  unfold send_packet_fill.
  destruct (memcpy _ _ _ _) as [m | f]; [rewrite bind_Ok | discriminate].
  destruct (at_index _ _) as [d | f]; [rewrite bind_Ok | discriminate].
  now intros [= _ <-].
Qed.

Lemma tails_after_fill (s s' : BroadcomNetXtreme) (nt : Z) :
  0 <= nt < 1024 ->
  bar0_ s' = reg_write (bar0_ s) REG_TX_RING_TAIL nt ->
  rx_head_ s' = rx_head_ s -> tx_tail_ s' = nt ->
  (forall o, o <> REG_RX_RING_TAIL -> o <> REG_TX_RING_TAIL ->
     bar0_ s' !! o = bar0_ s !! o)
  /\ (tails_in_step s -> tails_in_step s').
Proof.
  intros Hnt Hbar Hrh Htt. split.
  - intros o _ Ho. rewrite Hbar. unfold reg_write.
    now rewrite lookup_insert_ne by congruence.
  - intros [Hrx _]. unfold tails_in_step, read_reg, reg_read in *.
    rewrite Hbar, Hrh, Htt. unfold reg_write. split.
    + rewrite lookup_insert_ne by (vm_compute; congruence). exact Hrx.
    + rewrite lookup_insert_eq. cbn [default]. unfold id, wrap32.
      rewrite !wrap_small; [reflexivity | |];
        change (2 ^ 32) with 4294967296; try lia.
      rewrite wrap_small; change (2 ^ 32) with 4294967296; lia.
Qed.

Lemma tails_untouched (s s' : BroadcomNetXtreme) :
  bar0_ s' = bar0_ s -> rx_head_ s' = rx_head_ s -> tx_tail_ s' = tx_tail_ s ->
  (forall o, o <> REG_RX_RING_TAIL -> o <> REG_TX_RING_TAIL ->
     bar0_ s' !! o = bar0_ s !! o)
  /\ (tails_in_step s -> tails_in_step s').
Proof.
  intros Hbar Hrh Htt. split; [now rewrite Hbar |].
  unfold tails_in_step, read_reg. now rewrite Hbar, Hrh, Htt.
Qed.

Lemma broadcom_step_registers (c : Runs.broadcom_call) (s s' : BroadcomNetXtreme) :
  Runs.broadcom_step c s = Ok s' ->
  (forall o, o <> REG_RX_RING_TAIL -> o <> REG_TX_RING_TAIL ->
     bar0_ s' !! o = bar0_ s !! o)
  /\ (tails_in_step s -> tails_in_step s').
Proof.
  destruct c as [| data len | | |]; cbn [Runs.broadcom_step].
  - unfold receive_packet.
    destruct (at_index _ _) as [d | f]; [rewrite bind_Ok | discriminate].
    destruct (_ =? _); rewrite bind_Ok; cbn [snd]; intros [= <-].
    + now apply tails_untouched.
    + cbn [bar0_]. split.
      * intros o Ho _. unfold reg_write.
        now rewrite lookup_insert_ne by congruence.
      * intros [_ Htx]. unfold tails_in_step, read_reg, reg_read in *.
        cbn [bar0_ rx_head_ tx_tail_]. unfold reg_write, RX_RING_SIZE. split.
        -- rewrite lookup_insert_eq. cbn [default]. unfold id.
           pose proof (land_ring_mask (wrap32 (rx_head_ s + 1))) as Hh.
           set (h' := Z.land (wrap32 (rx_head_ s + 1)) (1024 - 1)) in *.
           change (1024 - 1) with (2 ^ 10 - 1).
           rewrite (mask_prev 10) by (change (2 ^ 10) with 1024; lia).
           change (2 ^ 10) with 1024.
           pose proof (Z.mod_pos_bound (h' - 1) 1024 ltac:(lia)).
           unfold wrap32.
           rewrite !wrap_small; [reflexivity | |];
             change (2 ^ 32) with 4294967296; try lia.
           rewrite wrap_small; change (2 ^ 32) with 4294967296; lia.
        -- rewrite lookup_insert_ne by (vm_compute; congruence). exact Htx.
  - unfold send_packet.
    pose proof (land_ring_mask (wrap32 (tx_tail_ s + 1))) as Hnt.
    unfold TX_RING_SIZE.
    destruct (_ =? tx_head_ s).
    + unfold reclaim_tx_descriptors.
      destruct (reclaim_loop _ s) as [s1 | f] eqn:Hrec;
        [rewrite bind_Ok | discriminate].
      apply reclaim_loop_registers in Hrec as (Hb1 & Hr1 & Ht1).
      destruct (_ =? tx_head_ s1).
      * rewrite bind_Ok. cbn [snd]. intros [= <-]. now apply tails_untouched.
      * destruct (send_packet_fill _ _ _ s1) as [[b s2] | f] eqn:Hfill;
          [rewrite bind_Ok | discriminate].
        cbn [snd]. intros [= <-].
        apply send_packet_fill_registers in Hfill as (Hb2 & Hr2 & Ht2).
        rewrite Hb1 in Hb2. rewrite Hr1 in Hr2.
        exact (tails_after_fill s s2 _ Hnt Hb2 Hr2 Ht2).
    + destruct (send_packet_fill _ _ _ s) as [[b s2] | f] eqn:Hfill;
        [rewrite bind_Ok | discriminate].
      cbn [snd]. intros [= <-].
      apply send_packet_fill_registers in Hfill as (Hb2 & Hr2 & Ht2).
      exact (tails_after_fill s s2 _ Hnt Hb2 Hr2 Ht2).
  - unfold reclaim_tx_descriptors. intros Hrec.
    apply reclaim_loop_registers in Hrec as (Hb1 & Hr1 & Ht1).
    now apply tails_untouched.
  - intros [= <-]. now apply tails_untouched.
  - intros [= <-]. now apply tails_untouched.
Qed.

(** X10. Whatever receive, send, reclaim and counter-read calls are made,
    the only registers the data path ever writes are the RX and the TX
    tail register; every other register (control, enable bits, ring bases,
    ring sizes, head registers, interrupt mask, RSS) keeps its value.  If
    the two tail registers agree with the software cursors before the
    run, the RX tail naming the slot just before [rx_head_] and the TX
    tail being [tx_tail_], they do so after it. *)
Theorem data_path_writes_only_tail_registers (cs : list Runs.broadcom_call) :
  forall s s' : BroadcomNetXtreme,
    Runs.broadcom_run cs s = Ok s' ->
    (forall o, o <> REG_RX_RING_TAIL -> o <> REG_TX_RING_TAIL ->
       bar0_ s' !! o = bar0_ s !! o)
    /\ (tails_in_step s -> tails_in_step s').
Proof.
  induction cs as [| c rest IH]; intros s s'; cbn [Runs.broadcom_run].
  - intros [= <-]. now split.
  - destruct (Runs.broadcom_step c s) as [s1 | f] eqn:Hstep;
      [rewrite bind_Ok | discriminate].
    intros Hrun.
    destruct (broadcom_step_registers c s s1 Hstep) as (Hoth1 & Htails1).
    destruct (IH s1 s' Hrun) as (Hoth & Htails).
    split.
    + intros o Hr Ht. now rewrite Hoth, Hoth1.
    + intros H. now apply Htails, Htails1.
Qed.

End BroadcomDataPath.

Lemma data_path_writes_only_tail_registers_witness :
  exists s',
    Runs.broadcom_run [Runs.Send Samples.hello 5; Runs.Receive] InitSamples.armed
    = Ok s'
    /\ BroadcomInit.tails_in_step s'
    /\ Broadcom.bar0_ s' !! BroadcomRegs.REG_INTERRUPT_MASK = Some (2 ^ 32 - 1).
Proof.
  destruct (Runs.broadcom_run [Runs.Send Samples.hello 5; Runs.Receive]
              InitSamples.armed) as [s' | f] eqn:Hrun;
    [| vm_compute in Hrun; discriminate].
  exists s'. split; [reflexivity |].
  destruct (data_path_writes_only_tail_registers _ _ _ Hrun) as [Hother Htails].
  split.
  - apply Htails. vm_compute. split; reflexivity.
  - rewrite Hother by (vm_compute; congruence). vm_compute. reflexivity.
Defined.

(** ** Address translation of CustomNICDriver *)

(** X11. For a 64-bit virtual address, [virt_to_phys] reads the pagemap
    entry at file offset [(virt / 4096) * 8] and returns the page frame
    number taken from it, times 4096, plus the offset of the address in its
    page: the page offset is preserved.  Only the low 52 bits of the
    55-bit frame number survive the 64-bit multiplication, and the flag
    bits of the entry (55 and up, the "present" bit among them) are not
    consulted.  When the pagemap cannot be opened the result is 0. *)
Theorem virt_to_phys_keeps_page_offset :
  (forall (entry_at : Z -> Z) (virt : Z),
      0 <= virt < 2 ^ 64 ->
      let phys := Custom.virt_to_phys (Some entry_at) virt in
      let entry := entry_at (virt / 4096 * 8) in
      phys = entry mod 2 ^ 52 * 4096 + virt mod 4096
      /\ phys mod 4096 = virt mod 4096
      /\ phys / 4096 = entry mod 2 ^ 52
      /\ 0 <= phys < 2 ^ 64)
  /\ (forall virt : Z, Custom.virt_to_phys None virt = 0).
Proof.
  split; [| reflexivity].
  intros entry_at virt Hv. cbn zeta.
  assert (Custom.virt_to_phys (Some entry_at) virt
          = entry_at (virt / 4096 * 8) mod 2 ^ 52 * 4096 + virt mod 4096) as ->.
  { unfold Custom.virt_to_phys.
    assert (wrap64 (virt / 4096 * 8) = virt / 4096 * 8) as ->.
    { unfold wrap64. apply wrap_small.
      change (2 ^ 64) with 18446744073709551616 in *.
      Z.div_mod_to_equations. lia. }
    rewrite Z.shiftl_1_l, land_low_bits by lia.
    unfold wrap64, wrap.
    change (2 ^ 64) with 18446744073709551616.
    change (2 ^ 55) with 36028797018963968.
    change (2 ^ 52) with 4503599627370496.
    Z.div_mod_to_equations. lia. }
  change (2 ^ 64) with 18446744073709551616 in *.
  change (2 ^ 52) with 4503599627370496.
  Z.div_mod_to_equations. lia.
Qed.

Lemma virt_to_phys_keeps_page_offset_witness :
  Custom.virt_to_phys (Some (fun off => if off =? 0x12345 * 8 then 0x8600000000000777 else 0))
                      0x12345abc
  = 0x777abc.
Proof.
  destruct (proj1 virt_to_phys_keeps_page_offset
              (fun off => if off =? 0x12345 * 8 then 0x8600000000000777 else 0)
              0x12345abc ltac:(lia)) as (Hphys & _).
  rewrite Hphys. reflexivity.
Defined.

(** ** Bring-up of CustomNICDriver *)

Section CustomBringUp.

Import Custom CustomInit.

Lemma custom_read_write_reg (o o' v : Z) (s : CustomNICDriver) :
  read_reg32 o (write_reg32 o' v s)
  = if o' =? o then wrap32 v else read_reg32 o s.
Proof.
  unfold write_reg32, read_reg32, reg_read, reg_write. cbn [bar0_ set_bar0].
  destruct (Z.eqb_spec o' o) as [-> | Hne].
  - now rewrite lookup_insert_eq.
  - now rewrite lookup_insert_ne by exact Hne.
Qed.

Lemma custom_read_write_reg_eq (o v : Z) (s : CustomNICDriver) :
  read_reg32 o (write_reg32 o v s) = wrap32 v.
Proof. now rewrite custom_read_write_reg, Z.eqb_refl. Qed.

Lemma custom_read_write_reg_ne (o o' v : Z) (s : CustomNICDriver) :
  o' <> o -> read_reg32 o (write_reg32 o' v s) = read_reg32 o s.
Proof. intros H. rewrite custom_read_write_reg. now destruct (Z.eqb_spec o' o). Qed.

Lemma virt_to_phys_range (pm : option (Z -> Z)) (virt : Z) :
  0 <= virt_to_phys pm virt < 2 ^ 64.
Proof.
  unfold virt_to_phys. destruct pm as [entry_at |]; [| lia].
  cbn zeta. unfold wrap64 at 1. apply wrap_range. lia.
Qed.

Lemma split_base (a : Z) :
  0 <= a < 2 ^ 64 ->
  wrap32 (Z.land a 0xFFFFFFFF) + 2 ^ 32 * wrap32 (Z.shiftr a 32) = a.
Proof.
  intros Ha. change 0xFFFFFFFF with (2 ^ 32 - 1).
  rewrite land_low_bits, Z.shiftr_div_pow2 by lia.
  unfold wrap32, wrap. change (2 ^ 64) with 18446744073709551616 in Ha.
  change (2 ^ 32) with 4294967296.
  Z.div_mod_to_equations. lia.
Qed.

Lemma custom_bind_rx_buffers_spec (env : environment) (left : nat) :
  forall (i : nat) (s : CustomNICDriver),
    let r := bind_rx_buffers env i left s in
    (r.1 = true
     <-> forall j : nat, (j < left)%nat ->
           allocate_dma_memory (rx_buffer_maps env (i + j)) <> 0)
    /\ (bar0_ r.2 = bar0_ s /\ dma_ r.2 = dma_ s /\ tx_ring_ r.2 = tx_ring_ s
        /\ tx_buffers_ r.2 = tx_buffers_ s /\ rx_head_ r.2 = rx_head_ s
        /\ tx_tail_ r.2 = tx_tail_ s /\ initialized_ r.2 = initialized_ s)
    /\ length (rx_ring_ r.2) = length (rx_ring_ s)
    /\ length (rx_buffers_ r.2) = length (rx_buffers_ s)
    /\ (forall k : nat, (k < i)%nat ->
          rx_buffers_ r.2 !! k = rx_buffers_ s !! k
          /\ rx_ring_ r.2 !! k = rx_ring_ s !! k)
    /\ (r.1 = true ->
        forall k : nat, (i <= k < i + left)%nat ->
          (k < length (rx_buffers_ s))%nat ->
          rx_buffers_ r.2 !! k = Some (allocate_dma_memory (rx_buffer_maps env k))
          /\ rx_ring_ r.2 !! k
             = arm_rx_desc
                 (virt_to_phys (pagemap env)
                    (allocate_dma_memory (rx_buffer_maps env k)))
               <$> rx_ring_ s !! k).
Proof.
  induction left as [| left IH]; intros i s; cbn zeta; cbn [bind_rx_buffers].
  - cbn [fst snd]. split; [split; [intros _ j Hj; lia | reflexivity] |].
    split; [repeat split |]. split; [reflexivity |]. split; [reflexivity |].
    split; [intros k _; now split |]. intros _ k Hk. lia.
  - set (p := allocate_dma_memory (rx_buffer_maps env i)).
    destruct (Z.eqb_spec p 0) as [Hp | Hp]; cbn [fst snd].
    + split.
      { split; [discriminate |]. intros H. exfalso.
        apply (H 0%nat); [lia |]. now rewrite Nat.add_0_r. }
      split; [repeat split |].
      cbn [set_rx_buffer rx_ring_ rx_buffers_].
      split; [reflexivity |]. split; [apply length_insert |].
      split; [| discriminate].
      intros k Hk. split; [| reflexivity].
      apply list_lookup_insert_ne. lia.
    + pose proof (IH (S i) (set_rx_desc i (virt_to_phys (pagemap env) p)
                              (set_rx_buffer i p s))) as H.
      cbn zeta in H.
      destruct H as (Hiff & Hsame & Hlr & Hlb & Hlow & Hin).
      cbn [set_rx_desc set_rx_buffer bar0_ dma_ tx_ring_ tx_buffers_ rx_head_
           tx_tail_ initialized_ rx_ring_ rx_buffers_] in Hsame, Hlr, Hlb, Hlow, Hin.
      rewrite length_alter in Hlr. rewrite length_insert in Hlb, Hin.
      split.
      { rewrite Hiff. split; intros H j Hj.
        - destruct j as [| j]; [now rewrite Nat.add_0_r |].
          rewrite Nat.add_succ_r. apply (H j). lia.
        - specialize (H (S j) ltac:(lia)). now rewrite Nat.add_succ_r in H. }
      split; [exact Hsame |]. split; [exact Hlr |]. split; [exact Hlb |].
      split.
      { intros k Hk. destruct (Hlow k ltac:(lia)) as [Hb Hr].
        rewrite Hb, Hr. split.
        - apply list_lookup_insert_ne. lia.
        - apply list_lookup_alter_ne. lia. }
      intros Hok k Hk Hlen.
      destruct (Nat.eq_dec k i) as [-> | Hne].
      * destruct (Hlow i ltac:(lia)) as [Hb Hr]. rewrite Hb, Hr. split.
        -- now apply list_lookup_insert_eq.
        -- apply list_lookup_alter_eq.
      * destruct (Hin Hok k ltac:(lia) Hlen) as [Hb Hr]. rewrite Hb, Hr.
        split; [reflexivity |].
        now rewrite list_lookup_alter_ne by congruence.
Qed.

Lemma custom_bind_tx_loop (f : nat -> Z) (n : nat) (s : CustomNICDriver) :
  let s' := foldl (fun s i => set_tx_buffer i (f i) s) s (seq 0 n) in
  (bar0_ s' = bar0_ s /\ dma_ s' = dma_ s /\ rx_ring_ s' = rx_ring_ s
   /\ tx_ring_ s' = tx_ring_ s /\ rx_buffers_ s' = rx_buffers_ s
   /\ rx_head_ s' = rx_head_ s /\ tx_tail_ s' = tx_tail_ s
   /\ initialized_ s' = initialized_ s)
  /\ length (tx_buffers_ s') = length (tx_buffers_ s)
  /\ (forall i : nat, (i < n)%nat -> (i < length (tx_buffers_ s))%nat ->
        tx_buffers_ s' !! i = Some (f i))
  /\ (forall i : nat, (n <= i)%nat -> tx_buffers_ s' !! i = tx_buffers_ s !! i).
Proof.
  cbn zeta. induction n as [| n IH].
  - cbn [seq foldl]. split; [repeat split |]. split; [reflexivity |].
    split; [intros i Hi; lia | reflexivity].
  - rewrite seq_S, foldl_app. cbn [foldl Nat.add].
    destruct IH as (Hsame & Hlen & Hin & Hout).
    set (s1 := foldl (fun s i => set_tx_buffer i (f i) s) s (seq 0 n)) in *.
    cbn [set_tx_buffer bar0_ dma_ rx_ring_ tx_ring_ rx_buffers_ tx_buffers_
         rx_head_ tx_tail_ initialized_].
    split; [exact Hsame |]. split; [now rewrite length_insert |]. split.
    + intros i Hi Hl. destruct (Nat.eq_dec i n) as [-> | Hne].
      * apply list_lookup_insert_eq. now rewrite Hlen.
      * rewrite list_lookup_insert_ne by congruence. apply Hin; [lia | exact Hl].
    + intros i Hi. rewrite list_lookup_insert_ne by lia. apply Hout. lia.
Qed.

Lemma custom_program_rings_spec (pm : option (Z -> Z)) (rx tx : Z)
    (s : CustomNICDriver) :
  let s' := program_tx_ring pm tx (program_rx_ring pm rx s) in
  s' = set_bar0 (bar0_ s') s
  /\ read_reg32 RX_BASE_LO s' + 2 ^ 32 * read_reg32 RX_BASE_HI s'
     = virt_to_phys pm rx
  /\ read_reg32 TX_BASE_LO s' + 2 ^ 32 * read_reg32 TX_BASE_HI s'
     = virt_to_phys pm tx
  /\ read_reg32 RX_LEN s' = 16384
  /\ read_reg32 TX_LEN s' = 16384
  /\ read_reg32 registers.RX_HEAD s' = 0
  /\ read_reg32 registers.RX_TAIL s' = RX_RING_SIZE - 1
  /\ read_reg32 registers.TX_HEAD s' = 0
  /\ read_reg32 registers.TX_TAIL s' = 0.
Proof.
  cbn zeta. unfold program_tx_ring, program_rx_ring. cbn zeta.
  split; [reflexivity |].
  repeat first
    [ rewrite custom_read_write_reg_eq
    | rewrite custom_read_write_reg_ne by (vm_compute; congruence) ].
  split; [apply split_base, virt_to_phys_range |].
  split; [apply split_base, virt_to_phys_range |].
  repeat split.
Qed.

Lemma custom_initialize_success (env : environment) (s : CustomNICDriver) :
  (initialize env s).1 = true ->
  exists r s1,
    bar0_window env = Some r
    /\ allocate_dma_memory (rx_ring_maps env) <> 0
    /\ allocate_dma_memory (tx_ring_maps env) <> 0
    /\ bind_rx_buffers env 0 (Z.to_nat RX_RING_SIZE)
         (set_rings (replicate (Z.to_nat RX_RING_SIZE) zero_rx)
                    (replicate (Z.to_nat TX_RING_SIZE) zero_tx) (set_bar0 r s))
       = (true, s1)
    /\ (initialize env s).2
       = set_initialized true
           (program_tx_ring (pagemap env) (allocate_dma_memory (tx_ring_maps env))
              (program_rx_ring (pagemap env)
                 (allocate_dma_memory (rx_ring_maps env))
                 (bind_tx_buffers env s1))).
Proof.
  unfold initialize.
  destruct (bar0_window env) as [r |]; [| discriminate]. cbn zeta.
  destruct (Z.eqb_spec (allocate_dma_memory (rx_ring_maps env)) 0) as [E1 | E1];
    cbn [orb fst snd]; [discriminate |].
  destruct (Z.eqb_spec (allocate_dma_memory (tx_ring_maps env)) 0) as [E2 | E2];
    cbn [orb fst snd]; [discriminate |].
  destruct (bind_rx_buffers env 0 _ _) as [[] s1] eqn:Hbind;
    cbn [negb fst snd]; [| discriminate].
  intros _. exists r, s1. repeat split; assumption.
Qed.


Lemma custom_bind_rx_buffers_inv (env : environment) (left i : nat)
    (s s1 : CustomNICDriver) (ok : bool) :
  bind_rx_buffers env i left s = (ok, s1) ->
  (ok = true
   <-> forall j : nat, (j < left)%nat ->
         allocate_dma_memory (rx_buffer_maps env (i + j)) <> 0)
  /\ (bar0_ s1 = bar0_ s /\ dma_ s1 = dma_ s /\ tx_ring_ s1 = tx_ring_ s
      /\ tx_buffers_ s1 = tx_buffers_ s /\ rx_head_ s1 = rx_head_ s
      /\ tx_tail_ s1 = tx_tail_ s /\ initialized_ s1 = initialized_ s)
  /\ length (rx_ring_ s1) = length (rx_ring_ s)
  /\ length (rx_buffers_ s1) = length (rx_buffers_ s)
  /\ (ok = true ->
      forall k : nat, (i <= k < i + left)%nat ->
        (k < length (rx_buffers_ s))%nat ->
        rx_buffers_ s1 !! k = Some (allocate_dma_memory (rx_buffer_maps env k))
        /\ rx_ring_ s1 !! k
           = arm_rx_desc
               (virt_to_phys (pagemap env)
                  (allocate_dma_memory (rx_buffer_maps env k)))
             <$> rx_ring_ s !! k).
Proof.
  intros H. pose proof (custom_bind_rx_buffers_spec env left i s) as S.
  cbn zeta in S. rewrite H in S. cbn [fst snd] in S.
  destruct S as (S1 & S2 & S3 & S4 & _ & S5).
  exact (conj S1 (conj S2 (conj S3 (conj S4 S5)))).
Qed.

Lemma custom_bind_tx_buffers_spec (env : environment) (s : CustomNICDriver) :
  (bar0_ (bind_tx_buffers env s) = bar0_ s
   /\ dma_ (bind_tx_buffers env s) = dma_ s
   /\ rx_ring_ (bind_tx_buffers env s) = rx_ring_ s
   /\ tx_ring_ (bind_tx_buffers env s) = tx_ring_ s
   /\ rx_buffers_ (bind_tx_buffers env s) = rx_buffers_ s
   /\ rx_head_ (bind_tx_buffers env s) = rx_head_ s
   /\ tx_tail_ (bind_tx_buffers env s) = tx_tail_ s
   /\ initialized_ (bind_tx_buffers env s) = initialized_ s)
  /\ length (tx_buffers_ (bind_tx_buffers env s)) = length (tx_buffers_ s)
  /\ (forall i : nat, (i < Z.to_nat TX_RING_SIZE)%nat ->
        (i < length (tx_buffers_ s))%nat ->
        tx_buffers_ (bind_tx_buffers env s) !! i
        = Some (allocate_dma_memory (tx_buffer_maps env i))).
Proof.
  unfold bind_tx_buffers.
  pose proof (custom_bind_tx_loop
                (fun i => allocate_dma_memory (tx_buffer_maps env i))
                (Z.to_nat TX_RING_SIZE) s) as H.
  cbn zeta in H. destruct H as (H1 & H2 & H3 & _).
  exact (conj H1 (conj H2 H3)).
Qed.

Lemma custom_initialize_cases (env : environment) (s : CustomNICDriver) :
  (bar0_window env = None /\ initialize env s = (false, s))
  \/ (exists r,
        bar0_window env = Some r
        /\ (allocate_dma_memory (rx_ring_maps env) = 0
            \/ allocate_dma_memory (tx_ring_maps env) = 0)
        /\ (initialize env s).1 = false
        /\ (bar0_ (initialize env s).2 = r
            /\ dma_ (initialize env s).2 = dma_ s
            /\ rx_head_ (initialize env s).2 = rx_head_ s
            /\ tx_tail_ (initialize env s).2 = tx_tail_ s
            /\ initialized_ (initialize env s).2 = initialized_ s))
  \/ (exists r ok s1,
        bar0_window env = Some r
        /\ allocate_dma_memory (rx_ring_maps env) <> 0
        /\ allocate_dma_memory (tx_ring_maps env) <> 0
        /\ bind_rx_buffers env 0 (Z.to_nat RX_RING_SIZE)
             (set_rings (replicate (Z.to_nat RX_RING_SIZE) zero_rx)
                        (replicate (Z.to_nat TX_RING_SIZE) zero_tx) (set_bar0 r s))
           = (ok, s1)
        /\ initialize env s
           = if ok
             then (true,
                   set_initialized true
                     (program_tx_ring (pagemap env)
                        (allocate_dma_memory (tx_ring_maps env))
                        (program_rx_ring (pagemap env)
                           (allocate_dma_memory (rx_ring_maps env))
                           (bind_tx_buffers env s1))))
             else (false, s1)).
Proof.
  unfold initialize.
  destruct (bar0_window env) as [r |]; [| now left].
  right. cbn zeta.
  destruct (Z.eqb_spec (allocate_dma_memory (rx_ring_maps env)) 0) as [E1 | E1];
    cbn [orb].
  { left. exists r. cbn [fst snd]. repeat split. now left. }
  destruct (Z.eqb_spec (allocate_dma_memory (tx_ring_maps env)) 0) as [E2 | E2];
    cbn [orb].
  { left. exists r. cbn [fst snd]. repeat split. now right. }
  right.
  destruct (bind_rx_buffers env 0 _ _) as [ok s1] eqn:Hbind.
  exists r, ok, s1. cbn [fst snd].
  split; [reflexivity |]. split; [exact E1 |]. split; [exact E2 |].
  split; [exact Hbind |]. now destruct ok.
Qed.


Lemma custom_programmed_fields (pm : option (Z -> Z)) (rx tx : Z)
    (s : CustomNICDriver) :
  let s' := set_initialized true
              (program_tx_ring pm tx (program_rx_ring pm rx s)) in
  (rx_head_ s' = rx_head_ s /\ tx_tail_ s' = tx_tail_ s /\ dma_ s' = dma_ s
   /\ initialized_ s' = true)
  /\ (rx_ring_ s' = rx_ring_ s /\ tx_ring_ s' = tx_ring_ s
      /\ rx_buffers_ s' = rx_buffers_ s /\ tx_buffers_ s' = tx_buffers_ s)
  /\ (forall o, read_reg32 o s'
                = read_reg32 o (program_tx_ring pm tx (program_rx_ring pm rx s))).
Proof. repeat split. Qed.

(** X12. [initialize] returns [true] exactly when the register window is
    mapped, both descriptor rings are allocated and every one of the 512 RX
    packet buffers is allocated.  The result of the 512 TX packet-buffer
    allocations plays no part: they are stored unchecked.  Whatever the
    outcome, [initialize] leaves the two software cursors and the packet
    memory as they were, and [initialized_] is set only on success. *)
Theorem custom_initialize_outcome (env : environment) (s : CustomNICDriver) :
  ((initialize env s).1 = true
   <-> is_Some (bar0_window env)
       /\ allocate_dma_memory (rx_ring_maps env) <> 0
       /\ allocate_dma_memory (tx_ring_maps env) <> 0
       /\ forall i : nat, (i < Z.to_nat RX_RING_SIZE)%nat ->
            allocate_dma_memory (rx_buffer_maps env i) <> 0)
  /\ rx_head_ (initialize env s).2 = rx_head_ s
  /\ tx_tail_ (initialize env s).2 = tx_tail_ s
  /\ dma_ (initialize env s).2 = dma_ s
  /\ initialized_ (initialize env s).2
     = ((initialize env s).1 || initialized_ s).
Proof.
  destruct (custom_initialize_cases env s)
    as [[Hwin ->] | [(r & Hwin & Hnull & Hret & _ & Hd & Hh & Ht & Hi)
                    | (r & ok & s1 & Hwin & E1 & E2 & Hbind & ->)]].
  - cbn [fst snd orb]. split; [| repeat split].
    split; [discriminate |]. intros ([x Hx] & _). congruence.
  - rewrite Hret, Hd, Hh, Ht, Hi. cbn [orb]. split; [| repeat split].
    split; [discriminate |]. intros (_ & Hrx & Htx & _). tauto.
  - destruct (custom_bind_rx_buffers_inv _ _ _ _ _ _ Hbind)
      as (Hiff & (_ & Hd & _ & _ & Hh & Ht & Hi) & _).
    cbn [set_rings set_bar0 dma_ rx_head_ tx_tail_ initialized_] in Hd, Hh, Ht, Hi.
    destruct ok; cbn [fst snd orb].
    + split.
      * split; [| reflexivity]. intros _. split; [now rewrite Hwin |].
        split; [exact E1 |]. split; [exact E2 |]. now apply Hiff.
      * destruct (custom_bind_tx_buffers_spec env s1)
          as ((_ & Hd2 & _ & _ & _ & Hh2 & Ht2 & _) & _).
        pose proof (custom_programmed_fields (pagemap env)
                      (allocate_dma_memory (rx_ring_maps env))
                      (allocate_dma_memory (tx_ring_maps env))
                      (bind_tx_buffers env s1)) as H.
        cbn zeta in H. destruct H as ((-> & -> & -> & ->) & _).
        rewrite Hh2, Ht2, Hd2, Hh, Ht, Hd. repeat split.
    + split; [| repeat split; assumption].
      split; [discriminate |]. intros (_ & _ & _ & Hall). apply Hiff in Hall.
      discriminate.
Qed.


Lemma custom_bind_rx_buffers_fresh (env : environment) (left i : nat)
    (rxr : list RXDescriptor) (txr : list TXDescriptor) (r : regfile)
    (s s1 : CustomNICDriver) (ok : bool) :
  bind_rx_buffers env i left (set_rings rxr txr (set_bar0 r s)) = (ok, s1) ->
  (ok = true
   <-> forall j : nat, (j < left)%nat ->
         allocate_dma_memory (rx_buffer_maps env (i + j)) <> 0)
  /\ (bar0_ s1 = r /\ dma_ s1 = dma_ s /\ tx_ring_ s1 = txr
      /\ tx_buffers_ s1 = tx_buffers_ s /\ rx_head_ s1 = rx_head_ s
      /\ tx_tail_ s1 = tx_tail_ s /\ initialized_ s1 = initialized_ s)
  /\ length (rx_ring_ s1) = length rxr
  /\ length (rx_buffers_ s1) = length (rx_buffers_ s)
  /\ (ok = true ->
      forall k : nat, (i <= k < i + left)%nat ->
        (k < length (rx_buffers_ s))%nat ->
        rx_buffers_ s1 !! k = Some (allocate_dma_memory (rx_buffer_maps env k))
        /\ rx_ring_ s1 !! k
           = arm_rx_desc
               (virt_to_phys (pagemap env)
                  (allocate_dma_memory (rx_buffer_maps env k)))
             <$> rxr !! k).
Proof. intros H. exact (custom_bind_rx_buffers_inv _ _ _ _ _ _ H). Qed.

Lemma custom_poll_idle (s : CustomNICDriver) :
  read_reg32 registers.RX_HEAD s = rx_head_ s -> poll_rx s = Ok (None, s).
Proof. intros H. unfold poll_rx. now rewrite H, Z.eqb_refl. Qed.

Lemma custom_submit_null (pm : option (Z -> Z)) (data : list Byte.byte)
    (len : Z) (s : CustomNICDriver) :
  len <> 0 -> len <= PACKET_BUFFER_SIZE ->
  tx_buffers_ s !! Z.to_nat (tx_tail_ s) = Some 0 ->
  submit_tx pm data len s = Fault NullPointer.
Proof.
  intros Hpos Hlen Hnull. unfold submit_tx.
  destruct (Z.ltb_spec PACKET_BUFFER_SIZE len); [lia |].
  rewrite (at_index_Ok _ _ _ Hnull), bind_Ok, (memcpy_null _ _ _ Hpos).
  reflexivity.
Qed.

Lemma custom_submit_nothing (pm : option (Z -> Z)) (data : list Byte.byte)
    (s : CustomNICDriver) (buf : Z) (d : TXDescriptor) :
  tx_buffers_ s !! Z.to_nat (tx_tail_ s) = Some buf ->
  tx_ring_ s !! Z.to_nat (tx_tail_ s) = Some d ->
  exists s',
    submit_tx pm data 0 s = Ok (true, s')
    /\ tx_tail_ s' = Z.land (wrap32 (tx_tail_ s + 1)) (TX_RING_SIZE - 1)
    /\ dma_ s' = dma_ s.
Proof.
  intros Hbuf Hd. unfold submit_tx.
  change (PACKET_BUFFER_SIZE <? 0) with false. cbn match.
  rewrite (at_index_Ok _ _ _ Hbuf), bind_Ok, memcpy_nothing, bind_Ok.
  rewrite (at_index_Ok _ _ _ Hd), bind_Ok.
  eexists. split; [reflexivity |]. split; reflexivity.
Qed.

Lemma custom_initialize_tx_side (env : environment) (s : CustomNICDriver) :
  (initialize env s).1 = true ->
  length (tx_buffers_ s) = Z.to_nat TX_RING_SIZE ->
  tx_ring_ (initialize env s).2 = replicate (Z.to_nat TX_RING_SIZE) zero_tx
  /\ length (tx_buffers_ (initialize env s).2) = Z.to_nat TX_RING_SIZE
  /\ tx_tail_ (initialize env s).2 = tx_tail_ s
  /\ dma_ (initialize env s).2 = dma_ s
  /\ forall i : nat, (i < Z.to_nat TX_RING_SIZE)%nat ->
       tx_buffers_ (initialize env s).2 !! i
       = Some (allocate_dma_memory (tx_buffer_maps env i)).
Proof.
  intros Hok Htxb.
  destruct (custom_initialize_success env s Hok)
    as (r & s1 & _ & _ & _ & Hbind & Hinit).
  destruct (custom_bind_rx_buffers_fresh _ _ _ _ _ _ _ _ _ Hbind)
    as (_ & (_ & Hd & Htr & Htb & _ & Ht & _) & _).
  destruct (custom_bind_tx_buffers_spec env s1)
    as ((_ & Hd2 & _ & Ht2 & _ & _ & Htt2 & _) & Hl2 & Hin2).
  pose proof (custom_programmed_fields (pagemap env)
                (allocate_dma_memory (rx_ring_maps env))
                (allocate_dma_memory (tx_ring_maps env))
                (bind_tx_buffers env s1)) as H.
  cbn zeta in H. rewrite <- Hinit in H.
  destruct H as ((_ & Ft & Fd & _) & (_ & Ftr & _ & Ftb) & _).
  remember (initialize env s).2 as s' eqn:Hs'. clear Hs' Hinit Hok Hbind.
  rewrite Ftr, Ftb, Ft, Fd, Ht2, Hl2, Htt2, Hd2, Htr, Htb, Ht, Hd.
  split; [reflexivity |]. split; [exact Htxb |].
  split; [reflexivity |]. split; [reflexivity |].
  intros i Hi. apply Hin2; [exact Hi |]. rewrite Htb, Htxb. exact Hi.
Qed.

Lemma custom_initialize_tx_wf (env : environment) (s : CustomNICDriver) :
  (initialize env s).1 = true ->
  length (tx_buffers_ s) = Z.to_nat TX_RING_SIZE ->
  0 <= tx_tail_ s < TX_RING_SIZE ->
  (forall i : nat, (i < Z.to_nat TX_RING_SIZE)%nat ->
     allocate_dma_memory (tx_buffer_maps env i) <> 0) ->
  Ring.custom_tx_wf (initialize env s).2.
Proof.
  intros Hok Htxb Htail Htx.
  destruct (custom_initialize_tx_side env s Hok Htxb)
    as (Hring & Hlen & Ht & _ & Hbufs).
  remember (initialize env s).2 as s' eqn:Hs'. clear Hs' Hok.
  unfold Ring.custom_tx_wf. rewrite Hring, Hlen, Ht, length_replicate.
  split; [reflexivity |]. split; [reflexivity |]. split; [| exact Htail].
  apply Forall_lookup_2. intros i p Hp.
  assert (i < Z.to_nat TX_RING_SIZE)%nat as Hi.
  { apply lookup_lt_Some in Hp. rewrite Hlen in Hp. exact Hp. }
  rewrite (Hbufs i Hi) in Hp. injection Hp as <-. exact (Htx i Hi).
Qed.

(** X13. When [initialize] succeeds on a driver whose two pointer arrays
    have their 512 entries, the driver is marked initialised; RX buffer
    [i] is the (non-null) result of its allocation and RX descriptor [i]
    carries the physical address of that buffer with zero lengths and
    flags; the TX ring is all zero and TX buffer [i] is whatever its
    allocation returned; the base registers hold the two halves of the
    rings' physical addresses, the length registers 512 * 32, both head
    registers and the TX tail 0 and the RX tail 511.  The software cursors
    are not reset.  On a driver whose RX cursor is 0, a [poll_rx] made
    before the NIC moves its head reports "no packet". *)
Theorem custom_initialize_arms_rings (env : environment) (s : CustomNICDriver) :
  (initialize env s).1 = true ->
  length (rx_buffers_ s) = Z.to_nat RX_RING_SIZE ->
  length (tx_buffers_ s) = Z.to_nat TX_RING_SIZE ->
  let s' := (initialize env s).2 in
  initialized_ s' = true
  /\ length (rx_ring_ s') = Z.to_nat RX_RING_SIZE
  /\ length (rx_buffers_ s') = Z.to_nat RX_RING_SIZE
  /\ length (tx_buffers_ s') = Z.to_nat TX_RING_SIZE
  /\ (forall i : nat, (i < Z.to_nat RX_RING_SIZE)%nat ->
        allocate_dma_memory (rx_buffer_maps env i) <> 0
        /\ rx_buffers_ s' !! i = Some (allocate_dma_memory (rx_buffer_maps env i))
        /\ rx_ring_ s' !! i
           = Some (arm_rx_desc
                     (virt_to_phys (pagemap env)
                        (allocate_dma_memory (rx_buffer_maps env i)))
                     zero_rx))
  /\ tx_ring_ s' = replicate (Z.to_nat TX_RING_SIZE) zero_tx
  /\ (forall i : nat, (i < Z.to_nat TX_RING_SIZE)%nat ->
        tx_buffers_ s' !! i = Some (allocate_dma_memory (tx_buffer_maps env i)))
  /\ read_reg32 RX_BASE_LO s' + 2 ^ 32 * read_reg32 RX_BASE_HI s'
     = virt_to_phys (pagemap env) (allocate_dma_memory (rx_ring_maps env))
  /\ read_reg32 TX_BASE_LO s' + 2 ^ 32 * read_reg32 TX_BASE_HI s'
     = virt_to_phys (pagemap env) (allocate_dma_memory (tx_ring_maps env))
  /\ read_reg32 RX_LEN s' = RX_RING_SIZE * 32
  /\ read_reg32 TX_LEN s' = TX_RING_SIZE * 32
  /\ read_reg32 registers.RX_HEAD s' = 0
  /\ read_reg32 registers.RX_TAIL s' = RX_RING_SIZE - 1
  /\ read_reg32 registers.TX_HEAD s' = 0
  /\ read_reg32 registers.TX_TAIL s' = 0
  /\ rx_head_ s' = rx_head_ s
  /\ tx_tail_ s' = tx_tail_ s
  /\ (rx_head_ s = 0 -> poll_rx s' = Ok (None, s')).
Proof.
  intros Hok Hrxb Htxb. cbn zeta.
  destruct (custom_initialize_success env s Hok)
    as (r & s1 & _ & _ & _ & Hbind & Hinit).
  destruct (custom_bind_rx_buffers_fresh _ _ _ _ _ _ _ _ _ Hbind)
    as (Hiff & (_ & _ & Htr & Htb & Hh & Ht & _) & Hlr & Hlb & Hin).
  rewrite length_replicate in Hlr.
  destruct (custom_bind_tx_buffers_spec env s1)
    as ((_ & _ & Hr2 & Ht2 & Hb2 & Hh2 & Htt2 & _) & Hl2 & Hin2).
  pose proof (custom_programmed_fields (pagemap env)
                (allocate_dma_memory (rx_ring_maps env))
                (allocate_dma_memory (tx_ring_maps env))
                (bind_tx_buffers env s1)) as H.
  cbn zeta in H. rewrite <- Hinit in H.
  destruct H as ((Fh & Ft & _ & Fi) & (Frr & Ftr & Frb & Ftb) & Freg).
  pose proof (custom_program_rings_spec (pagemap env)
                (allocate_dma_memory (rx_ring_maps env))
                (allocate_dma_memory (tx_ring_maps env))
                (bind_tx_buffers env s1)) as H.
  cbn zeta in H.
  destruct H as (_ & Hrbase & Htbase & Hrlen & Htlen & Hrhd & Hrtl & Hthd & Httl).
  remember (initialize env s).2 as s' eqn:Hs'. clear Hs' Hinit Hok Hbind.
  rewrite !Freg, Fh, Ft, Fi, Frr, Ftr, Frb, Ftb.
  rewrite Hr2, Ht2, Hb2, Hh2, Htt2, Hl2, Htr, Htb, Hh, Ht, Hlr, Hlb.
  assert (forall i : nat, (i < Z.to_nat RX_RING_SIZE)%nat ->
            rx_ring_ s1 !! i
            = Some (arm_rx_desc
                      (virt_to_phys (pagemap env)
                         (allocate_dma_memory (rx_buffer_maps env i)))
                      zero_rx)) as Hdesc.
  { intros i Hi.
    destruct (Hin eq_refl i ltac:(lia) ltac:(lia)) as [_ Hd].
    now rewrite Hd, lookup_replicate_2 by exact Hi. }
  split; [reflexivity |]. split; [reflexivity |].
  split; [exact Hrxb |]. split; [exact Htxb |].
  split.
  { intros i Hi. split; [apply (proj1 Hiff eq_refl i Hi) |].
    split; [apply (Hin eq_refl i); lia | now apply Hdesc]. }
  split; [reflexivity |].
  split.
  { intros i Hi. apply Hin2; [exact Hi |]. rewrite Htb. lia. }
  split; [exact Hrbase |]. split; [exact Htbase |].
  split; [exact Hrlen |]. split; [exact Htlen |].
  split; [exact Hrhd |]. split; [exact Hrtl |].
  split; [exact Hthd |]. split; [exact Httl |].
  split; [reflexivity |]. split; [reflexivity |].
  intros Hzero. apply custom_poll_idle.
  now rewrite Freg, Hrhd, Fh, Hh2, Hh.
Qed.

(** X14. A TX buffer whose allocation failed goes unnoticed by
    [initialize]: when [initialize] has succeeded and the allocation for
    the slot under the TX cursor had failed, the buffer pointer of that
    slot is null.  [submit_tx] of a frame of 1 to 2048 bytes then copies
    through the null pointer instead of returning; [submit_tx] of an empty
    frame, for which nothing is copied, returns [true], advances the cursor
    and leaves the packet memory as it was. *)
Theorem custom_unchecked_tx_buffer (env : environment) (s : CustomNICDriver)
    (pm : option (Z -> Z)) (data : list Byte.byte) (len : Z) :
  (initialize env s).1 = true ->
  length (tx_buffers_ s) = Z.to_nat TX_RING_SIZE ->
  0 <= tx_tail_ s < TX_RING_SIZE ->
  allocate_dma_memory (tx_buffer_maps env (Z.to_nat (tx_tail_ s))) = 0 ->
  tx_buffers_ (initialize env s).2 !! Z.to_nat (tx_tail_ (initialize env s).2)
  = Some 0
  /\ (0 < len <= PACKET_BUFFER_SIZE ->
      submit_tx pm data len (initialize env s).2 = Fault NullPointer)
  /\ exists s'',
       submit_tx pm data 0 (initialize env s).2 = Ok (true, s'')
       /\ tx_tail_ s'' = (tx_tail_ s + 1) mod TX_RING_SIZE
       /\ dma_ s'' = dma_ s.
Proof.
  intros Hok Htxb Htail Hnull.
  destruct (custom_initialize_tx_side env s Hok Htxb)
    as (Hring & _ & Ht & Hd & Hbufs).
  remember (initialize env s).2 as s' eqn:Hs'. clear Hs' Hok.
  assert (Z.to_nat (tx_tail_ s) < Z.to_nat TX_RING_SIZE)%nat as Hi
    by (unfold TX_RING_SIZE in *; lia).
  assert (tx_buffers_ s' !! Z.to_nat (tx_tail_ s') = Some 0) as Hbuf.
  { rewrite Ht, <- Hnull. exact (Hbufs _ Hi). }
  split; [exact Hbuf |]. split.
  - intros [Hpos Hlen]. apply custom_submit_null; [lia | exact Hlen | exact Hbuf].
  - assert (tx_ring_ s' !! Z.to_nat (tx_tail_ s') = Some zero_tx) as Hdesc.
    { rewrite Hring, Ht. apply lookup_replicate_2. exact Hi. }
    destruct (custom_submit_nothing pm data s' 0 zero_tx Hbuf Hdesc)
      as (s'' & Hrun & Htail' & Hdma).
    exists s''. split; [exact Hrun |]. split; [| congruence].
    rewrite Htail', Ht. unfold TX_RING_SIZE in *.
    change (512 - 1) with (2 ^ 9 - 1). rewrite (mask_next 9) by lia.
    reflexivity.
Qed.

(** X24. When [initialize] succeeds on a driver whose pointer arrays have
    their 512 entries and whose cursors lie inside the rings, and every one
    of the 512 TX packet-buffer allocations succeeded as well, the driver
    is well formed: rings and arrays have 512 entries, the cursors lie
    inside them and no TX buffer is null. *)
Theorem custom_initialize_establishes_wf (env : environment) (s : CustomNICDriver) :
  (initialize env s).1 = true ->
  length (rx_buffers_ s) = Z.to_nat RX_RING_SIZE ->
  length (tx_buffers_ s) = Z.to_nat TX_RING_SIZE ->
  0 <= rx_head_ s < RX_RING_SIZE ->
  0 <= tx_tail_ s < TX_RING_SIZE ->
  (forall i : nat, (i < Z.to_nat TX_RING_SIZE)%nat ->
     allocate_dma_memory (tx_buffer_maps env i) <> 0) ->
  CustomLoop.wf (initialize env s).2.
Proof.
  intros Hok Hrxb Htxb Hhead Htail Htx.
  destruct (custom_initialize_success env s Hok)
    as (r & s1 & _ & _ & _ & Hbind & Hinit).
  destruct (custom_bind_rx_buffers_fresh _ _ _ _ _ _ _ _ _ Hbind)
    as (_ & (_ & _ & Htr & Htb & Hh & Ht & _) & Hlr & Hlb & _).
  rewrite length_replicate in Hlr.
  destruct (custom_bind_tx_buffers_spec env s1)
    as ((_ & _ & Hr2 & Ht2 & Hb2 & Hh2 & Htt2 & _) & Hl2 & Hin2).
  pose proof (custom_programmed_fields (pagemap env)
                (allocate_dma_memory (rx_ring_maps env))
                (allocate_dma_memory (tx_ring_maps env))
                (bind_tx_buffers env s1)) as H.
  cbn zeta in H. rewrite <- Hinit in H.
  destruct H as ((Fh & Ft & _) & (Frr & Ftr & Frb & Ftb) & _).
  remember (initialize env s).2 as s' eqn:Hs'. clear Hs' Hinit Hok Hbind.
  unfold CustomLoop.wf, CustomLoop.rx_wf, Ring.custom_tx_wf.
  rewrite Fh, Ft, Frr, Ftr, Frb, Ftb.
  rewrite Hr2, Ht2, Hb2, Hh2, Htt2, Hl2, Htr, Htb, Hh, Ht, Hlr, Hlb.
  rewrite length_replicate.
  split; [split; [reflexivity | split; [exact Hrxb | exact Hhead]] |].
  split; [reflexivity |]. split; [exact Htxb |]. split; [| exact Htail].
  apply Forall_lookup_2. intros i p Hp.
  assert (i < Z.to_nat TX_RING_SIZE)%nat as Hi.
  { apply lookup_lt_Some in Hp. rewrite Hl2, Htb, Htxb in Hp. exact Hp. }
  rewrite Hin2 in Hp by (try rewrite Htb, Htxb; exact Hi).
  injection Hp as <-. now apply Htx.
Qed.

End CustomBringUp.

Lemma custom_initialize_arms_rings_witness :
  Custom.initialized_
    (CustomInit.initialize CustomSamples.bring_up CustomSamples.fresh).2 = true
  /\ Custom.read_reg32 Custom.registers.RX_TAIL
       (CustomInit.initialize CustomSamples.bring_up CustomSamples.fresh).2 = 511
  /\ Custom.tx_buffers_
       (CustomInit.initialize CustomSamples.bring_up CustomSamples.fresh).2 !! 0%nat
     = Some 0.
Proof.
  destruct (custom_initialize_arms_rings CustomSamples.bring_up CustomSamples.fresh)
    as (Hi & _ & _ & _ & _ & _ & Htx & _ & _ & _ & _ & _ & Htail & _).
  - vm_compute. reflexivity.
  - vm_compute. reflexivity.
  - vm_compute. reflexivity.
  - split; [exact Hi |]. split; [exact Htail |].
    exact (Htx 0%nat ltac:(vm_compute; lia)).
Defined.

Lemma custom_unchecked_tx_buffer_witness :
  Custom.submit_tx None Samples.hello 5
    (CustomInit.initialize CustomSamples.bring_up CustomSamples.fresh).2
  = Fault NullPointer
  /\ exists s'',
       Custom.submit_tx None Samples.hello 0
         (CustomInit.initialize CustomSamples.bring_up CustomSamples.fresh).2
       = Ok (true, s'')
       /\ Custom.tx_tail_ s'' = 1.
Proof.
  destruct (custom_unchecked_tx_buffer CustomSamples.bring_up CustomSamples.fresh
              None Samples.hello 5)
    as (_ & Hfault & s'' & Hrun & Htail & _).
  - vm_compute. reflexivity.
  - vm_compute. reflexivity.
  - vm_compute. split; congruence.
  - vm_compute. reflexivity.
  - split.
    + apply Hfault. vm_compute. split; [reflexivity | congruence].
    + exists s''. split; [exact Hrun | exact Htail].
Defined.

Lemma custom_initialize_establishes_wf_witness :
  CustomLoop.wf
    (CustomInit.initialize CustomSamples.all_allocated CustomSamples.fresh).2.
Proof.
  apply custom_initialize_establishes_wf.
  - vm_compute. reflexivity.
  - vm_compute. reflexivity.
  - vm_compute. reflexivity.
  - vm_compute. split; congruence.
  - vm_compute. split; congruence.
  - intros i Hi. unfold CustomSamples.all_allocated, CustomInit.tx_buffer_maps,
      CustomInit.allocate_dma_memory. cbn [fst snd].
    assert (Z.of_nat i < 512) by (unfold Custom.TX_RING_SIZE in Hi; lia).
    destruct (Z.eqb_spec (0x20000000 + Z.of_nat i * 2048) CustomInit.MAP_FAILED)
      as [E | _]; [unfold CustomInit.MAP_FAILED in E; lia |].
    destruct (Z.eqb_spec (0x20000000 + Z.of_nat i * 2048) CustomInit.MAP_FAILED)
      as [E | _]; [unfold CustomInit.MAP_FAILED in E; lia |].
    lia.
Defined.

(** ** Transmit backpressure of the two ring drivers *)

Lemma all_allocated_tx_buffers (i : nat) :
  (i < Z.to_nat Custom.TX_RING_SIZE)%nat ->
  CustomInit.allocate_dma_memory
    (CustomInit.tx_buffer_maps CustomSamples.all_allocated i) <> 0.
Proof.
  intros Hi. unfold CustomSamples.all_allocated, CustomInit.tx_buffer_maps,
    CustomInit.allocate_dma_memory. cbn [fst snd].
  assert (Z.of_nat i < 512) by (unfold Custom.TX_RING_SIZE in Hi; lia).
  destruct (Z.eqb_spec (0x20000000 + Z.of_nat i * 2048) CustomInit.MAP_FAILED)
    as [E | _]; [unfold CustomInit.MAP_FAILED in E; lia |].
  destruct (Z.eqb_spec (0x20000000 + Z.of_nat i * 2048) CustomInit.MAP_FAILED)
    as [E | _]; [unfold CustomInit.MAP_FAILED in E; lia |].
  lia.
Qed.

Lemma custom_initialized_submit_all (env : CustomInit.environment)
    (s : Custom.CustomNICDriver) (pm : option (Z -> Z))
    (frames : list (list Byte.byte * Z)) :
  (CustomInit.initialize env s).1 = true ->
  length (Custom.tx_buffers_ s) = Z.to_nat Custom.TX_RING_SIZE ->
  0 <= Custom.tx_tail_ s < Custom.TX_RING_SIZE ->
  (forall i : nat, (i < Z.to_nat Custom.TX_RING_SIZE)%nat ->
     CustomInit.allocate_dma_memory (CustomInit.tx_buffer_maps env i) <> 0) ->
  Forall Ring.custom_valid_frame frames ->
  exists s',
    Runs.submit_all pm frames (CustomInit.initialize env s).2
    = Ok (replicate (length frames) true, s').
Proof.
  intros Hok Htxb Htail Htx Hvalid.
  pose proof (custom_initialize_tx_wf env s Hok Htxb Htail Htx) as Hwf.
  remember (CustomInit.initialize env s).2 as s0 eqn:Hs0. clear Hs0 Hok.
  exact (custom_submit_all_ok pm frames s0 Hwf Hvalid).
Qed.

(** C2 (as amended). For [BroadcomNetXtreme::send_packet]: the full test of
    the code is [(tail + 1) mod N == head]; a call that finds the ring full
    runs one reclaim pass and, if the ring is still full, returns [false]
    with the driver state exactly as it was; a call returns [false] only
    on a full ring whose oldest descriptor is not complete, and then it has
    changed nothing; and from an empty ring, with no completion in
    between, [N] submissions of valid-size frames give [N - 1] times
    [true] followed by [false].
    [CustomNICDriver::submit_tx] keeps no head cursor and makes no full
    test: a call that returns gives [false] exactly for a frame longer
    than [PACKET_BUFFER_SIZE], and then it has changed nothing.  On a
    driver whose TX ring and 512 TX buffers are in place, and so on a
    driver that [initialize] has just brought up with every one of the 512
    TX buffer allocations successful (which [initialize] does not check),
    every submission of a valid-size frame returns [true], however many
    were submitted before. *)
Theorem tx_ring_backpressure :
  (forall s : Broadcom.BroadcomNetXtreme,
      Ring.tx_wf s ->
      Z.land (wrap32 (Broadcom.tx_tail_ s + 1)) (Broadcom.TX_RING_SIZE - 1)
      = (Broadcom.tx_tail_ s + 1) mod Broadcom.TX_RING_SIZE)
  /\
  (forall (s : Broadcom.BroadcomNetXtreme) (data : list Byte.byte) (len : Z),
      Ring.tx_wf s ->
      (Broadcom.tx_tail_ s + 1) mod Broadcom.TX_RING_SIZE = Broadcom.tx_head_ s ->
      exists s1,
        Broadcom.reclaim_tx_descriptors s = Ok s1
        /\ Broadcom.send_packet data len s
           = if (Broadcom.tx_tail_ s + 1) mod Broadcom.TX_RING_SIZE
                =? Broadcom.tx_head_ s1
             then Ok (false, s)
             else Broadcom.send_packet_fill
                    ((Broadcom.tx_tail_ s + 1) mod Broadcom.TX_RING_SIZE)
                    data len s1)
  /\
  (forall (s s' : Broadcom.BroadcomNetXtreme) (data : list Byte.byte) (len : Z),
      Ring.tx_wf s ->
      Broadcom.send_packet data len s = Ok (false, s') ->
      s' = s
      /\ (Broadcom.tx_tail_ s + 1) mod Broadcom.TX_RING_SIZE = Broadcom.tx_head_ s
      /\ Ring.tx_done (Broadcom.tx_ring_ s) (Broadcom.tx_head_ s) = false)
  /\
  (forall (s : Broadcom.BroadcomNetXtreme) (data : list Byte.byte) (len : Z),
      Ring.tx_wf s ->
      (Broadcom.tx_tail_ s + 1) mod Broadcom.TX_RING_SIZE = Broadcom.tx_head_ s ->
      Ring.tx_done (Broadcom.tx_ring_ s) (Broadcom.tx_head_ s) = false ->
      Broadcom.send_packet data len s = Ok (false, s))
  /\
  (forall (s : Broadcom.BroadcomNetXtreme) (frames : list (list Byte.byte * Z)),
      Ring.tx_wf s ->
      Broadcom.tx_head_ s = Broadcom.tx_tail_ s ->
      length frames = Z.to_nat Broadcom.TX_RING_SIZE ->
      Forall Ring.valid_frame frames ->
      exists s',
        Runs.send_all frames s
        = Ok (replicate (Z.to_nat (Broadcom.TX_RING_SIZE - 1)) true ++ [false], s'))
  /\
  (forall (pagemap : option (Z -> Z)) (s : Custom.CustomNICDriver)
          (frames : list (list Byte.byte * Z)),
      Ring.custom_tx_wf s ->
      Forall Ring.custom_valid_frame frames ->
      exists s',
        Runs.submit_all pagemap frames s
        = Ok (replicate (length frames) true, s'))
  /\
  (forall (pagemap : option (Z -> Z)) (s s' : Custom.CustomNICDriver)
          (data : list Byte.byte) (len : Z) (r : bool),
      0 <= len ->
      Custom.submit_tx pagemap data len s = Ok (r, s') ->
      r = negb (Custom.PACKET_BUFFER_SIZE <? len) /\ (r = false -> s' = s))
  /\
  (forall (env : CustomInit.environment) (s : Custom.CustomNICDriver)
          (pagemap : option (Z -> Z)) (frames : list (list Byte.byte * Z)),
      (CustomInit.initialize env s).1 = true ->
      length (Custom.tx_buffers_ s) = Z.to_nat Custom.TX_RING_SIZE ->
      0 <= Custom.tx_tail_ s < Custom.TX_RING_SIZE ->
      (forall i : nat, (i < Z.to_nat Custom.TX_RING_SIZE)%nat ->
         CustomInit.allocate_dma_memory (CustomInit.tx_buffer_maps env i) <> 0) ->
      Forall Ring.custom_valid_frame frames ->
      exists s',
        Runs.submit_all pagemap frames (CustomInit.initialize env s).2
        = Ok (replicate (length frames) true, s')).
Proof.
  split; [exact tx_next_tail |].
  split; [exact broadcom_full_ring_submit |].
  split; [exact send_packet_false_inv |].
  split; [exact send_packet_full |].
  split; [exact broadcom_fill_empty_ring |].
  split; [intros pagemap s frames; apply custom_submit_all_ok |].
  split; [intros pagemap s s' data len r _; apply custom_submit_result |].
  exact custom_initialized_submit_all.
Qed.

Lemma tx_ring_backpressure_witness :
  (exists s',
     Runs.send_all (replicate 1024 (Scenario.frame 64)) Scenario.broadcom_idle
     = Ok (replicate (Z.to_nat (Broadcom.TX_RING_SIZE - 1)) true ++ [false], s'))
  /\ (exists s',
        Runs.submit_all None (replicate 600 (Scenario.frame 64))
          (CustomInit.initialize CustomSamples.all_allocated CustomSamples.fresh).2
        = Ok (replicate (length (replicate 600 (Scenario.frame 64))) true, s')).
Proof.
  destruct tx_ring_backpressure as (_ & _ & _ & _ & Hfill & _ & _ & Hinit).
  split.
  - apply Hfill.
    + unfold Ring.tx_wf. vm_compute. repeat split; congruence.
    + reflexivity.
    + reflexivity.
    + apply Forall_replicate. unfold Ring.valid_frame. vm_compute.
      repeat split; congruence.
  - apply Hinit.
    + vm_compute. reflexivity.
    + vm_compute. reflexivity.
    + vm_compute. split; congruence.
    + exact all_allocated_tx_buffers.
    + apply Forall_replicate. unfold Ring.custom_valid_frame. vm_compute.
      repeat split; congruence.
Defined.

(** C2, the claim as worded fails on [CustomNICDriver]: on a driver that
    [initialize] has just brought up, with its ring of capacity 512 empty
    and no completion reported, the 512th consecutive submission is
    accepted like the 511 before it. *)
Lemma tx_ring_backpressure_counterexample :
  (CustomInit.initialize CustomSamples.all_allocated CustomSamples.fresh).1 = true
  /\ exists s',
       Runs.submit_all None (replicate 512 (Scenario.frame 64))
         (CustomInit.initialize CustomSamples.all_allocated CustomSamples.fresh).2
       = Ok (replicate 512 true, s').
Proof.
  split; [vm_compute; reflexivity |].
  apply (custom_initialized_submit_all CustomSamples.all_allocated
           CustomSamples.fresh None (replicate 512 (Scenario.frame 64))).
  - vm_compute. reflexivity.
  - vm_compute. reflexivity.
  - vm_compute. split; congruence.
  - exact all_allocated_tx_buffers.
  - apply Forall_replicate. unfold Ring.custom_valid_frame. vm_compute.
    repeat split; congruence.
Qed.

(** ** Data path of CustomNICDriver *)

Section CustomDataPath.

Import Custom CustomInit CustomLoop.

Variable pagemap : option (Z -> Z).

(** X15. A [submit_tx] of a frame that fits a buffer returns [true] and
    publishes the frame in the slot under the old tail: the descriptor
    carries the physical address of the slot's buffer and the command word
    [len << 16 | 1], from which the length reads back as the upper part
    and whose bit 0 (end of packet) is set; [olinfo_status] is cleared;
    the first [len] bytes of the buffer are the caller's bytes and no byte
    outside them is written; the TX tail register holds the new tail
    cursor; the RX side is not touched. *)
Theorem custom_submit_publishes_frame (s : CustomNICDriver)
    (data : list Byte.byte) (len : Z) :
  Ring.custom_tx_wf s ->
  0 <= len <= PACKET_BUFFER_SIZE ->
  len <= Z.of_nat (length data) ->
  exists s' d buf,
    submit_tx pagemap data len s = Ok (true, s')
    /\ tx_buffers_ s !! Z.to_nat (tx_tail_ s) = Some buf
    /\ tx_ring_ s' !! Z.to_nat (tx_tail_ s) = Some d
    /\ tx_buffer_addr d = virt_to_phys pagemap buf
    /\ cmd_type_len d = len * 2 ^ 16 + 1
    /\ cmd_type_len d / 2 ^ 16 = len
    /\ Z.testbit (cmd_type_len d) 0 = true
    /\ olinfo_status d = 0
    /\ (forall i : nat, Z.of_nat i < len ->
          dma_ s' !! (buf + Z.of_nat i) = data !! i)
    /\ (forall a, a < buf \/ buf + len <= a -> dma_ s' !! a = dma_ s !! a)
    /\ tx_tail_ s' = (tx_tail_ s + 1) mod TX_RING_SIZE
    /\ read_reg32 registers.TX_TAIL s' = tx_tail_ s'
    /\ rx_ring_ s' = rx_ring_ s /\ rx_buffers_ s' = rx_buffers_ s
    /\ rx_head_ s' = rx_head_ s /\ tx_buffers_ s' = tx_buffers_ s.
Proof.
  intros (Hring & Hbufs & Hnz & Ht) Hlen Hdata.
  unfold submit_tx.
  destruct (Z.ltb_spec PACKET_BUFFER_SIZE len); [lia |].
  destruct (lookup_lt_is_Some_2 (tx_buffers_ s) (Z.to_nat (tx_tail_ s)))
    as [buf Hbuf]; [rewrite Hbufs; unfold TX_RING_SIZE in *; lia |].
  destruct (lookup_lt_is_Some_2 (tx_ring_ s) (Z.to_nat (tx_tail_ s)))
    as [d0 Hd0]; [rewrite Hring; unfold TX_RING_SIZE in *; lia |].
  rewrite (at_index_Ok _ _ _ Hbuf), bind_Ok.
  pose proof (Forall_lookup_1 _ _ _ _ Hnz Hbuf) as Hbuf0. cbn beta in Hbuf0.
  rewrite (memcpy_Ok _ _ _ _ Hbuf0) by lia.
  rewrite bind_Ok, (at_index_Ok _ _ _ Hd0), bind_Ok.
  unfold TX_RING_SIZE in *. change (512 - 1) with (2 ^ 9 - 1).
  rewrite (mask_next 9) by lia. change (2 ^ 9) with 512.
  assert (Z.to_nat (tx_tail_ s) < length (tx_ring_ s))%nat as Hin
    by (rewrite Hring; lia).
  assert (length (take (Z.to_nat len) data) = Z.to_nat len) as Htake
    by (rewrite length_take; lia).
  assert (wrap64 (Z.lor (Z.shiftl len 16) (Z.shiftl 1 0)) = len * 2 ^ 16 + 1)
    as Hword.
  { change (Z.shiftl 1 0) with 1.
    rewrite lor_shiftl_add by (change (2 ^ 16) with 65536; lia).
    unfold wrap64. apply wrap_small. unfold PACKET_BUFFER_SIZE in *.
    change (2 ^ 16) with 65536. change (2 ^ 64) with 18446744073709551616. lia. }
  exists
    {| bar0_ := reg_write (bar0_ s) registers.TX_TAIL ((tx_tail_ s + 1) mod 512);
       dma_ := store_bytes (dma_ s) buf (take (Z.to_nat len) data);
       rx_ring_ := rx_ring_ s;
       tx_ring_ :=
         <[Z.to_nat (tx_tail_ s) :=
             {| tx_buffer_addr := virt_to_phys pagemap buf;
                cmd_type_len := wrap64 (Z.lor (Z.shiftl len 16) (Z.shiftl 1 0));
                olinfo_status := 0; tx_reserved := tx_reserved d0 |}]>
           (tx_ring_ s);
       rx_buffers_ := rx_buffers_ s; tx_buffers_ := tx_buffers_ s;
       rx_head_ := rx_head_ s; tx_tail_ := (tx_tail_ s + 1) mod 512;
       initialized_ := initialized_ s |}.
  exists {| tx_buffer_addr := virt_to_phys pagemap buf;
            cmd_type_len := wrap64 (Z.lor (Z.shiftl len 16) (Z.shiftl 1 0));
            olinfo_status := 0; tx_reserved := tx_reserved d0 |}, buf.
  split; [reflexivity |]. split; [exact Hbuf |].
  cbn [tx_ring_ dma_ bar0_ tx_tail_ rx_ring_ rx_buffers_ rx_head_ tx_buffers_].
  split; [apply list_lookup_insert_eq; exact Hin |].
  cbn [tx_buffer_addr cmd_type_len olinfo_status]. rewrite Hword.
  change (2 ^ 16) with 65536.
  split; [reflexivity |]. split; [reflexivity |].
  split; [Z.div_mod_to_equations; lia |].
  split.
  { rewrite Z.bit0_odd. replace (len * 65536 + 1) with (1 + 2 * (len * 32768))
      by lia.
    now rewrite Z.odd_add_mul_2. }
  split; [reflexivity |]. split.
  { intros i Hi. rewrite store_bytes_inside by lia. apply lookup_take_lt. lia. }
  split.
  { intros a [Ha | Ha]; [now apply store_bytes_below |].
    apply store_bytes_above. lia. }
  split; [reflexivity |]. split; [| repeat split].
  unfold read_reg32, reg_read, reg_write. cbn [bar0_].
  rewrite lookup_insert_eq.
  cbn [default]. unfold id, wrap32. apply wrap_small.
  pose proof (Z.mod_pos_bound (tx_tail_ s + 1) 512 ltac:(lia)).
  change (2 ^ 32) with 4294967296. lia.
Qed.

Lemma custom_submit_registers (s s' : CustomNICDriver) (data : list Byte.byte)
    (len : Z) (b : bool) :
  submit_tx pagemap data len s = Ok (b, s') ->
  (forall o, o <> registers.TX_TAIL -> read_reg32 o s' = read_reg32 o s)
  /\ rx_ring_ s' = rx_ring_ s /\ rx_buffers_ s' = rx_buffers_ s
  /\ rx_head_ s' = rx_head_ s /\ tx_buffers_ s' = tx_buffers_ s.
Proof.
  unfold submit_tx.
  destruct (_ <? _); [intros [= _ <-]; repeat split |].
  destruct (at_index (tx_buffers_ s) (tx_tail_ s)) as [buf | f];
    [rewrite bind_Ok | discriminate].
  destruct (memcpy _ _ _ _) as [m | f]; [rewrite bind_Ok | discriminate].
  destruct (at_index (tx_ring_ s) (tx_tail_ s)) as [d | f];
    [rewrite bind_Ok | discriminate].
  intros [= _ <-]. split; [| repeat split].
  intros o Ho. unfold read_reg32, reg_read, reg_write. cbn [bar0_].
  now rewrite lookup_insert_ne by congruence.
Qed.

Lemma custom_rx_slot_exists (s : CustomNICDriver) (i : Z) :
  rx_wf s -> 0 <= i < RX_RING_SIZE ->
  exists d p,
    rx_ring_ s !! Z.to_nat i = Some d /\ rx_buffers_ s !! Z.to_nat i = Some p.
Proof.
  intros (Hr & Hb & _) Hi.
  destruct (lookup_lt_is_Some_2 (rx_ring_ s) (Z.to_nat i)) as [d Hd];
    [rewrite Hr; lia |].
  destruct (lookup_lt_is_Some_2 (rx_buffers_ s) (Z.to_nat i)) as [p Hp];
    [rewrite Hb; lia |].
  now exists d, p.
Qed.

Lemma custom_poll_step_done (s : CustomNICDriver) :
  rx_wf s ->
  read_reg32 registers.RX_HEAD s <> rx_head_ s ->
  rx_done s (rx_head_ s) = true ->
  exists s',
    poll_rx s = Ok (rx_slot s (rx_head_ s), s')
    /\ rx_wf s'
    /\ rx_head_ s' = (rx_head_ s + 1) mod RX_RING_SIZE
    /\ read_reg32 registers.RX_HEAD s' = read_reg32 registers.RX_HEAD s
    /\ rx_done s' (rx_head_ s) = false
    /\ (forall i, 0 <= i -> i <> rx_head_ s -> rx_done s' i = rx_done s i)
    /\ (forall i, rx_slot s' i = rx_slot s i).
Proof.
  intros Hwf Hhw Hdd. pose proof Hwf as (Hlen & Hblen & Hh).
  destruct (custom_rx_slot_exists s (rx_head_ s) Hwf Hh) as (d & p & Hd & Hp).
  unfold rx_done in Hdd. rewrite Hd in Hdd.
  rewrite (custom_poll_dd s d p Hhw Hd Hdd Hp Hh).
  eexists. split; [unfold rx_slot; rewrite Hd, Hp; reflexivity |].
  assert (Z.to_nat (rx_head_ s) < length (rx_ring_ s))%nat as Hin
    by (rewrite Hlen; unfold RX_RING_SIZE in *; lia).
  unfold rx_wf, rx_done, rx_slot, read_reg32, reg_read.
  cbn [rx_ring_ rx_head_ rx_buffers_ bar0_].
  rewrite length_insert, list_lookup_insert_eq by exact Hin.
  split; [repeat split; try assumption;
          apply Z.mod_pos_bound; unfold RX_RING_SIZE; lia |].
  split; [reflexivity |].
  split; [now rewrite lookup_insert_ne by (vm_compute; congruence) |].
  split; [reflexivity |]. split.
  - intros i Hi Hne. rewrite list_lookup_insert_ne by lia. reflexivity.
  - intros i. destruct (Nat.eq_dec (Z.to_nat (rx_head_ s)) (Z.to_nat i)) as [E | E].
    + rewrite <- E, list_lookup_insert_eq, Hd by exact Hin. reflexivity.
    + now rewrite list_lookup_insert_ne by exact E.
Qed.

Lemma custom_poll_all_S (n : nat) (s s1 : CustomNICDriver) (r : option (Z * Z)) :
  poll_rx s = Ok (r, s1) ->
  poll_all (S n) s = (r' ← poll_all n s1; Ok (r :: r'.1, r'.2)).
Proof. intros H. cbn [poll_all]. now rewrite H, bind_Ok. Qed.

Lemma custom_poll_all_idle (n : nat) (s : CustomNICDriver) :
  read_reg32 registers.RX_HEAD s = rx_head_ s ->
  poll_all n s = Ok (replicate n None, s).
Proof.
  intros Hidle. induction n as [| n IH]; [reflexivity |].
  rewrite (custom_poll_all_S _ _ _ _ (custom_poll_idle s Hidle)), IH, bind_Ok.
  reflexivity.
Qed.

(** X16. [poll_rx] delivers in ring order and only up to the NIC's head
    register.  When that register is [k] slots ahead of the software
    cursor ([k] below 512) and the [k] descriptors in between carry the DD
    bit, the next [k] calls hand out exactly those slots, each once, with
    its own buffer pointer and length, and every later call reports "no
    packet".  With [k = 0] this says that nothing is delivered while the
    register equals the cursor, whatever the descriptors hold; that is also
    the state in which the NIC has filled all 512 slots. *)
Theorem custom_poll_fifo (k : nat) :
  forall (s : CustomNICDriver) (later : nat),
    rx_wf s ->
    Z.of_nat k < RX_RING_SIZE ->
    read_reg32 registers.RX_HEAD s = (rx_head_ s + Z.of_nat k) mod RX_RING_SIZE ->
    (forall i, 0 <= i < Z.of_nat k ->
       rx_done s ((rx_head_ s + i) mod RX_RING_SIZE) = true) ->
    exists s',
      poll_all (k + later) s
      = Ok (((fun i => rx_slot s ((rx_head_ s + Z.of_nat i) mod RX_RING_SIZE))
               <$> seq 0 k) ++ replicate later None, s')
      /\ rx_head_ s' = (rx_head_ s + Z.of_nat k) mod RX_RING_SIZE.
Proof.
  induction k as [| k IH]; intros s later Hwf Hk Hhw Hset.
  - pose proof Hwf as (_ & _ & Hh).
    rewrite Z.add_0_r, Z.mod_small in Hhw by exact Hh.
    exists s. cbn [Nat.add seq fmap list_fmap app].
    split; [now apply custom_poll_all_idle |].
    now rewrite Z.add_0_r, Z.mod_small by exact Hh.
  - pose proof Hwf as (_ & _ & Hh).
    destruct (custom_poll_step_done s Hwf)
      as (s1 & Hpoll & Hwf1 & Hh1 & Hhw1 & _ & Hother1 & Hslot1).
    { rewrite Hhw. revert Hh Hk. unfold RX_RING_SIZE.
      Z.div_mod_to_equations. lia. }
    { specialize (Hset 0 ltac:(lia)).
      now rewrite Z.add_0_r, Z.mod_small in Hset by lia. }
    assert (forall i, (rx_head_ s1 + i) mod RX_RING_SIZE
                      = (rx_head_ s + (i + 1)) mod RX_RING_SIZE) as Hshift.
    { intros i. rewrite Hh1, Zplus_mod_idemp_l. f_equal. lia. }
    destruct (IH s1 later Hwf1) as (s' & Hrun & Hh').
    { lia. }
    { rewrite Hhw1, Hhw, Hshift. f_equal. lia. }
    { intros i Hi. rewrite Hshift, Hother1.
      - apply Hset. lia.
      - apply Z.mod_pos_bound. unfold RX_RING_SIZE. lia.
      - revert Hh Hi Hk. unfold RX_RING_SIZE. Z.div_mod_to_equations. lia. }
    exists s'. cbn [Nat.add].
    rewrite (custom_poll_all_S _ _ _ _ Hpoll), Hrun, bind_Ok.
    cbn [fst snd]. split.
    + f_equal. f_equal. cbn [seq fmap list_fmap app].
      rewrite Z.add_0_r, (Z.mod_small (rx_head_ s)) by lia. f_equal. f_equal.
      rewrite <- seq_shift, <- list_fmap_compose.
      apply list_fmap_ext. intros _ i _. cbn. rewrite Hslot1, Hshift.
      do 2 f_equal. lia.
    + rewrite Hh', Hshift. f_equal. lia.
Qed.

Lemma busy_wait_iteration_polls (U : Type) (callback : Z -> Z -> U -> U)
    (u : U) (s : CustomNICDriver) :
  busy_wait_iteration U callback (u, s)
  = (r ← poll_rx s;
     Ok (match r.1 with
         | Some (packet_data, packet_len) => callback packet_data packet_len u
         | None => u
         end, r.2)).
Proof.
  unfold busy_wait_iteration, poll_rx. cbn [fst snd].
  destruct (read_reg32 registers.RX_HEAD s =? rx_head_ s); cbn [negb];
    [now rewrite bind_Ok |].
  destruct (at_index (rx_ring_ s) (rx_head_ s)) as [desc | f];
    [rewrite !bind_Ok | reflexivity].
  destruct (Z.land (status_flags desc) RX_DD_BIT =? 0); cbn [negb];
    [now rewrite bind_Ok |].
  destruct (at_index (rx_buffers_ s) (rx_head_ s)) as [p | f];
    [rewrite !bind_Ok | reflexivity].
  reflexivity.
Qed.

(** X17. [busy_wait_loop] is a loop around [poll_rx]: whatever the NIC
    does between passes, the first [n] passes of the loop invoke the
    callback on exactly the packets, in the order, that [n] calls of
    [poll_rx] by a caller who forwards each received packet would, they
    leave the driver in the same state, and they fail on the same
    accesses. *)
Theorem busy_wait_loop_polls (U : Type) (callback : Z -> Z -> U -> U)
    (nic : nat -> CustomNICDriver -> CustomNICDriver) (n : nat) :
  forall (i : nat) (st : U * CustomNICDriver),
    busy_wait_loop U callback nic i n st = poll_loop U callback nic i n st.
Proof.
  induction n as [| n IH]; intros i [u s]; [reflexivity |].
  cbn [busy_wait_loop poll_loop fst snd].
  rewrite busy_wait_iteration_polls.
  destruct (poll_rx (nic i s)) as [[r s1] | f]; [| reflexivity].
  rewrite !bind_Ok. apply IH.
Qed.

Lemma custom_submit_all_tail (frames : list (list Byte.byte * Z)) :
  forall s : CustomNICDriver,
    Ring.custom_tx_wf s -> Forall Ring.custom_valid_frame frames ->
    exists s',
      Runs.submit_all pagemap frames s = Ok (replicate (length frames) true, s')
      /\ tx_tail_ s' = (tx_tail_ s + Z.of_nat (length frames)) mod TX_RING_SIZE
      /\ read_reg32 registers.TX_HEAD s' = read_reg32 registers.TX_HEAD s.
Proof.
  induction frames as [| [data len] rest IH]; intros s Hwf Hvalid.
  - exists s. split; [reflexivity |]. split; [| reflexivity].
    destruct Hwf as (_ & _ & _ & Ht). cbn [length].
    now rewrite Z.add_0_r, Z.mod_small by exact Ht.
  - apply Forall_cons in Hvalid as [Hf Hvalid].
    destruct (custom_submit_ok pagemap s data len Hwf Hf) as (s1 & Hrun & Hwf1 & Ht1).
    destruct (custom_submit_registers _ _ _ _ _ Hrun) as (Hreg & _).
    destruct (IH s1 Hwf1 Hvalid) as (s' & Hrest & Ht' & Hhd').
    exists s'. cbn [Runs.submit_all].
    rewrite Hrun, bind_Ok. cbn [fst snd]. rewrite Hrest, bind_Ok.
    split; [reflexivity |]. split.
    + rewrite Ht', Ht1, Zplus_mod_idemp_l. f_equal. cbn [length]. lia.
    + rewrite Hhd'. apply Hreg. vm_compute. congruence.
Qed.

(** X18. [poll_tx_completion] compares the NIC's TX head register with the
    software tail only.  Starting from an idle ring (register equal to the
    tail) and with the NIC not moving its head, the call answers [false]
    before anything is submitted, [true] after [n] accepted frames for
    every [n] that is not a multiple of 512, and [false] again once 512
    frames are outstanding; none of the submissions is refused. *)
Theorem poll_tx_completion_counts_modulo_ring (s : CustomNICDriver)
    (frames : list (list Byte.byte * Z)) :
  Ring.custom_tx_wf s -> Forall Ring.custom_valid_frame frames ->
  read_reg32 registers.TX_HEAD s = tx_tail_ s ->
  exists s',
    Runs.submit_all pagemap frames s = Ok (replicate (length frames) true, s')
    /\ poll_tx_completion s'
       = negb (Z.of_nat (length frames) mod TX_RING_SIZE =? 0).
Proof.
  intros Hwf Hvalid Hidle.
  destruct (custom_submit_all_tail frames s Hwf Hvalid) as (s' & Hrun & Ht & Hhd).
  exists s'. split; [exact Hrun |].
  unfold poll_tx_completion. cbn zeta. rewrite Hhd, Hidle, Ht. f_equal.
  destruct Hwf as (_ & _ & _ & Htail).
  destruct (Z.eqb_spec (Z.of_nat (length frames) mod TX_RING_SIZE) 0) as [E | E].
  - apply Z.eqb_eq. revert Htail E. unfold TX_RING_SIZE.
    Z.div_mod_to_equations. lia.
  - apply Z.eqb_neq. revert Htail E. unfold TX_RING_SIZE.
    Z.div_mod_to_equations. lia.
Qed.

Lemma custom_poll_keeps_wf (s : CustomNICDriver) :
  wf s ->
  exists r s',
    poll_rx s = Ok (r, s') /\ wf s'
    /\ (forall o, o <> registers.RX_TAIL -> read_reg32 o s' = read_reg32 o s)
    /\ rx_buffers_ s' = rx_buffers_ s /\ tx_buffers_ s' = tx_buffers_ s.
Proof.
  intros [Hrx Htx]. pose proof Hrx as (Hlen & Hblen & Hh).
  destruct (custom_rx_slot_exists s (rx_head_ s) Hrx Hh) as (d & p & Hd & Hp).
  destruct (Z.eq_dec (read_reg32 registers.RX_HEAD s) (rx_head_ s)) as [Hidle | Hhw].
  { exists None, s. split; [now apply custom_poll_idle |].
    split; [exact (conj Hrx Htx) | repeat split]. }
  destruct (Z.testbit (status_flags d) 0) eqn:Hdd.
  - rewrite (custom_poll_dd s d p Hhw Hd Hdd Hp Hh). do 2 eexists.
    split; [reflexivity |]. split; [| split; [| split; reflexivity]].
    + split; [| exact Htx]. unfold rx_wf. cbn [rx_ring_ rx_buffers_ rx_head_].
      rewrite length_insert. repeat split; try assumption;
        apply Z.mod_pos_bound; unfold RX_RING_SIZE; lia.
    + intros o Ho. unfold read_reg32, reg_read. cbn [bar0_].
      now rewrite lookup_insert_ne by congruence.
  - exists None, s. split; [exact (custom_poll_no_dd s d Hd Hdd) |].
    split; [exact (conj Hrx Htx) | repeat split].
Qed.

Lemma custom_step_keeps_wf (c : custom_call) (s : CustomNICDriver) :
  wf s -> call_in_bounds c ->
  exists s',
    custom_step pagemap c s = Ok s' /\ wf s'
    /\ (forall o, o <> registers.RX_TAIL -> o <> registers.TX_TAIL ->
          read_reg32 o s' = read_reg32 o s)
    /\ rx_buffers_ s' = rx_buffers_ s /\ tx_buffers_ s' = tx_buffers_ s.
Proof.
  intros Hwf Hc. destruct c as [| data len | |]; cbn [custom_step].
  - destruct (custom_poll_keeps_wf s Hwf) as (r & s' & -> & Hwf' & Hreg & Hb).
    exists s'. rewrite bind_Ok. cbn [snd]. split; [reflexivity |].
    split; [exact Hwf' |]. split; [| exact Hb].
    intros o Ho _. now apply Hreg.
  - destruct Hc as [H0 Hfit]. destruct Hwf as [Hrx Htx].
    destruct (Z.le_gt_cases len PACKET_BUFFER_SIZE) as [Hle | Hgt].
    + destruct (custom_submit_ok pagemap s data len Htx) as (s' & Hrun & Htx' & _).
      { split; cbn [fst snd]; [lia | now apply Hfit]. }
      destruct (custom_submit_registers _ _ _ _ _ Hrun)
        as (Hreg & Hr & Hrb & Hrh & Htb).
      exists s'. rewrite Hrun, bind_Ok. cbn [snd]. split; [reflexivity |].
      split; [| split; [| now split]].
      * split; [| exact Htx']. unfold rx_wf. now rewrite Hr, Hrb, Hrh.
      * intros o _ Ho. now apply Hreg.
    + rewrite (custom_submit_oversize pagemap s data len Hgt), bind_Ok.
      exists s. split; [reflexivity |].
      split; [exact (conj Hrx Htx) | repeat split].
  - exists s. split; [reflexivity |]. split; [exact Hwf | repeat split].
  - exists s. split; [reflexivity |]. split; [exact Hwf | repeat split].
Qed.

(** X19. On a driver whose rings and pointer arrays have their 512
    entries, whose cursors lie inside them and whose TX buffers are all
    allocated, every sequence of [poll_rx], [submit_tx],
    [poll_tx_completion] and [get_stats] calls runs to completion (no
    index leaves its array, no null buffer is written) and leaves the
    driver in such a state again, provided no [submit_tx] names a length
    beyond the caller's own array.  The two buffer-pointer arrays are
    never changed, and the only registers ever written are the two tail
    registers. *)
Theorem custom_calls_keep_shape (cs : list custom_call) :
  forall s : CustomNICDriver,
    wf s -> Forall call_in_bounds cs ->
    exists s',
      custom_run pagemap cs s = Ok s' /\ wf s'
      /\ (forall o, o <> registers.RX_TAIL -> o <> registers.TX_TAIL ->
            read_reg32 o s' = read_reg32 o s)
      /\ rx_buffers_ s' = rx_buffers_ s /\ tx_buffers_ s' = tx_buffers_ s.
Proof.
  induction cs as [| c rest IH]; intros s Hwf Hcs.
  - exists s. split; [reflexivity |]. split; [exact Hwf | repeat split].
  - apply Forall_cons in Hcs as [Hc Hrest].
    destruct (custom_step_keeps_wf c s Hwf Hc) as (s1 & Hstep & Hwf1 & Hreg1 & Hrb1 & Htb1).
    destruct (IH s1 Hwf1 Hrest) as (s' & Hrun & Hwf' & Hreg & Hrb & Htb).
    exists s'. cbn [custom_run]. rewrite Hstep, bind_Ok.
    split; [exact Hrun |]. split; [exact Hwf' |].
    split; [| split; congruence].
    intros o Hr Ht. now rewrite Hreg, Hreg1.
Qed.

End CustomDataPath.

Lemma custom_submit_publishes_frame_witness :
  exists s' d,
    Custom.submit_tx (Some (fun off => off / 8)) Samples.hello 5
      (Scenario.custom_rx 0 64) = Ok (true, s')
    /\ Custom.tx_ring_ s' !! 0%nat = Some d
    /\ Custom.cmd_type_len d = 5 * 2 ^ 16 + 1
    /\ Custom.dma_ s' !! (0x20000000 + 4) = Some Byte.x6f.
Proof.
  destruct (custom_submit_publishes_frame (Some (fun off => off / 8))
              (Scenario.custom_rx 0 64) Samples.hello 5)
    as (s' & d & buf & Hrun & Hbuf & Hd & _ & Hcmd & _ & _ & _ & Hbytes & _).
  - unfold Ring.custom_tx_wf.
    repeat apply conj; [reflexivity | reflexivity | compute_done | | ];
      vm_compute; congruence.
  - vm_compute. split; congruence.
  - vm_compute. congruence.
  - exists s', d. split; [exact Hrun |]. split; [exact Hd |].
    split; [exact Hcmd |].
    assert (buf = 0x20000000) as -> by (vm_compute in Hbuf; congruence).
    exact (Hbytes 4%nat ltac:(lia)).
Defined.

Lemma custom_poll_fifo_witness :
  exists s',
    CustomLoop.poll_all 5 CustomSamples.three_rx
    = Ok ([Some (0x10000000, 60); Some (0x10000000 + 2048, 61);
           Some (0x10000000 + 4096, 62); None; None], s')
    /\ Custom.rx_head_ s' = 3.
Proof.
  apply (custom_poll_fifo 3 CustomSamples.three_rx 2).
  - unfold CustomLoop.rx_wf.
    repeat apply conj; [reflexivity | reflexivity | |]; vm_compute; congruence.
  - vm_compute. reflexivity.
  - reflexivity.
  - intros i Hi.
    assert (i = 0 \/ i = 1 \/ i = 2) as [-> | [-> | ->]] by lia; reflexivity.
Defined.

Lemma poll_tx_completion_counts_modulo_ring_witness :
  exists s',
    Runs.submit_all None [(Samples.hello, 5); (Samples.hello, 3)]
      (Scenario.custom_rx 0 64) = Ok ([true; true], s')
    /\ Custom.poll_tx_completion s' = true.
Proof.
  apply (poll_tx_completion_counts_modulo_ring None (Scenario.custom_rx 0 64)
           [(Samples.hello, 5); (Samples.hello, 3)]).
  - unfold Ring.custom_tx_wf.
    repeat apply conj; [reflexivity | reflexivity | compute_done | | ];
      vm_compute; congruence.
  - repeat constructor; vm_compute; congruence.
  - reflexivity.
Defined.

Lemma custom_calls_keep_shape_witness :
  exists s',
    CustomLoop.custom_run None
      [CustomLoop.PollRx; CustomLoop.SubmitTx Samples.hello 5;
       CustomLoop.PollTxCompletion; CustomLoop.GetStats; CustomLoop.PollRx]
      CustomSamples.three_rx = Ok s'
    /\ CustomLoop.wf s'.
Proof.
  destruct (custom_calls_keep_shape None
              [CustomLoop.PollRx; CustomLoop.SubmitTx Samples.hello 5;
               CustomLoop.PollTxCompletion; CustomLoop.GetStats; CustomLoop.PollRx]
              CustomSamples.three_rx)
    as (s' & Hrun & Hwf & _).
  - split.
    + unfold CustomLoop.rx_wf.
      repeat apply conj; [reflexivity | reflexivity | |]; vm_compute; congruence.
    + unfold Ring.custom_tx_wf.
      repeat apply conj; [reflexivity | reflexivity | compute_done | | ];
        vm_compute; congruence.
  - repeat constructor; vm_compute; congruence.
  - exists s'. split; [exact Hrun | exact Hwf].
Defined.

(** ** SolarflareEFVI outside the initialised steady state *)

Section EfviEdges.

Import Solarflare.

Lemma efvi_step_uninitialised (c : Runs.efvi_call) (s : SolarflareEFVI) :
  initialized_ s = false -> tx_posted_ s = 0 -> Runs.efvi_step c s = Ok s.
Proof.
  intros Hi Ht. destruct c as [pkt now | data len |]; cbn [Runs.efvi_step].
  - unfold poll_rx. now rewrite Hi.
  - unfold submit_tx. rewrite Hi. cbn [negb]. now rewrite bind_Ok.
  - unfold poll_tx_completions. now rewrite Ht.
Qed.

(** X20. Before [initialize], the object is inert: every sequence of
    [poll_rx], [submit_tx] and [poll_tx_completions] calls on a freshly
    constructed object completes and leaves it exactly as constructed;
    [poll_rx] returns [false] without touching the caller's packet
    structure and [submit_tx] returns [false] without reading the data,
    whatever the length. *)
Theorem efvi_inert_before_initialize (h : efvi_handle) (m : memory) :
  (forall cs : list Runs.efvi_call, Runs.efvi_run cs (new h m) = Ok (new h m))
  /\ (forall (pkt : efvi_packet) (now : Z),
        poll_rx pkt now (new h m) = (false, pkt, new h m))
  /\ (forall (data : list Byte.byte) (len : Z),
        submit_tx data len (new h m) = Ok (false, new h m)).
Proof.
  split; [| split; reflexivity].
  induction cs as [| c rest IH]; [reflexivity |].
  cbn [Runs.efvi_run].
  now rewrite (efvi_step_uninitialised c (new h m) eq_refl eq_refl), bind_Ok.
Qed.

Lemma post_loop_wraps (ids : list nat) :
  forall s : SolarflareEFVI,
    let s' := foldl (fun s i => post_rx_buffer (Z.of_nat i) s) s ids in
    rx_posted_ s' = wrap32 (rx_posted_ s + Z.of_nat (length ids))
                    \/ (ids = [] /\ rx_posted_ s' = rx_posted_ s).
Proof.
  induction ids as [| i rest IH]; intros s; cbn zeta; cbn [foldl length].
  - right. now split.
  - left. specialize (IH (post_rx_buffer (Z.of_nat i) s)). cbn zeta in IH.
    destruct IH as [-> | [-> ->]]; cbn [post_rx_buffer rx_posted_ length].
    + unfold wrap32, wrap. rewrite Zplus_mod_idemp_l. f_equal; lia.
    + cbn [foldl post_rx_buffer rx_posted_]. f_equal; lia.
Qed.

Lemma post_loop_scalars (ids : list nat) :
  forall s : SolarflareEFVI,
    let s' := foldl (fun s i => post_rx_buffer (Z.of_nat i) s) s ids in
    initialized_ s' = initialized_ s /\ tx_posted_ s' = tx_posted_ s
    /\ handle_ s' = handle_ s /\ mem_ s' = mem_ s.
Proof.
  induction ids as [| i rest IH]; intros s; cbn zeta; cbn [foldl].
  - repeat split.
  - specialize (IH (post_rx_buffer (Z.of_nat i) s)). cbn zeta in IH.
    exact IH.
Qed.

Lemma efvi_initialize_fields (interface : string) (s0 : SolarflareEFVI) :
  (initialize interface s0).1 = true
  /\ initialized_ (initialize interface s0).2 = true
  /\ rx_posted_ (initialize interface s0).2
     = wrap32 (rx_posted_ s0 + EFVI_RX_RING_SIZE)
  /\ tx_posted_ (initialize interface s0).2 = tx_posted_ s0
  /\ mem_ (initialize interface s0).2 = mem_ s0.
Proof.
  unfold initialize, allocate_packet_buffers. cbn [fst snd].
  set (s1 := {| handle_ := handle_ s0; mem_ := mem_ s0; initialized_ := true;
                rx_posted_ := rx_posted_ s0; tx_posted_ := tx_posted_ s0 |}).
  destruct (allocate_loop_scalars (seq 0 (Z.to_nat EFVI_NUM_BUFS)) s1)
    as (Hi & Hr & Ht & Hm & _).
  cbn zeta in Hi, Hr, Ht, Hm.
  remember (foldl (fun s i => set_pkt_buf i 0 s) s1
                  (seq 0 (Z.to_nat EFVI_NUM_BUFS))) as s2 eqn:Hs2.
  clear Hs2.
  pose proof (post_loop_scalars (seq 0 (Z.to_nat EFVI_RX_RING_SIZE)) s2) as H.
  cbn zeta in H. destruct H as (Hi' & Ht' & _ & Hm').
  pose proof (post_loop_wraps (seq 0 (Z.to_nat EFVI_RX_RING_SIZE)) s2) as H.
  cbn zeta in H. destruct H as [Hr' | [Hnil _]];
    [| apply (f_equal (@length nat)) in Hnil; rewrite length_seq in Hnil;
       vm_compute in Hnil; discriminate].
  rewrite length_seq in Hr'.
  remember (foldl (fun s i => post_rx_buffer (Z.of_nat i) s) s2
                  (seq 0 (Z.to_nat EFVI_RX_RING_SIZE))) as s3 eqn:Hs3.
  clear Hs3.
  split; [reflexivity |].
  rewrite Hi', Hi, Hr', Hr, Ht', Ht, Hm', Hm. subst s1. cbn.
  repeat split.
Qed.

(** X21. [initialize] always returns [true] and neither looks at the
    interface name nor at whether the object is already initialised: it
    adds 512 to [rx_posted_] (modulo 2^32) and leaves [tx_posted_] and the
    packet memory as they are.  A second [initialize] therefore reports
    1024 posted RX buffers on a 512-entry ring, and does not take back
    outstanding transmissions. *)
Theorem efvi_initialize_accumulates (interface : string) (s : SolarflareEFVI) :
  (initialize interface s).1 = true
  /\ initialized_ (initialize interface s).2 = true
  /\ rx_posted_ (initialize interface s).2
     = wrap32 (rx_posted_ s + EFVI_RX_RING_SIZE)
  /\ tx_posted_ (initialize interface s).2 = tx_posted_ s
  /\ mem_ (initialize interface s).2 = mem_ s
  /\ (forall (h : efvi_handle) (m : memory),
        rx_posted_ (initialize interface (initialize interface (new h m)).2).2
        = 2 * EFVI_RX_RING_SIZE).
Proof.
  destruct (efvi_initialize_fields interface s) as (H1 & H2 & H3 & H4 & H5).
  refine (conj H1 (conj H2 (conj H3 (conj H4 (conj H5 _))))).
  intros h m.
  destruct (efvi_initialize_fields interface (initialize interface (new h m)).2)
    as (_ & _ & -> & _).
  destruct (efvi_initialize_fields interface (new h m)) as (_ & _ & -> & _).
  reflexivity.
Qed.

Lemma efvi_step_null_bufs (c : Runs.efvi_call) (s s' : SolarflareEFVI) :
  (forall i : nat, (i < Z.to_nat EFVI_NUM_BUFS)%nat ->
     pkt_bufs (handle_ s) !! i = Some 0) ->
  0 <= tx_posted_ s <= EFVI_TX_RING_SIZE ->
  Runs.efvi_step c s = Ok s' ->
  handle_ s' = handle_ s /\ mem_ s' = mem_ s
  /\ 0 <= tx_posted_ s' <= EFVI_TX_RING_SIZE.
Proof.
  intros Hnull Ht. unfold EFVI_TX_RING_SIZE in *.
  destruct c as [pkt now | data len |]; cbn [Runs.efvi_step].
  - intros [= <-]. unfold poll_rx.
    destruct (negb (initialized_ s)); [now repeat split |].
    destruct (0 <? rx_posted_ s); now repeat split.
  - unfold submit_tx.
    destruct (negb (initialized_ s));
      [rewrite bind_Ok; intros [= <-]; now repeat split |].
    destruct (_ <? _); [rewrite bind_Ok; intros [= <-]; now repeat split |].
    destruct (Z.ltb_spec (tx_posted_ s) EFVI_TX_RING_SIZE) as [Hroom | _];
      [| rewrite bind_Ok; intros [= <-]; now repeat split].
    unfold EFVI_TX_RING_SIZE in Hroom.
    rewrite (at_index_Ok _ _ _ (Hnull (Z.to_nat (tx_posted_ s))
                                  ltac:(unfold EFVI_NUM_BUFS; lia))), bind_Ok.
    destruct (memcpy (mem_ s) 0 data len) as [mem |] eqn:Hcopy;
      [| discriminate].
    apply memcpy_null_inv in Hcopy as [_ ->].
    rewrite !bind_Ok. intros [= <-]. cbn [handle_ mem_ tx_posted_ snd].
    unfold wrap32. rewrite wrap_small by lia. repeat split; lia.
  - intros [= <-]. unfold poll_tx_completions.
    destruct (Z.ltb_spec 0 (tx_posted_ s)); [| now repeat split].
    cbn [handle_ mem_ tx_posted_].
    unfold wrap32. rewrite wrap_small by lia. repeat split; lia.
Qed.

Lemma efvi_run_null_bufs (cs : list Runs.efvi_call) :
  forall s s' : SolarflareEFVI,
    (forall i : nat, (i < Z.to_nat EFVI_NUM_BUFS)%nat ->
       pkt_bufs (handle_ s) !! i = Some 0) ->
    0 <= tx_posted_ s <= EFVI_TX_RING_SIZE ->
    Runs.efvi_run cs s = Ok s' ->
    handle_ s' = handle_ s /\ mem_ s' = mem_ s
    /\ 0 <= tx_posted_ s' <= EFVI_TX_RING_SIZE.
Proof.
  induction cs as [| c rest IH]; intros s s' Hnull Ht; cbn [Runs.efvi_run].
  - intros [= <-]. split; [reflexivity |]. split; [reflexivity | exact Ht].
  - destruct (Runs.efvi_step c s) as [s1 | f] eqn:Hstep;
      [rewrite bind_Ok | discriminate].
    destruct (efvi_step_null_bufs c s s1 Hnull Ht Hstep) as (Hh & Hm & Ht1).
    intros Hrun. rewrite <- Hh in Hnull.
    destruct (IH s1 s' Hnull Ht1 Hrun) as (Hh' & Hm' & Ht').
    split; [congruence |]. split; [congruence | exact Ht'].
Qed.

Lemma efvi_submit_null_bufs (data : list Byte.byte) (len : Z)
    (s : SolarflareEFVI) :
  (forall i : nat, (i < Z.to_nat EFVI_NUM_BUFS)%nat ->
     pkt_bufs (handle_ s) !! i = Some 0) ->
  0 <= tx_posted_ s <= EFVI_TX_RING_SIZE ->
  (initialized_ s = true -> 0 < len <= EFVI_PKT_BUF_SIZE ->
   tx_posted_ s < EFVI_TX_RING_SIZE ->
   submit_tx data len s = Fault NullPointer)
  /\ (forall (r : bool) (s' : SolarflareEFVI),
        submit_tx data len s = Ok (r, s') ->
        mem_ s' = mem_ s /\ (r = true -> len = 0)).
Proof.
  intros Hnull Ht. unfold EFVI_TX_RING_SIZE in *.
  pose proof (at_index_Ok _ _ _ (Hnull (Z.to_nat (tx_posted_ s))
                                   ltac:(unfold EFVI_NUM_BUFS; lia))) as Hbuf.
  split.
  - intros Hi [Hpos Hlen] Hroom. unfold submit_tx. rewrite Hi. cbn [negb].
    destruct (Z.ltb_spec EFVI_PKT_BUF_SIZE len); [lia |].
    destruct (Z.ltb_spec (tx_posted_ s) EFVI_TX_RING_SIZE);
      [| unfold EFVI_TX_RING_SIZE in *; lia].
    rewrite Hbuf, bind_Ok, memcpy_null by lia. reflexivity.
  - intros r s'. unfold submit_tx.
    destruct (negb (initialized_ s));
      [intros [= <- <-]; split; [reflexivity | discriminate] |].
    destruct (_ <? _);
      [intros [= <- <-]; split; [reflexivity | discriminate] |].
    destruct (_ <? _);
      [| intros [= <- <-]; split; [reflexivity | discriminate]].
    rewrite Hbuf, bind_Ok.
    destruct (memcpy (mem_ s) 0 data len) as [mem |] eqn:Hcopy;
      [| discriminate].
    apply memcpy_null_inv in Hcopy as [Hzero ->].
    rewrite bind_Ok. intros [= <- <-]. split; [reflexivity | intros _; exact Hzero].
Qed.

(** X22. Once initialised, the simulated backend never transmits a byte.
    In every state reached from [initialize] by a sequence of calls that
    completes, the packet memory is as it was at construction, every
    packet-buffer pointer is null and [tx_posted_] lies between 0 and the
    ring size.  In such a state a [submit_tx] of 1 to 2048 bytes that finds
    room in the ring copies through the null pointer; a [submit_tx] that
    returns leaves the packet memory alone, and it returns [true] only for
    an empty frame. *)
Theorem efvi_never_transmits (interface : string) (h : efvi_handle)
    (m : memory) (cs : list Runs.efvi_call) (s : SolarflareEFVI) :
  length (pkt_bufs h) = Z.to_nat EFVI_NUM_BUFS ->
  Runs.efvi_run cs (initialize interface (new h m)).2 = Ok s ->
  mem_ s = m
  /\ (forall i : nat, (i < Z.to_nat EFVI_NUM_BUFS)%nat ->
        pkt_bufs (handle_ s) !! i = Some 0)
  /\ 0 <= tx_posted_ s <= EFVI_TX_RING_SIZE
  /\ (forall (data : list Byte.byte) (len : Z),
        0 < len <= EFVI_PKT_BUF_SIZE -> tx_posted_ s < EFVI_TX_RING_SIZE ->
        submit_tx data len s = Fault NullPointer)
  /\ (forall (data : list Byte.byte) (len : Z) (r : bool) (s' : SolarflareEFVI),
        submit_tx data len s = Ok (r, s') ->
        mem_ s' = m /\ (r = true -> len = 0)).
Proof.
  intros Hsize Hrun.
  destruct (initialize_spec interface h m) as (_ & Hi & Hr & Ht & Hnull).
  cbn zeta in Hi, Hr, Ht, Hnull.
  assert (forall i : nat, (i < Z.to_nat EFVI_NUM_BUFS)%nat ->
            pkt_bufs (handle_ (initialize interface (new h m)).2) !! i = Some 0)
    as Hnull0.
  { intros i Hlt. apply Hnull; [exact Hlt |]. rewrite Hsize. exact Hlt. }
  clear Hnull.
  destruct (efvi_initialize_fields interface (new h m)) as (_ & _ & _ & _ & Hm).
  cbn [new mem_] in Hm.
  remember (initialize interface (new h m)).2 as s0 eqn:Hs0. clear Hs0.
  assert (0 <= tx_posted_ s0 <= EFVI_TX_RING_SIZE) as Ht0
    by (rewrite Ht; unfold EFVI_TX_RING_SIZE; lia).
  destruct (efvi_run_keeps_rx cs s0 s Hrun Hi) as [Hi' _];
    [rewrite Hr; unfold EFVI_RX_RING_SIZE; lia |].
  destruct (efvi_run_null_bufs cs s0 s Hnull0 Ht0 Hrun) as (Hh & Hm' & Ht').
  rewrite <- Hh in Hnull0.
  split; [congruence |]. split; [exact Hnull0 |]. split; [exact Ht' |].
  split.
  - intros data len Hlen Hroom.
    exact (proj1 (efvi_submit_null_bufs data len s Hnull0 Ht') Hi' Hlen Hroom).
  - intros data len r s' Hsub.
    destruct (proj2 (efvi_submit_null_bufs data len s Hnull0 Ht') r s' Hsub)
      as [Hmem Hlen].
    split; [congruence | exact Hlen].
Qed.

End EfviEdges.

Lemma efvi_never_transmits_witness :
  exists s,
    Runs.efvi_run
      [Runs.PollRx Scenario.empty_packet 1000; Runs.SubmitTx Samples.hello 0;
       Runs.PollTxCompletions; Runs.SubmitTx Samples.hello 3000]
      (Solarflare.initialize "eth0" (Solarflare.new Scenario.stale_handle ∅)).2
    = Ok s
    /\ Solarflare.mem_ s = ∅
    /\ Solarflare.pkt_bufs (Solarflare.handle_ s) !! 0%nat = Some 0.
Proof.
  destruct (Runs.efvi_run
              [Runs.PollRx Scenario.empty_packet 1000;
               Runs.SubmitTx Samples.hello 0;
               Runs.PollTxCompletions; Runs.SubmitTx Samples.hello 3000]
              (Solarflare.initialize "eth0"
                 (Solarflare.new Scenario.stale_handle ∅)).2)
    as [s | f] eqn:E; [| vm_compute in E; discriminate E].
  exists s. split; [reflexivity |].
  destruct (efvi_never_transmits "eth0" Scenario.stale_handle ∅
              [Runs.PollRx Scenario.empty_packet 1000;
               Runs.SubmitTx Samples.hello 0;
               Runs.PollTxCompletions; Runs.SubmitTx Samples.hello 3000]
              s eq_refl E)
    as (Hm & Hnull & _).
  split; [exact Hm | apply Hnull; vm_compute; lia].
Defined.

(** ** SolarflareEFVI across repeated initialisation *)

Section EfviSessions.

Import Solarflare.

Lemma efvi_step_rx_fixed (c : Runs.efvi_call) (s s' : SolarflareEFVI) :
  Runs.efvi_step c s = Ok s' ->
  0 <= rx_posted_ s < 2 ^ 32 ->
  initialized_ s' = initialized_ s /\ rx_posted_ s' = rx_posted_ s.
Proof.
  intros Hstep Hr. destruct c as [pkt now | d l |]; cbn [Runs.efvi_step] in Hstep.
  - injection Hstep as <-. destruct (initialized_ s) eqn:Hi.
    + destruct (Z.ltb_spec 0 (rx_posted_ s)) as [Hpos | Hzero].
      * rewrite (poll_rx_posted pkt now s Hi ltac:(lia)). cbn [snd].
        split; [exact Hi | reflexivity].
      * unfold poll_rx. rewrite Hi. cbn [negb].
        destruct (Z.ltb_spec 0 (rx_posted_ s)); [lia |]. cbn [snd].
        split; [exact Hi | reflexivity].
    + unfold poll_rx. rewrite Hi. cbn [negb snd]. split; [exact Hi | reflexivity].
  - unfold submit_tx in Hstep.
    destruct (negb (initialized_ s));
      [rewrite bind_Ok in Hstep; injection Hstep as <-; split; reflexivity |].
    destruct (_ <? _);
      [rewrite bind_Ok in Hstep; injection Hstep as <-; split; reflexivity |].
    destruct (_ <? _);
      [| rewrite bind_Ok in Hstep; injection Hstep as <-; split; reflexivity].
    destruct (at_index _ _) as [buf | f]; [rewrite !bind_Ok in Hstep | discriminate].
    destruct (memcpy _ _ _ _) as [m' | f]; [rewrite !bind_Ok in Hstep | discriminate].
    injection Hstep as <-. split; reflexivity.
  - injection Hstep as <-. unfold poll_tx_completions.
    destruct (_ <? _); split; reflexivity.
Qed.

Lemma efvi_public_run_counts (cs : list Runs.efvi_public_call) :
  forall (s s' : SolarflareEFVI),
    Runs.efvi_public_run cs s = Ok s' ->
    0 <= rx_posted_ s < 2 ^ 32 ->
    0 <= Runs.initialize_calls cs
    /\ rx_posted_ s'
       = wrap32 (rx_posted_ s + EFVI_RX_RING_SIZE * Runs.initialize_calls cs)
    /\ initialized_ s' = (initialized_ s || (0 <? Runs.initialize_calls cs)).
Proof.
  induction cs as [| c rest IH]; intros s s' Hrun Hr;
    cbn [Runs.efvi_public_run Runs.initialize_calls] in *.
  - injection Hrun as <-. split; [lia |]. rewrite Z.mul_0_r, Z.add_0_r.
    unfold wrap32. rewrite wrap_small by lia.
    split; [reflexivity |]. now rewrite orb_false_r.
  - destruct c as [interface | c]; cbn [Runs.efvi_public_step] in Hrun.
    + rewrite bind_Ok in Hrun.
      destruct (efvi_initialize_fields interface s) as (_ & Hi & Hp & _).
      remember (initialize interface s).2 as s1 eqn:Hs1. clear Hs1.
      assert (0 <= rx_posted_ s1 < 2 ^ 32) as Hr1
        by (rewrite Hp; apply wrap_range; lia).
      destruct (IH s1 s' Hrun Hr1) as (Hk & Hp' & Hi').
      split; [lia |]. split.
      * rewrite Hp', Hp. unfold wrap32, wrap.
        rewrite Zplus_mod_idemp_l. f_equal. lia.
      * rewrite Hi', Hi. cbn [orb].
        destruct (Z.ltb_spec 0 (1 + Runs.initialize_calls rest)); [| lia].
        now rewrite orb_true_r.
    + destruct (Runs.efvi_step c s) as [s1 | f] eqn:Hstep; [| discriminate].
      rewrite bind_Ok in Hrun.
      destruct (efvi_step_rx_fixed c s s1 Hstep Hr) as [Hi Hp].
      destruct (IH s1 s' Hrun ltac:(lia)) as (Hk & Hp' & Hi').
      split; [exact Hk |]. split; congruence.
Qed.

Lemma efvi_poll_rx_cases (pkt : efvi_packet) (now : Z) (s : SolarflareEFVI) :
  0 <= rx_posted_ s < 2 ^ 32 ->
  poll_rx pkt now s
  = if initialized_ s && (0 <? rx_posted_ s)
    then (true, {| data := data pkt; len := 64; timestamp_ns := now |}, s)
    else (false, pkt, s).
Proof.
  intros Hr. destruct (initialized_ s) eqn:Hi; cbn [andb].
  - destruct (Z.ltb_spec 0 (rx_posted_ s)) as [Hpos | Hzero].
    + apply poll_rx_posted; [exact Hi | lia].
    + unfold poll_rx. rewrite Hi. cbn [negb].
      now destruct (Z.ltb_spec 0 (rx_posted_ s)); [lia |].
  - unfold poll_rx. now rewrite Hi.
Qed.

End EfviSessions.

(** C9 (as amended).  [initialize] always returns [true], and the first
    [initialize] of a constructed object leaves [rx_posted_] at
    [EFVI_RX_RING_SIZE].  It does not look at whether the object is
    initialised already: after any sequence of calls in which [initialize]
    occurs [k] times, [rx_posted_] is [EFVI_RX_RING_SIZE * k] modulo 2^32,
    whatever the other calls were, and the object is initialised exactly
    when [k] is positive.  In such a state [poll_rx] returns [true], with
    the packet length set to 64 and the timestamp to the clock value, and
    hands back the driver state unchanged, exactly when the object is
    initialised and [rx_posted_] is not 0; so once [initialize] has been
    called, and fewer than 2^23 times, [rx_posted_] is
    [EFVI_RX_RING_SIZE * k] and [poll_rx] never answers "no packet". *)
Theorem efvi_poll_rx_delivers_while_posted :
  (forall (interface : string) (s : Solarflare.SolarflareEFVI),
      (Solarflare.initialize interface s).1 = true)
  /\ (forall (interface : string) (h : Solarflare.efvi_handle) (m : memory),
        Solarflare.rx_posted_
          (Solarflare.initialize interface (Solarflare.new h m)).2
        = Solarflare.EFVI_RX_RING_SIZE)
  /\ forall (h : Solarflare.efvi_handle) (m : memory)
            (cs : list Runs.efvi_public_call) (s : Solarflare.SolarflareEFVI),
       Runs.efvi_public_run cs (Solarflare.new h m) = Ok s ->
       0 <= Runs.initialize_calls cs
       /\ Solarflare.initialized_ s = (0 <? Runs.initialize_calls cs)
       /\ Solarflare.rx_posted_ s
          = wrap32 (Solarflare.EFVI_RX_RING_SIZE * Runs.initialize_calls cs)
       /\ (forall (pkt : Solarflare.efvi_packet) (now : Z),
             Solarflare.poll_rx pkt now s
             = if (0 <? Runs.initialize_calls cs) && (0 <? Solarflare.rx_posted_ s)
               then (true,
                     {| Solarflare.data := Solarflare.data pkt;
                        Solarflare.len := 64;
                        Solarflare.timestamp_ns := now |},
                     s)
               else (false, pkt, s))
       /\ (0 < Runs.initialize_calls cs < 2 ^ 23 ->
           Solarflare.rx_posted_ s
           = Solarflare.EFVI_RX_RING_SIZE * Runs.initialize_calls cs
           /\ forall (pkt : Solarflare.efvi_packet) (now : Z),
                Solarflare.poll_rx pkt now s
                = (true,
                   {| Solarflare.data := Solarflare.data pkt;
                      Solarflare.len := 64;
                      Solarflare.timestamp_ns := now |},
                   s)).
Proof.
  split; [intros interface s; exact (proj1 (efvi_initialize_fields interface s)) |].
  split.
  { intros interface h m.
    destruct (initialize_spec interface h m) as (_ & _ & Hr & _). exact Hr. }
  intros h m cs s Hrun.
  destruct (efvi_public_run_counts cs _ s Hrun) as (Hk & Hp & Hi).
  { cbn. lia. }
  cbn [Solarflare.new Solarflare.rx_posted_ Solarflare.initialized_ orb] in Hp, Hi.
  rewrite Z.add_0_l in Hp.
  assert (0 <= Solarflare.rx_posted_ s < 2 ^ 32) as Hr
    by (rewrite Hp; apply wrap_range; lia).
  pose proof (fun pkt now => efvi_poll_rx_cases pkt now s Hr) as Hpoll.
  rewrite Hi in Hpoll.
  split; [exact Hk |]. split; [exact Hi |]. split; [exact Hp |].
  split; [exact Hpoll |].
  intros [Hpos Hlt].
  assert (Solarflare.rx_posted_ s
          = Solarflare.EFVI_RX_RING_SIZE * Runs.initialize_calls cs) as Hexact.
  { rewrite Hp. unfold wrap32. apply wrap_small.
    unfold Solarflare.EFVI_RX_RING_SIZE.
    change (2 ^ 23) with 8388608 in Hlt. change (2 ^ 32) with 4294967296. lia. }
  split; [exact Hexact |].
  intros pkt now. rewrite Hpoll.
  destruct (Z.ltb_spec 0 (Runs.initialize_calls cs)); [| lia].
  destruct (Z.ltb_spec 0 (Solarflare.rx_posted_ s)); [reflexivity |].
  unfold Solarflare.EFVI_RX_RING_SIZE in Hexact. lia.
Qed.

Lemma efvi_poll_rx_delivers_while_posted_witness :
  exists s,
    Runs.efvi_public_run
      [Runs.Initialize "eth0"; Runs.Polling (Runs.PollRx Scenario.empty_packet 1000);
       Runs.Initialize "eth1"; Runs.Polling Runs.PollTxCompletions]
      (Solarflare.new Scenario.stale_handle ∅) = Ok s
    /\ Solarflare.rx_posted_ s = 1024
    /\ Solarflare.poll_rx Scenario.empty_packet 3000 s
       = (true,
          {| Solarflare.data := []; Solarflare.len := 64;
             Solarflare.timestamp_ns := 3000 |},
          s).
Proof.
  destruct (Runs.efvi_public_run
              [Runs.Initialize "eth0"; Runs.Polling (Runs.PollRx Scenario.empty_packet 1000);
               Runs.Initialize "eth1"; Runs.Polling Runs.PollTxCompletions]
              (Solarflare.new Scenario.stale_handle ∅))
    as [s | f] eqn:E; [| vm_compute in E; discriminate E].
  exists s. split; [reflexivity |].
  destruct efvi_poll_rx_delivers_while_posted as (_ & _ & Hall).
  destruct (Hall _ _ _ s E) as (_ & _ & _ & _ & Hsteady).
  destruct Hsteady as [Hr Hpoll]; [vm_compute; split; reflexivity |].
  split; [exact Hr | apply Hpoll].
Defined.

(** C9, the claim as worded fails at the second [initialize]: it succeeds
    like the first and leaves [rx_posted_] at 1024, not at
    [EFVI_RX_RING_SIZE]. *)
Lemma efvi_second_initialize_counterexample :
  (Solarflare.initialize "eth0"
     (Solarflare.initialize "eth0"
        (Solarflare.new Scenario.stale_handle ∅)).2).1 = true
  /\ Solarflare.rx_posted_
       (Solarflare.initialize "eth0"
          (Solarflare.initialize "eth0"
             (Solarflare.new Scenario.stale_handle ∅)).2).2
     <> Solarflare.EFVI_RX_RING_SIZE.
Proof.
  destruct (efvi_initialize_fields "eth0"
              (Solarflare.initialize "eth0"
                 (Solarflare.new Scenario.stale_handle ∅)).2)
    as (Hok & _ & Hp & _).
  destruct (efvi_initialize_fields "eth0" (Solarflare.new Scenario.stale_handle ∅))
    as (_ & _ & Hp0 & _).
  split; [exact Hok |].
  rewrite Hp, Hp0. vm_compute. discriminate.
Qed.

(** ** Timestamp conversion *)

Section Timestamps.

Import CommonTypes.

(** X23. [tsc_to_ns] is exact only while [ticks * 10^9] fits 64 bits.
    For a non-zero frequency and such a tick count the result is the
    rounded-down quotient [ticks * 10^9 / tsc_freq], it grows with the tick
    count, and whole seconds convert without error.  For every tick count
    the result stays below [2^64 / tsc_freq] nanoseconds, so the function
    cannot report more than that (about 6.6 seconds at the default
    frequency) however large the tick count is.  A zero frequency has no
    result. *)
Theorem tsc_to_ns_exact_until_overflow :
  (forall ticks freq : Z,
      0 < freq -> 0 <= ticks -> ticks * 10 ^ 9 < 2 ^ 64 ->
      tsc_to_ns ticks freq = Some (ticks * 10 ^ 9 / freq))
  /\ (forall t1 t2 freq n1 n2 : Z,
        0 < freq -> 0 <= t1 <= t2 -> t2 * 10 ^ 9 < 2 ^ 64 ->
        tsc_to_ns t1 freq = Some n1 -> tsc_to_ns t2 freq = Some n2 -> n1 <= n2)
  /\ (forall k freq : Z,
        0 < freq -> 0 <= k -> k * freq * 10 ^ 9 < 2 ^ 64 ->
        tsc_to_ns (k * freq) freq = Some (k * 10 ^ 9))
  /\ (forall ticks freq n : Z,
        0 < freq -> tsc_to_ns ticks freq = Some n -> 0 <= n /\ n * freq < 2 ^ 64)
  /\ (forall ticks n : Z,
        tsc_to_ns ticks default_tsc_freq = Some n -> n < 6588122884)
  /\ (forall ticks : Z, tsc_to_ns ticks 0 = None).
Proof.
  assert (forall ticks freq : Z,
            0 < freq -> tsc_to_ns ticks freq
                        = Some (wrap64 (ticks * 10 ^ 9) / freq)) as Hdef.
  { intros ticks freq Hf. unfold tsc_to_ns.
    destruct (Z.eqb_spec freq 0); [lia | reflexivity]. }
  assert (forall ticks freq : Z,
            0 < freq -> 0 <= ticks -> ticks * 10 ^ 9 < 2 ^ 64 ->
            tsc_to_ns ticks freq = Some (ticks * 10 ^ 9 / freq)) as Hexact.
  { intros ticks freq Hf Ht Hfit. rewrite Hdef by exact Hf.
    unfold wrap64. rewrite wrap_small; [reflexivity | lia]. }
  assert (forall ticks freq n : Z,
            0 < freq -> tsc_to_ns ticks freq = Some n ->
            0 <= n /\ n * freq < 2 ^ 64) as Hbound.
  { intros ticks freq n Hf. rewrite Hdef by exact Hf. intros [= <-].
    pose proof (wrap_range 64 (ticks * 10 ^ 9) ltac:(lia)) as Hw.
    unfold wrap64. split; [apply Z.div_pos; lia |].
    pose proof (Z.mul_div_le (wrap 64 (ticks * 10 ^ 9)) freq Hf). lia. }
  split; [exact Hexact |]. split; [| split; [| split; [exact Hbound | split]]].
  - intros t1 t2 freq n1 n2 Hf Ht Hfit.
    rewrite !Hexact by (try assumption; lia). intros [= <-] [= <-].
    apply Z.div_le_mono; lia.
  - intros k freq Hf Hk Hfit. rewrite Hexact by (try assumption; nia).
    f_equal. replace (k * freq * 10 ^ 9) with (k * 10 ^ 9 * freq) by lia.
    apply Z.div_mul. lia.
  - intros ticks n H. apply Hbound in H; [| reflexivity].
    unfold default_tsc_freq in H. change (2 ^ 64) with 18446744073709551616 in H.
    lia.
  - reflexivity.
Qed.

Lemma tsc_to_ns_exact_until_overflow_witness :
  CommonTypes.tsc_to_ns 5600000000 CommonTypes.default_tsc_freq = Some 2000000000.
Proof.
  destruct tsc_to_ns_exact_until_overflow as (_ & _ & Hsec & _).
  apply (Hsec 2 CommonTypes.default_tsc_freq); vm_compute; congruence.
Defined.

End Timestamps.

(** * Barriers and tail-register writes *)

Section Barriers.

Import Ordering.

Lemma replay_app (t1 t2 : list event) :
  forall r : regfile, replay (t1 ++ t2) r = replay t2 (replay t1 r).
Proof.
  induction t1 as [| e t1 IH]; intros r; [reflexivity |].
  destruct e; cbn [app replay]; apply IH.
Qed.

Lemma replay_stores (t : list event) (r : regfile) :
  Forall (fun e => is_store e = true) t -> replay t r = r.
Proof.
  induction 1 as [| e t He _ IH]; [reflexivity |].
  destruct e; try discriminate He. exact IH.
Qed.

Lemma ordered_stores (tail : Z -> bool) (t1 t2 : list event) (pending : bool) :
  Forall (fun e => is_store e = true) t1 ->
  ordered tail pending (t1 ++ t2)
  = ordered tail (pending || negb (length t1 =? 0)%nat) t2.
Proof.
  intros H. revert pending.
  induction H as [| e t1 He _ IH]; intros pending.
  - cbn. now rewrite orb_false_r.
  - destruct e; try discriminate He. cbn [app ordered]. rewrite IH.
    cbn. now rewrite orb_true_r.
Qed.

Lemma fence_follows_stores (t1 t2 : list event) :
  Forall (fun e => is_store e = true) t1 ->
  fence_follows (t1 ++ t2) = fence_follows t2.
Proof.
  induction 1 as [| e t1 He _ IH]; [reflexivity |].
  destruct e; try discriminate He. exact IH.
Qed.

Lemma ordered_no_fence (tail : Z -> bool) (t : list event) (o v : Z) :
  Forall (fun e => is_fence e = false) t ->
  In (RegWrite o v) t -> tail o = true ->
  ordered tail true t = false.
Proof.
  intros Hno Hin Ht. induction Hno as [| e t He _ IH]; [destruct Hin |].
  destruct Hin as [-> | Hin].
  - cbn [ordered]. now rewrite Ht.
  - destruct e; try discriminate He; cbn [ordered].
    + exact (IH Hin).
    + rewrite (IH Hin). apply andb_false_r.
Qed.

Lemma copy_stores (addr n : Z) : Forall (fun e => is_store e = true) (copy addr n).
Proof. unfold copy. destruct (n =? 0); repeat constructor. Qed.

End Barriers.

Section BroadcomBarriers.

Import Broadcom BroadcomRegs BroadcomInit Ordering.

Lemma broadcom_fill_trace (s s' : BroadcomNetXtreme) (nt : Z)
    (data : list Byte.byte) (len : Z) (b : bool) :
  send_packet_fill nt data len s = Ok (b, s') ->
  b = true
  /\ BroadcomTrace.send_packet_fill nt data len s
     = Ok (copy (tx_buffers_ s + wrap32 (tx_tail_ s * MAX_PACKET_SIZE)) len
           ++ replicate 5 (Store (TxDescriptorField (tx_tail_ s)))
           ++ [Sfence; RegWrite REG_TX_RING_TAIL nt])
  /\ bar0_ s' = reg_write (bar0_ s) REG_TX_RING_TAIL nt
  /\ tx_tail_ s' = nt.
Proof.
  unfold send_packet_fill, BroadcomTrace.send_packet_fill.
  destruct (memcpy _ _ _ _) as [m | f]; [rewrite !bind_Ok | discriminate].
  destruct (at_index _ _) as [d | f]; [rewrite !bind_Ok | discriminate].
  intros [= <- <-]. repeat split.
Qed.

Lemma broadcom_fill_ordered (addr len slot nt : Z) (pending : bool) :
  ordered BroadcomTrace.is_tail pending
    (copy addr len ++ replicate 5 (Store (TxDescriptorField slot))
     ++ [Sfence; RegWrite REG_TX_RING_TAIL nt]) = true.
Proof.
  rewrite (ordered_stores _ _ _ _ (copy_stores addr len)). reflexivity.
Qed.

Lemma broadcom_fill_replay (addr len slot nt : Z) (r : regfile) :
  replay (copy addr len ++ replicate 5 (Store (TxDescriptorField slot))
          ++ [Sfence; RegWrite REG_TX_RING_TAIL nt]) r
  = reg_write r REG_TX_RING_TAIL nt.
Proof.
  rewrite replay_app, (replay_stores _ _ (copy_stores addr len)). reflexivity.
Qed.

Lemma broadcom_fill_traced (s0 s' : BroadcomNetXtreme) (r0 : regfile) (nt : Z)
    (data : list Byte.byte) (len : Z) (b : bool) :
  bar0_ s0 = r0 ->
  send_packet_fill nt data len s0 = Ok (b, s') ->
  exists t,
    BroadcomTrace.send_packet_fill nt data len s0 = Ok t
    /\ replay t r0 = bar0_ s'
    /\ (forall pending, ordered BroadcomTrace.is_tail pending t = true)
    /\ (if b
        then exists stores,
               t = stores ++ [Sfence; RegWrite REG_TX_RING_TAIL (tx_tail_ s')]
               /\ Forall (fun e => is_store e = true) stores
               /\ stores <> []
        else t = []).
Proof.
  intros Hbar H.
  destruct (broadcom_fill_trace _ _ _ _ _ _ H) as (-> & Ht & Hb & Htail).
  eexists. split; [exact Ht |].
  split; [rewrite broadcom_fill_replay, Hb, Hbar; reflexivity |].
  split; [intros pending; apply broadcom_fill_ordered |].
  eexists (copy _ len ++ replicate 5 _). rewrite Htail, <- app_assoc.
  split; [reflexivity |].
  split; [apply Forall_app; split; [apply copy_stores | repeat constructor] |].
  destruct (copy _ len); discriminate.
Qed.

Lemma broadcom_send_trace (s s' : BroadcomNetXtreme) (data : list Byte.byte)
    (len : Z) (b : bool) :
  send_packet data len s = Ok (b, s') ->
  exists t,
    BroadcomTrace.send_packet data len s = Ok t
    /\ replay t (bar0_ s) = bar0_ s'
    /\ (forall pending, ordered BroadcomTrace.is_tail pending t = true)
    /\ (if b
        then exists stores,
               t = stores ++ [Sfence; RegWrite REG_TX_RING_TAIL (tx_tail_ s')]
               /\ Forall (fun e => is_store e = true) stores
               /\ stores <> []
        else t = []).
Proof.
  pose proof (reclaim_loop_registers (Z.to_nat TX_RING_SIZE) s) as Hreg.
  unfold send_packet, BroadcomTrace.send_packet, reclaim_tx_descriptors.
  generalize dependent (reclaim_loop (Z.to_nat TX_RING_SIZE) s).
  intros rec Hreg.
  destruct (_ =? tx_head_ s);
    [| apply broadcom_fill_traced; reflexivity].
  destruct rec as [s1 | f]; [rewrite !bind_Ok | discriminate].
  destruct (Hreg s1 eq_refl) as (Hbar & _).
  destruct (_ =? tx_head_ s1); [| apply broadcom_fill_traced; exact Hbar].
  intros [= <- <-]. exists []. split; [reflexivity |].
  split; [exact (eq_sym Hbar) |]. split; [reflexivity | reflexivity].
Qed.

Lemma broadcom_receive_trace (s s' : BroadcomNetXtreme) (r : option (Z * Z)) :
  receive_packet s = Ok (r, s') ->
  exists t,
    BroadcomTrace.receive_packet s = Ok t
    /\ replay t (bar0_ s) = bar0_ s'
    /\ t = match r with
           | Some _ =>
               [Store (RxDescriptorField (rx_head_ s));
                RegWrite REG_RX_RING_TAIL
                  (Z.land (wrap32 (rx_head_ s' - 1)) (RX_RING_SIZE - 1))]
           | None => []
           end.
Proof.
  unfold receive_packet, BroadcomTrace.receive_packet.
  destruct (at_index _ _) as [d | f]; [rewrite !bind_Ok | discriminate].
  destruct (_ =? 0); intros [= <- <-]; eexists; repeat split.
Qed.

Lemma broadcom_allocate_trace (env : environment) (s : BroadcomNetXtreme) :
  Forall (fun e => is_store e = true) (BroadcomTrace.allocate_rings env)
  /\ ((allocate_rings env s).1 = true -> BroadcomTrace.allocate_rings env <> []).
Proof.
  unfold BroadcomTrace.allocate_rings, allocate_rings, rx_region, tx_region.
  destruct (rx_ring_mem env =? 0); [split; [constructor | discriminate] |].
  destruct (tx_ring_mem env =? 0);
    [split; [repeat constructor | discriminate] |].
  split; [| discriminate].
  constructor; [reflexivity |]. constructor; [reflexivity |].
  destruct (_ =? 0); [constructor |]. destruct (_ =? 0); [constructor |].
  apply Forall_fmap, Forall_forall. reflexivity.
Qed.

Lemma broadcom_program_trace (env : environment) (s : BroadcomNetXtreme) :
  replay (BroadcomTrace.program_registers env s) (bar0_ s)
  = bar0_ (program_registers env s)
  /\ Forall (fun e => is_fence e = false) (BroadcomTrace.program_registers env s)
  /\ In (RegWrite REG_RX_RING_TAIL (RX_RING_SIZE - 1))
        (BroadcomTrace.program_registers env s)
  /\ In (RegWrite REG_TX_RING_TAIL 0) (BroadcomTrace.program_registers env s).
Proof.
  split; [| split; [repeat constructor | split; cbn; tauto]].
  unfold BroadcomTrace.program_registers, program_registers, enable_rx_tx.
  cbn zeta. unfold BroadcomTrace.write_reg. cbn [app replay].
  rewrite !read_write_reg.
  repeat match goal with
         | |- context [?a =? ?b] =>
             change (a =? b) with false
         end.
  cbn match. reflexivity.
Qed.

End BroadcomBarriers.

Section BroadcomSetupBarriers.

Import Broadcom BroadcomRegs BroadcomInit Ordering.

Lemma broadcom_initialize_traced (env : environment) (s : BroadcomNetXtreme) :
  (initialize env s).1 = true ->
  exists s2,
    BroadcomTrace.initialize env s
    = BroadcomTrace.reset_device ++ BroadcomTrace.allocate_rings env
      ++ BroadcomTrace.program_registers env s2
    /\ BroadcomTrace.allocate_rings env <> []
    /\ (initialize env s).2 = set_initialized true (program_registers env s2).
Proof.
  unfold initialize, BroadcomTrace.initialize, map_bar0.
  destruct (bar0_window env) as [r |]; cbn [fst snd negb]; [| discriminate].
  destruct (reset_device env (set_bar0 r s)) as [[] s1] eqn:E1;
    cbn [fst snd negb]; [| discriminate].
  pose proof (proj2 (broadcom_allocate_trace env s1)) as Hne.
  destruct (allocate_rings env s1) as [[] s2] eqn:E2; cbn [fst snd negb];
    [| discriminate].
  intros _. exists s2. split; [reflexivity |]. split; [| reflexivity].
  exact (Hne eq_refl).
Qed.

Lemma broadcom_initialize_unfenced (env : environment) (s2 : BroadcomNetXtreme) :
  BroadcomTrace.allocate_rings env <> [] ->
  Forall (fun e => is_fence e = false)
    (BroadcomTrace.reset_device ++ BroadcomTrace.allocate_rings env
     ++ BroadcomTrace.program_registers env s2)
  /\ ordered BroadcomTrace.is_tail false
       (BroadcomTrace.reset_device ++ BroadcomTrace.allocate_rings env
        ++ BroadcomTrace.program_registers env s2) = false.
Proof.
  intros Hne.
  destruct (broadcom_program_trace env s2) as (_ & Hno & Hin & _).
  destruct (broadcom_allocate_trace env s2) as [Hst _].
  split.
  - apply Forall_app. split; [repeat constructor |].
    apply Forall_app. split; [| exact Hno].
    eapply Forall_impl; [exact Hst |]. intros [] He; try discriminate He.
    reflexivity.
  - unfold BroadcomTrace.reset_device, BroadcomTrace.write_reg.
    cbn [app ordered]. change (BroadcomTrace.is_tail REG_DEVICE_CONTROL) with false.
    cbn [andb negb].
    rewrite (ordered_stores _ _ _ _ Hst). cbn [orb].
    destruct (BroadcomTrace.allocate_rings env) as [| e l]; [contradiction |].
    cbn [length Nat.eqb negb].
    exact (ordered_no_fence _ _ _ _ Hno Hin eq_refl).
Qed.

End BroadcomSetupBarriers.

Section CustomBarriers.

Import Custom CustomInit Ordering.

Lemma custom_poll_trace (s s' : CustomNICDriver) (r : option (Z * Z)) :
  poll_rx s = Ok (r, s') ->
  exists t,
    CustomTrace.poll_rx s = Ok t
    /\ replay t (bar0_ s) = bar0_ s'
    /\ t = match r with
           | Some _ =>
               [Store (RxDescriptorField (rx_head_ s));
                RegWrite registers.RX_TAIL (rx_head_ s'); Mfence]
           | None => []
           end.
Proof.
  unfold poll_rx, CustomTrace.poll_rx. cbn zeta.
  destruct (_ =? rx_head_ s); [intros [= <- <-]; eexists; repeat split |].
  destruct (at_index (rx_ring_ s) _) as [d | f]; [rewrite !bind_Ok | discriminate].
  destruct (_ =? 0); [intros [= <- <-]; eexists; repeat split |].
  destruct (at_index (rx_buffers_ s) _) as [p | f];
    [rewrite !bind_Ok | discriminate].
  intros [= <- <-]. eexists. repeat split.
Qed.

Lemma custom_submit_trace (pm : option (Z -> Z)) (s s' : CustomNICDriver)
    (data : list Byte.byte) (len : Z) (r : bool) :
  submit_tx pm data len s = Ok (r, s') ->
  exists t,
    CustomTrace.submit_tx data len s = Ok t
    /\ replay t (bar0_ s) = bar0_ s'
    /\ fence_follows t = true
    /\ (if r
        then (exists stores,
                t = stores ++ [RegWrite registers.TX_TAIL (tx_tail_ s'); Mfence]
                /\ Forall (fun e => is_store e = true) stores
                /\ stores <> [])
             /\ forall pending, ordered CustomTrace.is_tail pending t = false
        else t = []).
Proof.
  unfold submit_tx, CustomTrace.submit_tx.
  destruct (_ <? len); [intros [= <- <-]; eexists; repeat split |].
  destruct (at_index (tx_buffers_ s) _) as [buf | f];
    [rewrite !bind_Ok | discriminate].
  destruct (memcpy _ _ _ _) as [m | f]; [rewrite !bind_Ok | discriminate].
  destruct (at_index (tx_ring_ s) _) as [d | f];
    [rewrite !bind_Ok | discriminate].
  intros [= <- <-]. eexists. split; [reflexivity |].
  cbn [bar0_ tx_tail_].
  split; [rewrite replay_app, (replay_stores _ _ (copy_stores buf len));
          reflexivity |].
  split; [rewrite (fence_follows_stores _ _ (copy_stores buf len)); reflexivity |].
  split.
  - exists (copy buf len ++ replicate 3 (Store (TxDescriptorField (tx_tail_ s)))).
    rewrite <- app_assoc. split; [reflexivity |].
    split; [apply Forall_app; split; [apply copy_stores | repeat constructor] |].
    destruct (copy buf len); discriminate.
  - intros pending. rewrite (ordered_stores _ _ _ _ (copy_stores buf len)).
    reflexivity.
Qed.

Lemma custom_bind_rx_trace (env : environment) (left : nat) :
  forall (i : nat) (s : CustomNICDriver),
    (CustomTrace.bind_rx_buffers env i left).1 = (bind_rx_buffers env i left s).1
    /\ Forall (fun e => is_store e = true)
         (CustomTrace.bind_rx_buffers env i left).2.
Proof.
  induction left as [| left IH]; intros i s;
    cbn [bind_rx_buffers CustomTrace.bind_rx_buffers].
  - split; [reflexivity | constructor].
  - cbn zeta. destruct (_ =? 0); cbn [fst snd].
    + split; [reflexivity | constructor].
    + destruct (IH (S i) (set_rx_desc i
                            (virt_to_phys (pagemap env)
                               (allocate_dma_memory (rx_buffer_maps env i)))
                            (set_rx_buffer i
                               (allocate_dma_memory (rx_buffer_maps env i)) s)))
        as [H1 H2].
      split; [exact H1 | repeat constructor; exact H2].
Qed.

Lemma custom_program_trace (pm : option (Z -> Z)) (rx tx : Z)
    (s : CustomNICDriver) :
  replay (CustomTrace.program_rx_ring pm rx ++ CustomTrace.program_tx_ring pm tx)
         (bar0_ s)
  = bar0_ (program_tx_ring pm tx (program_rx_ring pm rx s))
  /\ (forall pending,
        ordered CustomTrace.is_tail pending
          (CustomTrace.program_rx_ring pm rx ++ CustomTrace.program_tx_ring pm tx)
        = true)
  /\ fence_follows
       (CustomTrace.program_rx_ring pm rx ++ CustomTrace.program_tx_ring pm tx)
     = true
  /\ In (RegWrite registers.RX_TAIL (RX_RING_SIZE - 1))
        (CustomTrace.program_rx_ring pm rx ++ CustomTrace.program_tx_ring pm tx)
  /\ In (RegWrite registers.TX_TAIL 0)
        (CustomTrace.program_rx_ring pm rx ++ CustomTrace.program_tx_ring pm tx).
Proof.
  split; [reflexivity |]. split; [intros []; reflexivity |].
  split; [reflexivity |]. split; cbn; tauto.
Qed.

Lemma custom_initialize_trace (env : environment) (s : CustomNICDriver) :
  (forall pending,
      ordered CustomTrace.is_tail pending (CustomTrace.initialize env) = true)
  /\ fence_follows (CustomTrace.initialize env) = true
  /\ ((initialize env s).1 = true ->
      exists r,
        bar0_window env = Some r
        /\ replay (CustomTrace.initialize env) r = bar0_ (initialize env s).2
        /\ In (RegWrite registers.RX_TAIL (RX_RING_SIZE - 1))
              (CustomTrace.initialize env)
        /\ In (RegWrite registers.TX_TAIL 0) (CustomTrace.initialize env)).
Proof.
  destruct (custom_initialize_cases env s)
    as [[Hwin Hinit] | [(r & Hwin & Hnull & Hret & _)
                       | (r & ok & s1 & Hwin & E1 & E2 & Hbind & Hinit)]].
  - rewrite Hinit. unfold CustomTrace.initialize. rewrite Hwin.
    split; [reflexivity |]. split; [reflexivity | discriminate].
  - rewrite Hret. unfold CustomTrace.initialize. rewrite Hwin. cbn zeta.
    assert ((allocate_dma_memory (rx_ring_maps env) =? 0)
            || (allocate_dma_memory (tx_ring_maps env) =? 0) = true) as ->.
    { destruct Hnull as [-> | ->]; [reflexivity | apply orb_true_r]. }
    split; [reflexivity |]. split; [reflexivity | discriminate].
  - destruct (custom_bind_rx_trace env (Z.to_nat RX_RING_SIZE) 0
                (set_rings (replicate (Z.to_nat RX_RING_SIZE) zero_rx)
                   (replicate (Z.to_nat TX_RING_SIZE) zero_tx) (set_bar0 r s)))
      as [Hsame Hstores].
    rewrite Hbind in Hsame. cbn [fst] in Hsame.
    destruct (custom_bind_rx_buffers_inv _ _ _ _ _ _ Hbind)
      as (_ & (Hbar & _) & _).
    cbn [set_rings set_bar0 bar0_] in Hbar.
    destruct (custom_bind_tx_buffers_spec env s1) as ((Hbar2 & _) & _).
    destruct (custom_program_trace (pagemap env)
                (allocate_dma_memory (rx_ring_maps env))
                (allocate_dma_memory (tx_ring_maps env))
                (bind_tx_buffers env s1))
      as (Hreplay & Hord & Hff & Hrx & Htx).
    rewrite Hbar2, Hbar in Hreplay.
    rewrite Hinit. clear Hinit Hbind.
    unfold CustomTrace.initialize. rewrite Hwin. cbn zeta.
    apply Z.eqb_neq in E1, E2. rewrite E1, E2. cbn [orb].
    remember (CustomTrace.bind_rx_buffers env 0 (Z.to_nat RX_RING_SIZE))
      as b eqn:Hb. clear Hb.
    destruct b as [ok' stores]. cbn [fst snd] in *. subst ok'.
    remember (bind_tx_buffers env s1) as s2 eqn:Hs2. clear Hs2.
    destruct ok; cbn [negb fst snd].
    + split; [intros pending; rewrite (ordered_stores _ _ _ _ Hstores);
              apply Hord |].
      split; [rewrite (fence_follows_stores _ _ Hstores); exact Hff |].
      intros _. exists r. split; [reflexivity |].
      split.
      { rewrite replay_app, (replay_stores _ _ Hstores), Hreplay. reflexivity. }
      split; apply in_or_app; right; assumption.
    + split; [| split; [| discriminate]].
      * intros pending.
        pose proof (ordered_stores CustomTrace.is_tail stores [] pending Hstores)
          as H.
        rewrite app_nil_r in H. rewrite H. reflexivity.
      * pose proof (fence_follows_stores stores [] Hstores) as H.
        rewrite app_nil_r in H. rewrite H. reflexivity.
Qed.

End CustomBarriers.

(** C7 (as amended).  [BroadcomNetXtreme::send_packet] puts a store barrier
    between its stores to DMA memory and its tail write: whenever the call
    returns, the register writes of its trace are the ones the driver state
    records; an accepted frame gives stores to the buffer and the
    descriptor, then [_mm_sfence()], then the write of the new tail to
    [REG_TX_RING_TAIL]; and the tail write is ordered after a barrier
    whatever was pending before the call.
    [CustomNICDriver] has its barrier inside [write_reg32], after the
    register store.  In [initialize] the two tail writes are ordered after
    the barriers of the register writes before them, no store to DMA
    memory lying in between.  In [poll_rx] and [submit_tx] the tail write
    directly follows the stores to the descriptor and the buffer made in
    the same call and the barrier comes after it: a call that delivers a
    packet or accepts a frame does not order its tail write after a
    barrier. *)
Theorem tail_writes_and_barriers :
  (forall (s s' : Broadcom.BroadcomNetXtreme) (data : list Byte.byte) (len : Z)
          (b : bool),
      0 <= len < 2 ^ 16 ->
      Broadcom.send_packet data len s = Ok (b, s') ->
      exists t,
        BroadcomTrace.send_packet data len s = Ok t
        /\ Ordering.replay t (Broadcom.bar0_ s) = Broadcom.bar0_ s'
        /\ (forall pending,
              Ordering.ordered BroadcomTrace.is_tail pending t = true)
        /\ (if b
            then exists stores,
                   t = stores
                       ++ [Ordering.Sfence;
                           Ordering.RegWrite Broadcom.REG_TX_RING_TAIL
                             (Broadcom.tx_tail_ s')]
                   /\ Forall (fun e => Ordering.is_store e = true) stores
                   /\ stores <> []
            else t = []))
  /\ (forall (env : CustomInit.environment) (s : Custom.CustomNICDriver),
        (forall pending,
            Ordering.ordered CustomTrace.is_tail pending
              (CustomTrace.initialize env) = true)
        /\ Ordering.fence_follows (CustomTrace.initialize env) = true
        /\ ((CustomInit.initialize env s).1 = true ->
            exists r,
              CustomInit.bar0_window env = Some r
              /\ Ordering.replay (CustomTrace.initialize env) r
                 = Custom.bar0_ (CustomInit.initialize env s).2
              /\ In (Ordering.RegWrite Custom.registers.RX_TAIL
                       (Custom.RX_RING_SIZE - 1))
                    (CustomTrace.initialize env)
              /\ In (Ordering.RegWrite Custom.registers.TX_TAIL 0)
                    (CustomTrace.initialize env)))
  /\ (forall (s s' : Custom.CustomNICDriver) (r : option (Z * Z)),
        Custom.poll_rx s = Ok (r, s') ->
        exists t,
          CustomTrace.poll_rx s = Ok t
          /\ Ordering.replay t (Custom.bar0_ s) = Custom.bar0_ s'
          /\ Ordering.fence_follows t = true
          /\ t = match r with
                 | Some _ =>
                     [Ordering.Store
                        (Ordering.RxDescriptorField (Custom.rx_head_ s));
                      Ordering.RegWrite Custom.registers.RX_TAIL
                        (Custom.rx_head_ s');
                      Ordering.Mfence]
                 | None => []
                 end
          /\ (r <> None ->
              forall pending,
                Ordering.ordered CustomTrace.is_tail pending t = false))
  /\ (forall (pagemap : option (Z -> Z)) (s s' : Custom.CustomNICDriver)
             (data : list Byte.byte) (len : Z) (r : bool),
        0 <= len ->
        Custom.submit_tx pagemap data len s = Ok (r, s') ->
        exists t,
          CustomTrace.submit_tx data len s = Ok t
          /\ Ordering.replay t (Custom.bar0_ s) = Custom.bar0_ s'
          /\ Ordering.fence_follows t = true
          /\ (if r
              then (exists stores,
                      t = stores
                          ++ [Ordering.RegWrite Custom.registers.TX_TAIL
                                (Custom.tx_tail_ s');
                              Ordering.Mfence]
                      /\ Forall (fun e => Ordering.is_store e = true) stores
                      /\ stores <> [])
                   /\ forall pending,
                        Ordering.ordered CustomTrace.is_tail pending t = false
              else t = [])).
Proof.
  split; [intros s s' data len b _; apply broadcom_send_trace |].
  split; [exact custom_initialize_trace |].
  split; [| intros pagemap s s' data len r _; apply custom_submit_trace].
  intros s s' r Hpoll.
  destruct (custom_poll_trace s s' r Hpoll) as (t & Ht & Hreplay & ->).
  exists (match r with
          | Some _ =>
              [Ordering.Store (Ordering.RxDescriptorField (Custom.rx_head_ s));
               Ordering.RegWrite Custom.registers.RX_TAIL (Custom.rx_head_ s');
               Ordering.Mfence]
          | None => []
          end).
  split; [exact Ht |]. split; [exact Hreplay |].
  destruct r as [p |].
  - split; [reflexivity |]. split; [reflexivity |]. intros _ pending. reflexivity.
  - split; [reflexivity |]. split; [reflexivity |]. intros H. contradiction.
Qed.

Lemma tail_writes_and_barriers_witness :
  (exists t,
     BroadcomTrace.send_packet Samples.hello 5 Scenario.broadcom_idle = Ok t
     /\ Ordering.ordered BroadcomTrace.is_tail true t = true)
  /\ (exists r,
        CustomInit.bar0_window CustomSamples.all_allocated = Some r
        /\ Ordering.replay (CustomTrace.initialize CustomSamples.all_allocated) r
           = Custom.bar0_
               (CustomInit.initialize CustomSamples.all_allocated
                  CustomSamples.fresh).2)
  /\ (exists t,
        CustomTrace.poll_rx CustomSamples.three_rx = Ok t
        /\ Ordering.ordered CustomTrace.is_tail false t = false)
  /\ (exists t,
        CustomTrace.submit_tx Samples.hello 5 CustomSamples.three_rx = Ok t
        /\ Ordering.ordered CustomTrace.is_tail false t = false).
Proof.
  destruct tail_writes_and_barriers as (Hsend & Hinit & Hpoll & Hsubmit).
  split; [| split; [| split]].
  - destruct (Broadcom.send_packet Samples.hello 5 Scenario.broadcom_idle)
      as [[b s'] | f] eqn:E; [| vm_compute in E; discriminate E].
    assert (0 <= 5 < 2 ^ 16) as Hlen
      by (split; [vm_compute; discriminate | reflexivity]).
    destruct (Hsend _ _ _ _ _ Hlen E) as (t & Ht & _ & Hord & _).
    exists t. split; [exact Ht | apply Hord].
  - destruct (Hinit CustomSamples.all_allocated CustomSamples.fresh)
      as (_ & _ & Hok).
    destruct Hok as (r & Hwin & Hreplay & _); [vm_compute; reflexivity |].
    exists r. split; [exact Hwin | exact Hreplay].
  - destruct (Custom.poll_rx CustomSamples.three_rx)
      as [[[p |] s'] | f] eqn:E;
      [| vm_compute in E; discriminate E | vm_compute in E; discriminate E].
    destruct (Hpoll _ _ _ E) as (t & Ht & _ & _ & _ & Hord).
    exists t. split; [exact Ht | apply Hord; discriminate].
  - destruct (Custom.submit_tx None Samples.hello 5 CustomSamples.three_rx)
      as [[[] s'] | f] eqn:E;
      [| vm_compute in E; discriminate E | vm_compute in E; discriminate E].
    assert (0 <= 5) as Hlen by (vm_compute; discriminate).
    destruct (Hsubmit _ _ _ _ _ _ Hlen E) as (t & Ht & _ & _ & _ & Hord).
    exists t. split; [exact Ht | apply Hord].
Defined.

(** C7, the claim as worded fails on [CustomNICDriver::submit_tx]: the
    five-byte frame is accepted, and the trace of the call has the copy
    and the three descriptor stores directly followed by the write of
    [TX_TAIL]; the only barrier of the call comes after that write. *)
Lemma tail_write_before_barrier_counterexample :
  (exists s',
     Custom.submit_tx None Samples.hello 5 CustomSamples.three_rx = Ok (true, s'))
  /\ CustomTrace.submit_tx Samples.hello 5 CustomSamples.three_rx
     = Ok [Ordering.Store (Ordering.BufferBytes 0x20000000 5);
           Ordering.Store (Ordering.TxDescriptorField 0);
           Ordering.Store (Ordering.TxDescriptorField 0);
           Ordering.Store (Ordering.TxDescriptorField 0);
           Ordering.RegWrite Custom.registers.TX_TAIL 1;
           Ordering.Mfence]
  /\ Ordering.ordered CustomTrace.is_tail false
       [Ordering.Store (Ordering.BufferBytes 0x20000000 5);
        Ordering.Store (Ordering.TxDescriptorField 0);
        Ordering.Store (Ordering.TxDescriptorField 0);
        Ordering.Store (Ordering.TxDescriptorField 0);
        Ordering.RegWrite Custom.registers.TX_TAIL 1;
        Ordering.Mfence] = false.
Proof.
  split; [| split; [vm_compute; reflexivity | reflexivity]].
  destruct (Custom.submit_tx None Samples.hello 5 CustomSamples.three_rx)
    as [[[] s'] | f] eqn:E;
    [| vm_compute in E; discriminate E | vm_compute in E; discriminate E].
  exists s'. reflexivity.
Qed.

(** X25.  [BroadcomNetXtreme::receive_packet] and [initialize] write the
    tail registers with no barrier anywhere in the call.  A
    [receive_packet] that delivers a packet clears the descriptor status
    and then writes [REG_RX_RING_TAIL]; a successful [initialize] fills the
    rings, stores the buffer address of every RX descriptor and then
    programs the registers, both tail registers among them.  Neither tail
    write is ordered after a barrier. *)
Theorem broadcom_tail_writes_without_barrier :
  (forall (s s' : Broadcom.BroadcomNetXtreme) (r : option (Z * Z)),
      Broadcom.receive_packet s = Ok (r, s') ->
      exists t,
        BroadcomTrace.receive_packet s = Ok t
        /\ Ordering.replay t (Broadcom.bar0_ s) = Broadcom.bar0_ s'
        /\ t = match r with
               | Some _ =>
                   [Ordering.Store
                      (Ordering.RxDescriptorField (Broadcom.rx_head_ s));
                    Ordering.RegWrite Broadcom.REG_RX_RING_TAIL
                      (Z.land (wrap32 (Broadcom.rx_head_ s' - 1))
                              (Broadcom.RX_RING_SIZE - 1))]
               | None => []
               end
        /\ (r <> None ->
            forall pending,
              Ordering.ordered BroadcomTrace.is_tail pending t = false))
  /\ (forall (env : BroadcomInit.environment) (s : Broadcom.BroadcomNetXtreme),
        (BroadcomInit.initialize env s).1 = true ->
        Forall (fun e => Ordering.is_fence e = false)
          (BroadcomTrace.initialize env s)
        /\ In (Ordering.RegWrite Broadcom.REG_RX_RING_TAIL
                 (Broadcom.RX_RING_SIZE - 1))
              (BroadcomTrace.initialize env s)
        /\ In (Ordering.RegWrite Broadcom.REG_TX_RING_TAIL 0)
              (BroadcomTrace.initialize env s)
        /\ Ordering.ordered BroadcomTrace.is_tail false
             (BroadcomTrace.initialize env s) = false).
Proof.
  split.
  - intros s s' r Hrecv.
    destruct (broadcom_receive_trace s s' r Hrecv) as (t & Ht & Hreplay & ->).
    eexists. split; [exact Ht |]. split; [exact Hreplay |].
    split; [reflexivity |].
    destruct r as [p |]; [intros _ pending; reflexivity | intros H; contradiction].
  - intros env s Hok.
    destruct (broadcom_initialize_traced env s Hok) as (s2 & -> & Hne & _).
    destruct (broadcom_initialize_unfenced env s2 Hne) as [Hno Hord].
    destruct (broadcom_program_trace env s2) as (_ & _ & Hrx & Htx).
    split; [exact Hno |].
    split; [apply in_or_app; right; apply in_or_app; right; exact Hrx |].
    split; [apply in_or_app; right; apply in_or_app; right; exact Htx |].
    exact Hord.
Qed.

Lemma broadcom_tail_writes_without_barrier_witness :
  (exists t,
     BroadcomTrace.receive_packet Samples.broadcom_two_rx = Ok t
     /\ Ordering.ordered BroadcomTrace.is_tail false t = false)
  /\ Ordering.ordered BroadcomTrace.is_tail false
       (BroadcomTrace.initialize InitSamples.bring_up BroadcomInit.new) = false.
Proof.
  destruct broadcom_tail_writes_without_barrier as [Hrecv Hinit].
  split.
  - destruct (Broadcom.receive_packet Samples.broadcom_two_rx)
      as [[[p |] s'] | f] eqn:E;
      [| vm_compute in E; discriminate E | vm_compute in E; discriminate E].
    destruct (Hrecv _ _ _ E) as (t & Ht & _ & _ & Hord).
    exists t. split; [exact Ht | apply Hord; discriminate].
  - destruct (Hinit InitSamples.bring_up BroadcomInit.new) as (_ & _ & _ & Hord);
      [vm_compute; reflexivity | exact Hord].
Defined.
